(** * InternDB-Curd: the student CRUD service of [crud.py]

    A shallow embedding of the five Flask handlers of [crud.py]
    ([add_student], [get_all_students], [get_student], [update_student],
    [delete_student]) together with the parts of their environment they
    depend on:

    - the Python values a JSON body decodes to, with the three dynamic
      operations the handlers apply to them ([not data], ['k' in data],
      [data.get('k')] / [data['k']]);
    - [psycopg2.sql] composition ([SQL], [join], [format]);
    - a PostgreSQL connection on the single table [students], whose schema
      (primary key, NOT NULL, UNIQUE, serial id, default timestamp) is the
      one of [create_table_if_not_exists]; statements reach the engine as
      text plus a parameter list and are parsed there;
    - transactions: a working copy that [commit] publishes and [rollback]
      discards.

    What the program cannot control (whether the server is reachable, whether
    a statement or a commit fails for an operational reason, the clock, and
    how the driver and server cast a value of the wrong Python type) is
    gathered in the record [World]; the general theorems quantify over it. *)

From Stdlib Require Import String Ascii ZArith List Bool Lia.
From Stdlib Require Import DecimalString Permutation Sorted.
From Stdlib Require Decimal DecimalFacts DecimalNat.
Import ListNotations.
Set Warnings "-register-all".
Open Scope string_scope.
Open Scope Z_scope.

(** ** Timestamps *)

(** A timezone-aware [datetime], as the driver returns a
    [TIMESTAMP WITH TIME ZONE]; [utcoffset] is in minutes. *)
Record datetime : Type := mkDatetime {
  year : nat; month : nat; day : nat;
  hour : nat; minute : nat; second : nat; microsecond : nat;
  utcoffset : Z
}.

Definition digits (n : nat) : string := NilZero.string_of_uint (Nat.to_uint n).

Fixpoint zeros (k : nat) : string :=
  match k with O => EmptyString | S k' => String "0" (zeros k') end.

(** [%0kd] *)
Definition zfill (k : nat) (n : nat) : string :=
  let s := digits n in zeros (k - String.length s) ++ s.

(** [datetime.isoformat()]: [YYYY-MM-DDTHH:MM:SS[.ffffff]+HH:MM]. *)
Definition isoformat (t : datetime) : string :=
  let off := Z.abs_nat (utcoffset t) in
  zfill 4 (year t) ++ "-" ++ zfill 2 (month t) ++ "-" ++ zfill 2 (day t)
  ++ "T" ++ zfill 2 (hour t) ++ ":" ++ zfill 2 (minute t) ++ ":"
  ++ zfill 2 (second t)
  ++ (if Nat.eqb (microsecond t) 0 then EmptyString else "." ++ zfill 6 (microsecond t))
  ++ (if utcoffset t <? 0 then "-" else "+")
  ++ zfill 2 (Nat.div off 60) ++ ":" ++ zfill 2 (Nat.modulo off 60).

(** ** Python values and exceptions *)

(** The values [request.get_json()] can return, and [PDatetime] for the
    [created_at] objects a [DictCursor] row holds.  JSON numbers are kept to
    integers; a string is the sequence of bytes of its UTF-8 encoding.  A request on which
    [get_json] itself aborts (wrong content type, malformed JSON) never
    reaches the handler's code and is not represented. *)
Inductive pyval : Type :=
| PNone
| PBool (b : bool)
| PInt (z : Z)
| PStr (s : string)
| PList (l : list pyval)
| PDict (d : list (string * pyval))
| PDatetime (t : datetime).

(** The exception classes that can reach a handler.  [str(e)] is the carried
    message.  [IntegrityError] is psycopg2's class for every constraint
    violation (SQLSTATE class 23): unique, primary key and not-null alike. *)
Inductive exn : Type :=
| TypeError (msg : string)
| AttributeError (msg : string)
| KeyError (msg : string)
| ValueError (msg : string)
| IntegrityError (msg : string)
| DataError (msg : string)
| ProgrammingError (msg : string)
| OperationalError (msg : string).

Definition str_exn (e : exn) : string :=
  match e with
  | TypeError m | AttributeError m | KeyError m | ValueError m
  | IntegrityError m | DataError m | ProgrammingError m
  | OperationalError m => m
  end.

(** [isinstance(e, psycopg2.IntegrityError)] *)
Definition is_IntegrityError (e : exn) : bool :=
  match e with IntegrityError _ => true | _ => false end.

Inductive result (A : Type) : Type :=
| Ok (a : A)
| Raise (e : exn).
Arguments Ok {A} a.
Arguments Raise {A} e.

(** [str(n)] for an integer *)
Definition str_of_Z (z : Z) : string := NilZero.string_of_int (Z.to_int z).

Definition type_name (v : pyval) : string :=
  match v with
  | PNone => "NoneType"
  | PBool _ => "bool"
  | PInt _ => "int"
  | PStr _ => "str"
  | PList _ => "list"
  | PDict _ => "dict"
  | PDatetime _ => "datetime.datetime"
  end.

(** Truth value of a Python object: [not data] is [negb (truthy data)]. *)
Definition truthy (v : pyval) : bool :=
  match v with
  | PNone => false
  | PBool b => b
  | PInt z => negb (z =? 0)
  | PStr s => negb (String.eqb s EmptyString)
  | PList l => match l with [] => false | _ => true end
  | PDict d => match d with [] => false | _ => true end
  | PDatetime _ => true
  end.

(** Dictionary access on the key/value pairs of a dict, in insertion order.
    A dict holds each key once, so the first binding is the binding. *)
Fixpoint dict_lookup (k : string) (d : list (string * pyval)) : option pyval :=
  match d with
  | [] => None
  | (k', v) :: d' => if String.eqb k k' then Some v else dict_lookup k d'
  end.

(** [d[k] = v] on a key the dict holds: the value changes in place. *)
Fixpoint dict_set (k : string) (v : pyval) (d : list (string * pyval))
  : list (string * pyval) :=
  match d with
  | [] => [(k, v)]
  | (k', v') :: d' =>
      if String.eqb k k' then (k', v) :: d' else (k', v') :: dict_set k v d'
  end.

Definition dict_has (k : string) (d : list (string * pyval)) : bool :=
  match dict_lookup k d with Some _ => true | None => false end.

(** [needle in haystack] on two strings: substring test. *)
Fixpoint str_contains (needle hay : string) : bool :=
  if String.prefix needle hay then true
  else match hay with
       | EmptyString => false
       | String _ hay' => str_contains needle hay'
       end.

(** ['k' in data].  Membership is key membership on a dict, element equality
    on a list, substring on a string, and a [TypeError] on the rest. *)
Definition py_in (k : string) (data : pyval) : result bool :=
  match data with
  | PDict d => Ok (dict_has k d)
  | PList l =>
      Ok (existsb (fun x => match x with
                            | PStr s => String.eqb k s
                            | _ => false
                            end) l)
  | PStr s => Ok (str_contains k s)
  | _ => Raise (TypeError ("argument of type '" ++ type_name data
                           ++ "' is not iterable"))
  end.

(** [data.get('k')]: only a dict has the method. *)
Definition py_get (data : pyval) (k : string) : result pyval :=
  match data with
  | PDict d => Ok (match dict_lookup k d with Some v => v | None => PNone end)
  | _ => Raise (AttributeError ("'" ++ type_name data
                                ++ "' object has no attribute 'get'"))
  end.

(** [data['k']] with a string subscript. *)
Definition py_getitem (data : pyval) (k : string) : result pyval :=
  match data with
  | PDict d =>
      match dict_lookup k d with
      | Some v => Ok v
      | None => Raise (KeyError k)
      end
  | PStr _ => Raise (TypeError "string indices must be integers")
  | PList _ => Raise (TypeError "list indices must be integers or slices, not str")
  | _ => Raise (TypeError ("'" ++ type_name data
                           ++ "' object is not subscriptable"))
  end.

(** ** [psycopg2.sql]: composable SQL fragments *)

Module sql.

Inductive Composable : Type :=
| SQL (s : string)
| Composed (parts : list Composable).

(** [sep.join(seq)] *)
Fixpoint join (sep : Composable) (seq : list Composable) : list Composable :=
  match seq with
  | [] => []
  | [x] => [x]
  | x :: rest => x :: sep :: join sep rest
  end.

(** [SQL(template).format(args...)] for templates whose fields are the
    auto-numbered [{}]: the literal text between fields becomes [SQL]
    fragments and each field takes the next argument. *)
Fixpoint format_from (tpl lit : string) (args : list Composable)
  : list Composable :=
  match tpl with
  | EmptyString => [SQL lit]
  | String "{" (String "}" tpl') =>
      match args with
      | a :: args' => SQL lit :: a :: format_from tpl' EmptyString args'
      | [] => [SQL lit]
      end
  | String c tpl' => format_from tpl' (lit ++ String c EmptyString) args
  end.

Definition format (tpl : string) (args : list Composable) : Composable :=
  Composed (format_from tpl EmptyString args).

(** [as_string]: the text sent to the server. *)
Fixpoint as_string (c : Composable) : string :=
  match c with
  | SQL s => s
  | Composed parts =>
      (fix cat (l : list Composable) : string :=
         match l with
         | [] => EmptyString
         | p :: l' => as_string p ++ cat l'
         end) parts
  end.

End sql.

(** ** The [students] table

    [create_table_if_not_exists] declares
    [id SERIAL PRIMARY KEY, name VARCHAR(255) NOT NULL,
     email VARCHAR(255) UNIQUE NOT NULL, age INTEGER, course VARCHAR(255),
     created_at TIMESTAMP WITH TIME ZONE DEFAULT CURRENT_TIMESTAMP].
    A stored row holds one cell per column, [None] being SQL NULL; the
    constraints are not built into the type, they are checked by the engine
    when a statement runs. *)

Record row : Type := mkRow {
  id : Z;
  name : option string;
  email : option string;
  age : option Z;
  course : option string;
  created_at : option datetime
}.

(** The committed state of the database: the table and the sequence behind
    [SERIAL]. *)
Record database : Type := mkDatabase {
  students : list row;
  students_id_seq : Z
}.

(** The four columns a statement of this program can assign. *)
Inductive column : Type := c_name | c_email | c_age | c_course.

Inductive sqlval : Type :=
| VNull
| VText (s : string)
| VInt (z : Z).

Definition of_text (o : option string) : sqlval :=
  match o with Some s => VText s | None => VNull end.

Definition of_int (o : option Z) : sqlval :=
  match o with Some z => VInt z | None => VNull end.

Definition cell (c : column) (r : row) : sqlval :=
  match c with
  | c_name => of_text (name r)
  | c_email => of_text (email r)
  | c_age => of_int (age r)
  | c_course => of_text (course r)
  end.

Definition column_eqb (a b : column) : bool :=
  match a, b with
  | c_name, c_name | c_email, c_email | c_age, c_age | c_course, c_course => true
  | _, _ => false
  end.

(** What lies outside the program, for the duration of one request. *)
Record World : Type := mkWorld {
  (** [psycopg2.connect] succeeds *)
  connect_ok : bool;
  (** the statement fails for a reason other than a constraint or a value
      the column cannot take (server gone, lock timeout, table missing, ...),
      with this message *)
  execute_fault : option string;
  (** [conn.commit()] fails, with this message *)
  commit_fault : option string;
  (** [CURRENT_TIMESTAMP] *)
  now : datetime;
  (** how a parameter that is neither [None] nor a [str] is stored into a
      [VARCHAR] column, if at all *)
  cast_text : pyval -> option string;
  (** how a parameter that is neither [None] nor an [int] is stored into an
      [INTEGER] column, if at all *)
  cast_int : pyval -> option Z
}.

(** *** Binding a parameter to a column *)

Definition has_nul (s : string) : bool := str_contains (String zero EmptyString) s.

(** A [str] is held as the bytes of its UTF-8 encoding: a byte [10xxxxxx]
    continues the character begun before it, every other byte begins one. *)
Definition is_continuation (c : ascii) : bool :=
  Nat.leb 128 (nat_of_ascii c) && Nat.ltb (nat_of_ascii c) 192.

(** The number of characters of a string. *)
Fixpoint char_length (s : string) : nat :=
  match s with
  | EmptyString => O
  | String c s' =>
      if is_continuation c then char_length s' else S (char_length s')
  end.

(** The first [n] characters of a string, and what follows them. *)
Fixpoint split_chars (n : nat) (s : string) : string * string :=
  match s with
  | EmptyString => (EmptyString, EmptyString)
  | String c s' =>
      if is_continuation c then
        let (a, b) := split_chars n s' in (String c a, b)
      else
        match n with
        | O => (EmptyString, s)
        | S n' => let (a, b) := split_chars n' s' in (String c a, b)
        end
  end.

Fixpoint all_spaces (s : string) : bool :=
  match s with
  | EmptyString => true
  | String c s' => Ascii.eqb c " " && all_spaces s'
  end.

(** Storing a string into a [VARCHAR(255)] column.  The driver refuses a NUL
    character.  The server counts characters, not bytes: up to 255 are
    stored as they are; of a longer string the excess is dropped when it
    consists of spaces only, and the statement fails otherwise. *)
Definition fit_varchar (s : string) : result (option string) :=
  if has_nul s then
    Raise (ValueError "A string literal cannot contain NUL (0x00) characters.")
  else
    let (kept, excess) := split_chars 255 s in
    if all_spaces excess then Ok (Some kept)
    else Raise (DataError "value too long for type character varying(255)").

Definition fit_integer (z : Z) : result (option Z) :=
  if (-2147483648 <=? z) && (z <=? 2147483647) then Ok (Some z)
  else Raise (DataError "integer out of range").

Definition adapt_text (w : World) (v : pyval) : result (option string) :=
  match v with
  | PNone => Ok None
  | PStr s => fit_varchar s
  | _ => match cast_text w v with
         | Some s => fit_varchar s
         | None => Raise (ProgrammingError "can't adapt value to character varying")
         end
  end.

Definition adapt_int (w : World) (v : pyval) : result (option Z) :=
  match v with
  | PNone => Ok None
  | PInt z => fit_integer z
  | _ => match cast_int w v with
         | Some z => fit_integer z
         | None => Raise (DataError "invalid input syntax for type integer")
         end
  end.

(** One [column = value] of an UPDATE, after binding. *)
Inductive assignment : Type :=
| SetName (v : option string)
| SetEmail (v : option string)
| SetAge (v : option Z)
| SetCourse (v : option string).

Definition assigned_column (a : assignment) : column :=
  match a with
  | SetName _ => c_name
  | SetEmail _ => c_email
  | SetAge _ => c_age
  | SetCourse _ => c_course
  end.

Definition assigned_value (a : assignment) : sqlval :=
  match a with
  | SetName v | SetEmail v | SetCourse v => of_text v
  | SetAge v => of_int v
  end.

Definition bind_column (w : World) (c : column) (v : pyval) : result assignment :=
  match c with
  | c_name => match adapt_text w v with Ok x => Ok (SetName x) | Raise e => Raise e end
  | c_email => match adapt_text w v with Ok x => Ok (SetEmail x) | Raise e => Raise e end
  | c_age => match adapt_int w v with Ok x => Ok (SetAge x) | Raise e => Raise e end
  | c_course => match adapt_text w v with Ok x => Ok (SetCourse x) | Raise e => Raise e end
  end.

Fixpoint bind_columns (w : World) (cols : list column) (params : list pyval)
  : result (list assignment * list pyval) :=
  match cols with
  | [] => Ok ([], params)
  | c :: cols' =>
      match params with
      | [] => Raise (ProgrammingError "tuple index out of range")
      | v :: params' =>
          match bind_column w c v with
          | Raise e => Raise e
          | Ok a =>
              match bind_columns w cols' params' with
              | Raise e => Raise e
              | Ok (asg, rest) => Ok (a :: asg, rest)
              end
          end
      end
  end.

Definition set_column (r : row) (a : assignment) : row :=
  match a with
  | SetName v => mkRow (id r) v (email r) (age r) (course r) (created_at r)
  | SetEmail v => mkRow (id r) (name r) v (age r) (course r) (created_at r)
  | SetAge v => mkRow (id r) (name r) (email r) v (course r) (created_at r)
  | SetCourse v => mkRow (id r) (name r) (email r) (age r) v (created_at r)
  end.

(** *** Statement text *)

Inductive statement : Type :=
| StInsert
| StSelectAll
| StSelectById
| StUpdate (cols : list column)
| StDelete.

Fixpoint strip_prefix (p s : string) : option string :=
  match p with
  | EmptyString => Some s
  | String a p' =>
      match s with
      | EmptyString => None
      | String b s' => if Ascii.eqb a b then strip_prefix p' s' else None
      end
  end.

Definition parse_clause (s : string) : option (column * string) :=
  match strip_prefix "name = %s" s with
  | Some rest => Some (c_name, rest)
  | None =>
  match strip_prefix "email = %s" s with
  | Some rest => Some (c_email, rest)
  | None =>
  match strip_prefix "age = %s" s with
  | Some rest => Some (c_age, rest)
  | None =>
  match strip_prefix "course = %s" s with
  | Some rest => Some (c_course, rest)
  | None => None
  end end end end.

(** The SET list of an UPDATE up to and including its WHERE clause:
    [clause (", " clause)* " WHERE id = %s"].  Each clause consumes at least
    one character, so the length of the text is fuel enough. *)
Fixpoint parse_set_list (fuel : nat) (s : string) : option (list column) :=
  match fuel with
  | O => None
  | S fuel' =>
      match parse_clause s with
      | None => None
      | Some (c, rest) =>
          match strip_prefix ", " rest with
          | Some rest' =>
              match parse_set_list fuel' rest' with
              | Some cs => Some (c :: cs)
              | None => None
              end
          | None =>
              if String.eqb rest " WHERE id = %s" then Some [c] else None
          end
      end
  end.

Definition parse_statement (q : string) : option statement :=
  if String.eqb q "INSERT INTO students (name, email, age, course) VALUES (%s, %s, %s, %s) RETURNING id;"
  then Some StInsert
  else if String.eqb q "SELECT id, name, email, age, course, created_at FROM students ORDER BY id;"
  then Some StSelectAll
  else if String.eqb q "SELECT id, name, email, age, course, created_at FROM students WHERE id = %s;"
  then Some StSelectById
  else if String.eqb q "DELETE FROM students WHERE id = %s;"
  then Some StDelete
  else match strip_prefix "UPDATE students SET " q with
       | Some rest =>
           match parse_set_list (String.length rest) rest with
           | Some cs => Some (StUpdate cs)
           | None => None
           end
       | None => None
       end.

(** *** Connections, transactions and cursors *)

(** An open connection: the committed table, the working copy of the
    transaction in progress, and the sequence (which is not transactional:
    a value handed out is never taken back). *)
Record connection : Type := mkConn {
  committed : list row;
  working : list row;
  seq : Z
}.

(** What a cursor holds after [execute]. *)
Record cursor : Type := mkCursor {
  rowcount : Z;
  result_set : list row
}.

(** Code running on a connection: it may raise, and it leaves the connection
    in some state either way. *)
Definition M (A : Type) : Type := connection -> result A * connection.

Definition ret {A} (a : A) : M A := fun c => (Ok a, c).

Definition raise {A} (e : exn) : M A := fun c => (Raise e, c).

Definition bind {A B} (m : M A) (k : A -> M B) : M B :=
  fun c => match m c with
           | (Ok a, c') => k a c'
           | (Raise e, c') => (Raise e, c')
           end.

Definition lift {A} (r : result A) : M A := fun c => (r, c).

(** [try: body except Exception as e: handler(e)] *)
Definition try_except {A} (body : M A) (handler : exn -> M A) : M A :=
  fun c => match body c with
           | (Ok a, c') => (Ok a, c')
           | (Raise e, c') => handler e c'
           end.

Notation "x <- m ;; k" := (bind m (fun x => k))
  (at level 61, m at next level, right associativity).
Notation "' pat <- m ;; k" :=
  (bind m (fun x => match x with pat => k end))
  (at level 61, pat pattern, m at next level, right associativity).
Notation "m ;;; k" := (bind m (fun _ => k))
  (at level 61, right associativity).

(** [get_db_connection()]: [None] when the connection cannot be opened. *)
Definition get_db_connection (w : World) (db : database) : option connection :=
  if connect_ok w
  then Some (mkConn (students db) (students db) (students_id_seq db))
  else None.

Definition commit (w : World) : M unit :=
  fun c => match commit_fault w with
           | Some msg => (Raise (OperationalError msg), c)
           | None => (Ok tt, mkConn (working c) (working c) (seq c))
           end.

Definition rollback : M unit :=
  fun c => (Ok tt, mkConn (committed c) (committed c) (seq c)).

(** [conn.close()]: what was not committed is lost. *)
Definition close (c : connection) : database :=
  mkDatabase (committed c) (seq c).

(** *** Running a statement *)

Definition id_is (sid : Z) (r : row) : bool := id r =? sid.

Definition email_is (e : string) (r : row) : bool :=
  match email r with Some e' => String.eqb e e' | None => false end.

(** ORDER BY id: insertion sort on the key. *)
Fixpoint insert_by_id (r : row) (l : list row) : list row :=
  match l with
  | [] => [r]
  | x :: l' => if id r <=? id x then r :: x :: l' else x :: insert_by_id r l'
  end.

Fixpoint order_by_id (l : list row) : list row :=
  match l with
  | [] => []
  | r :: l' => insert_by_id r (order_by_id l')
  end.

(** The NOT NULL and UNIQUE checks a row undergoes when it is written into
    table [t] (which already contains it). *)
Definition check_row (t : list row) (r : row) : result unit :=
  match name r with
  | None => Raise (IntegrityError
      "null value in column 'name' of relation 'students' violates not-null constraint")
  | Some _ =>
  match email r with
  | None => Raise (IntegrityError
      "null value in column 'email' of relation 'students' violates not-null constraint")
  | Some e =>
      if Nat.leb (List.length (filter (email_is e) t)) 1 then Ok tt
      else Raise (IntegrityError
        "duplicate key value violates unique constraint 'students_email_key'")
  end end.

Fixpoint check_rows (t : list row) (rs : list row) : result unit :=
  match rs with
  | [] => Ok tt
  | r :: rs' =>
      match check_row t r with
      | Ok _ => check_rows t rs'
      | Raise e => Raise e
      end
  end.

Definition the_id (params : list pyval) : result Z :=
  match params with
  | [PInt z] => Ok z
  | [_] => Raise (DataError "invalid input syntax for type integer")
  | _ => Raise (ProgrammingError "not all arguments converted during string formatting")
  end.

Fixpoint distinct_columns (cs : list column) : bool :=
  match cs with
  | [] => true
  | c :: cs' => negb (existsb (column_eqb c) cs') && distinct_columns cs'
  end.

Definition run_insert (w : World) (params : list pyval) : M cursor :=
  match params with
  | [p_name; p_email; p_age; p_course] =>
      v_name <- lift (adapt_text w p_name) ;;
      v_email <- lift (adapt_text w p_email) ;;
      v_age <- lift (adapt_int w p_age) ;;
      v_course <- lift (adapt_text w p_course) ;;
      fun c =>
        let r := mkRow (seq c) v_name v_email v_age v_course (Some (now w)) in
        let c' := mkConn (committed c) (working c) (seq c + 1) in
        if existsb (id_is (id r)) (working c) then
          (Raise (IntegrityError
             "duplicate key value violates unique constraint 'students_pkey'"), c')
        else
          let t := (working c ++ [r])%list in
          match check_row t r with
          | Raise e => (Raise e, c')
          | Ok _ => (Ok (mkCursor 1 [r]), mkConn (committed c) t (seq c + 1))
          end
  | _ => raise (ProgrammingError "not all arguments converted during string formatting")
  end.

Definition run_update (w : World) (cols : list column) (params : list pyval)
  : M cursor :=
  if negb (distinct_columns cols) then
    raise (ProgrammingError "multiple assignments to same column")
  else
    '(asg, rest) <- lift (bind_columns w cols params) ;;
    sid <- lift (the_id rest) ;;
    fun c =>
      let t := map (fun r => if id_is sid r then fold_left set_column asg r else r)
                   (working c) in
      let touched := filter (id_is sid) t in
      match check_rows t touched with
      | Raise e => (Raise e, c)
      | Ok _ => (Ok (mkCursor (Z.of_nat (List.length touched)) []),
                 mkConn (committed c) t (seq c))
      end.

Definition run_delete (params : list pyval) : M cursor :=
  sid <- lift (the_id params) ;;
  fun c =>
    let gone := filter (id_is sid) (working c) in
    (Ok (mkCursor (Z.of_nat (List.length gone)) []),
     mkConn (committed c) (filter (fun r => negb (id_is sid r)) (working c)) (seq c)).

Definition run_select_by_id (params : list pyval) : M cursor :=
  sid <- lift (the_id params) ;;
  fun c =>
    let found := filter (id_is sid) (working c) in
    (Ok (mkCursor (Z.of_nat (List.length found)) found), c).

Definition run_select_all (params : list pyval) : M cursor :=
  match params with
  | [] => fun c =>
      let all := order_by_id (working c) in
      (Ok (mkCursor (Z.of_nat (List.length all)) all), c)
  | _ => raise (ProgrammingError "not all arguments converted during string formatting")
  end.

(** [cur.execute(query, params)] *)
Definition execute (w : World) (query : string) (params : list pyval) : M cursor :=
  match execute_fault w with
  | Some msg => raise (OperationalError msg)
  | None =>
      match parse_statement query with
      | None => raise (ProgrammingError "syntax error")
      | Some StInsert => run_insert w params
      | Some StSelectAll => run_select_all params
      | Some StSelectById => run_select_by_id params
      | Some (StUpdate cols) => run_update w cols params
      | Some StDelete => run_delete params
      end
  end.

Definition fetchone (cur : cursor) : option row := hd_error (result_set cur).

Definition fetchall (cur : cursor) : list row := result_set cur.

(** ** The handlers *)

Record response : Type := mkResponse {
  body : pyval;
  status : Z
}.

(** What a request ends in: the response a handler returns, or an exception
    that leaves the handler (Flask then answers 500). *)
Inductive outcome : Type :=
| Response (r : response)
| Unhandled (e : exn).

Definition status_code (o : outcome) : Z :=
  match o with
  | Response r => status r
  | Unhandled _ => 500
  end.

Definition error_body (msg : string) : pyval := PDict [("error", PStr msg)].

Definition message_body (msg : string) : pyval := PDict [("message", PStr msg)].

(** [finally: conn.close()], then hand the result to Flask. *)
Definition finish (r : result response * connection) : database * outcome :=
  match r with
  | (Ok resp, c) => (close c, Response resp)
  | (Raise e, c) => (close c, Unhandled e)
  end.

Definition connection_failed : outcome :=
  Response (mkResponse (error_body "Database connection failed") 500).

Definition opt_str (o : option string) : pyval :=
  match o with Some s => PStr s | None => PNone end.

Definition opt_int (o : option Z) : pyval :=
  match o with Some z => PInt z | None => PNone end.

Definition opt_datetime (o : option datetime) : pyval :=
  match o with Some t => PDatetime t | None => PNone end.

(** [dict(row)] on a [DictCursor] row of
    [SELECT id, name, email, age, course, created_at]. *)
Definition dict_of_row (r : row) : list (string * pyval) :=
  [ ("id", PInt (id r)); ("name", opt_str (name r));
    ("email", opt_str (email r)); ("age", opt_int (age r));
    ("course", opt_str (course r));
    ("created_at", opt_datetime (created_at r)) ].

(** [v.isoformat()] *)
Definition py_isoformat (v : pyval) : result pyval :=
  match v with
  | PDatetime t => Ok (PStr (isoformat t))
  | _ => Raise (AttributeError ("'" ++ type_name v
                                ++ "' object has no attribute 'isoformat'"))
  end.

(** *** POST /students *)

(** [not data or 'name' not in data or 'email' not in data] *)
Definition missing_required (data : pyval) : result bool :=
  if negb (truthy data) then Ok true
  else match py_in "name" data with
       | Raise e => Raise e
       | Ok false => Ok true
       | Ok true =>
           match py_in "email" data with
           | Raise e => Raise e
           | Ok b => Ok (negb b)
           end
       end.

Definition insert_query : string :=
  "INSERT INTO students (name, email, age, course) VALUES (%s, %s, %s, %s) RETURNING id;".

Definition add_student_try (w : World) (v_name v_email v_age v_course : pyval)
  : M response :=
  try_except
    (cur <- execute w insert_query [v_name; v_email; v_age; v_course] ;;
     student_id <- lift (match fetchone cur with
                         | Some r => Ok (id r)
                         | None => Raise (TypeError
                             "'NoneType' object is not subscriptable")
                         end) ;;
     commit w ;;;
     ret (mkResponse
            (PDict [ ("message", PStr "Student added successfully");
                     ("id", PInt student_id);
                     ("name", v_name);
                     ("email", v_email) ])
            201))
    (fun e =>
       if is_IntegrityError e then
         (* This will catch cases where the email is not unique *)
         rollback ;;;
         ret (mkResponse (error_body "A student with this email already exists.") 409)
       else
         rollback ;;;
         ret (mkResponse (error_body (str_exn e)) 500)).

Definition add_student (w : World) (data : pyval) (db : database)
  : database * outcome :=
  match missing_required data with
  | Raise e => (db, Unhandled e)
  | Ok true =>
      (db, Response (mkResponse (error_body "Name and email are required fields.") 400))
  | Ok false =>
      match py_get data "name", py_get data "email",
            py_get data "age", py_get data "course" with
      | Ok v_name, Ok v_email, Ok v_age, Ok v_course =>
          match get_db_connection w db with
          | None => (db, connection_failed)
          | Some conn =>
              finish (add_student_try w v_name v_email v_age v_course conn)
          end
      | Raise e, _, _, _ | _, Raise e, _, _
      | _, _, Raise e, _ | _, _, _, Raise e => (db, Unhandled e)
      end
  end.

(** *** GET /students *)

Definition select_all_query : string :=
  "SELECT id, name, email, age, course, created_at FROM students ORDER BY id;".

(** The body of the loop over [student_list]. *)
Definition created_at_to_string (student : list (string * pyval))
  : result (list (string * pyval)) :=
  match dict_lookup "created_at" student with
  | Some v =>
      if truthy v then
        match py_isoformat v with
        | Ok s => Ok (dict_set "created_at" s student)
        | Raise e => Raise e
        end
      else Ok student
  | None => Ok student
  end.

Fixpoint for_each_student (l : list (list (string * pyval)))
  : result (list (list (string * pyval))) :=
  match l with
  | [] => Ok []
  | student :: l' =>
      match created_at_to_string student with
      | Raise e => Raise e
      | Ok student' =>
          match for_each_student l' with
          | Raise e => Raise e
          | Ok rest => Ok (student' :: rest)
          end
      end
  end.

Definition get_all_students_try (w : World) : M response :=
  try_except
    (cur <- execute w select_all_query [] ;;
     let students := fetchall cur in
     let student_list := map dict_of_row students in
     student_list <- lift (for_each_student student_list) ;;
     ret (mkResponse (PList (map PDict student_list)) 200))
    (fun e => ret (mkResponse (error_body (str_exn e)) 500)).

Definition get_all_students (w : World) (db : database) : database * outcome :=
  match get_db_connection w db with
  | None => (db, connection_failed)
  | Some conn => finish (get_all_students_try w conn)
  end.

(** *** GET /students/<int:student_id> *)

Definition select_by_id_query : string :=
  "SELECT id, name, email, age, course, created_at FROM students WHERE id = %s;".

Definition get_student_try (w : World) (student_id : Z) : M response :=
  try_except
    (cur <- execute w select_by_id_query [PInt student_id] ;;
     match fetchone cur with
     | Some student =>
         let student_dict := dict_of_row student in
         created <- lift (py_getitem (PDict student_dict) "created_at") ;;
         if truthy created then
           s <- lift (py_isoformat created) ;;
           ret (mkResponse (PDict (dict_set "created_at" s student_dict)) 200)
         else ret (mkResponse (PDict student_dict) 200)
     | None =>
         ret (mkResponse
                (error_body ("Student with ID " ++ str_of_Z student_id ++ " not found"))
                404)
     end)
    (fun e => ret (mkResponse (error_body (str_exn e)) 500)).

Definition get_student (w : World) (student_id : Z) (db : database)
  : database * outcome :=
  match get_db_connection w db with
  | None => (db, connection_failed)
  | Some conn => finish (get_student_try w student_id conn)
  end.

(** *** PUT /students/<int:student_id> *)

(** One of the four [if 'k' in data:] blocks: append the clause and the
    value. *)
Definition add_field (data : pyval) (key clause : string)
  (acc : list string * list pyval) : result (list string * list pyval) :=
  match py_in key data with
  | Raise e => Raise e
  | Ok false => Ok acc
  | Ok true =>
      match py_getitem data key with
      | Raise e => Raise e
      | Ok v => Ok ((fst acc ++ [clause])%list, (snd acc ++ [v])%list)
      end
  end.

(** [query_parts] and [params] after the four blocks. *)
Definition update_fields (data : pyval) : result (list string * list pyval) :=
  match add_field data "name" "name = %s" ([], []) with
  | Raise e => Raise e
  | Ok acc =>
  match add_field data "email" "email = %s" acc with
  | Raise e => Raise e
  | Ok acc =>
  match add_field data "age" "age = %s" acc with
  | Raise e => Raise e
  | Ok acc => add_field data "course" "course = %s" acc
  end end end.

Definition update_query (query_parts : list string) : sql.Composable :=
  sql.format "UPDATE students SET {} WHERE id = %s"
    [sql.Composed (sql.join (sql.SQL ", ") (map sql.SQL query_parts))].

(** The end of the [try] block, from [if cur.rowcount == 0:] on. *)
Definition update_student_after (w : World) (student_id : Z) (cur : cursor)
  : M response :=
  if rowcount cur =? 0 then
    rollback ;;;
    ret (mkResponse
           (error_body ("Student with ID " ++ str_of_Z student_id ++ " not found."))
           404)
  else
    commit w ;;;
    ret (mkResponse
           (message_body ("Student with ID " ++ str_of_Z student_id
                          ++ " updated successfully."))
           200).

(** The part of the [try] block after the four [if] blocks. *)
Definition update_student_execute (w : World) (student_id : Z)
  (query_parts : list string) (params : list pyval) : M response :=
  match query_parts with
  | [] => ret (mkResponse (error_body "No valid fields to update.") 400)
  | _ =>
      let params := (params ++ [PInt student_id])%list in
      let update_query := update_query query_parts in
      cur <- execute w (sql.as_string update_query) params ;;
      update_student_after w student_id cur
  end.

(** The two [except] clauses. *)
Definition update_student_except (e : exn) : M response :=
  if is_IntegrityError e then
    rollback ;;;
    ret (mkResponse (error_body "A student with this email already exists.") 409)
  else
    rollback ;;;
    ret (mkResponse (error_body (str_exn e)) 500).

Definition update_student_try (w : World) (student_id : Z) (data : pyval)
  : M response :=
  try_except
    ('(query_parts, params) <- lift (update_fields data) ;;
     update_student_execute w student_id query_parts params)
    update_student_except.

Definition update_student (w : World) (student_id : Z) (data : pyval)
  (db : database) : database * outcome :=
  if negb (truthy data) then
    (db, Response (mkResponse (error_body "No data provided for update.") 400))
  else
    match get_db_connection w db with
    | None => (db, connection_failed)
    | Some conn => finish (update_student_try w student_id data conn)
    end.

(** *** DELETE /students/<int:student_id> *)

Definition delete_query : string := "DELETE FROM students WHERE id = %s;".

Definition delete_student_try (w : World) (student_id : Z) : M response :=
  try_except
    (cur <- execute w delete_query [PInt student_id] ;;
     if rowcount cur =? 0 then
       rollback ;;;
       ret (mkResponse
              (error_body ("Student with ID " ++ str_of_Z student_id ++ " not found."))
              404)
     else
       commit w ;;;
       ret (mkResponse
              (message_body ("Student with ID " ++ str_of_Z student_id
                             ++ " deleted successfully."))
              200))
    (fun e =>
       rollback ;;;
       ret (mkResponse (error_body (str_exn e)) 500)).

Definition delete_student (w : World) (student_id : Z) (db : database)
  : database * outcome :=
  match get_db_connection w db with
  | None => (db, connection_failed)
  | Some conn => finish (delete_student_try w student_id conn)
  end.

(** ** The service as a whole *)

Inductive request : Type :=
| POST_students (data : pyval)
| GET_students
| GET_student (student_id : Z)
| PUT_student (student_id : Z) (data : pyval)
| DELETE_student (student_id : Z).

Definition handle (w : World) (rq : request) (db : database)
  : database * outcome :=
  match rq with
  | POST_students data => add_student w data db
  | GET_students => get_all_students w db
  | GET_student sid => get_student w sid db
  | PUT_student sid data => update_student w sid data db
  | DELETE_student sid => delete_student w sid db
  end.

(** The table right after [CREATE TABLE] on a fresh database: no row, and
    the sequence behind [SERIAL] at its first value. *)
Definition empty_database : database := mkDatabase [] 1.

(** [create_table_if_not_exists()], run once when the module is loaded.
    [None] is a server on which the table does not exist yet.  The routine
    is best effort: when the connection or the statement fails it prints a
    message and leaves things as they are. *)
Definition create_table_if_not_exists (w : World) (server : option database)
  : option database :=
  if connect_ok w then
    match execute_fault w, commit_fault w with
    | None, None =>
        match server with
        | Some db => Some db
        | None => Some empty_database
        end
    | _, _ => server
    end
  else server.

(** The database after a sequence of requests, each in its own world. *)
Fixpoint serve (rqs : list (World * request)) (db : database) : database :=
  match rqs with
  | [] => db
  | (w, rq) :: rqs' => serve rqs' (fst (handle w rq db))
  end.

(** ** Example worlds and data *)

Definition noon : datetime := mkDatetime 2024 6 1 12 0 0 0 0.

Definition fine : World :=
  mkWorld true None None noon (fun _ => None) (fun _ => None).

Definition unreachable : World :=
  mkWorld false None None noon (fun _ => None) (fun _ => None).

Definition alice : row :=
  mkRow 1 (Some "A") (Some "a@x.com") None None (Some noon).

Definition one_student : database := mkDatabase [alice] 2.

Definition age_22 : list (string * pyval) := [("age", PInt 22)].

Definition alice_22 : row :=
  mkRow 1 (Some "A") (Some "a@x.com") (Some 22) None (Some noon).

Definition not_found_7 : response :=
  mkResponse (error_body "Student with ID 7 not found.") 404.

(** * Vocabulary of the properties *)

(** ** The field list of an update, as the specification words it

    "Each recognized field present in the input contributes exactly one
    [column = placeholder] clause joined by commas, with the id as the final
    parameter."  The definitions below say this directly; they are compared
    with what [update_fields] and [update_query] compute. *)

(** The four fields an update recognizes, in the order of the handler's
    [if] blocks. *)
Definition recognized : list column := [c_name; c_email; c_age; c_course].

(** The JSON key of a column, and its [column = placeholder] clause. *)
Definition key_of (c : column) : string :=
  match c with
  | c_name => "name"
  | c_email => "email"
  | c_age => "age"
  | c_course => "course"
  end.

Definition clause_of (c : column) : string := key_of c ++ " = %s".

(** The recognized fields whose key the body holds, in the fixed order. *)
Definition present (d : list (string * pyval)) : list column :=
  filter (fun c => dict_has (key_of c) d) recognized.

(** Their values, in the same order. *)
Definition supplied (d : list (string * pyval)) : list pyval :=
  flat_map (fun c => match dict_lookup (key_of c) d with
                     | Some v => [v]
                     | None => []
                     end) recognized.

(** The statement: the clauses joined by commas between the fixed head and
    the WHERE clause on the id. *)
Definition update_text (cols : list column) : string :=
  "UPDATE students SET " ++ String.concat ", " (map clause_of cols)
  ++ " WHERE id = %s".

(** Two bodies hold the same recognized fields with the same values. *)
Definition same_recognized (d1 d2 : list (string * pyval)) : Prop :=
  forall c, dict_lookup (key_of c) d1 = dict_lookup (key_of c) d2.

(** [data.get(k)] on a dict. *)
Definition value_of (d : list (string * pyval)) (k : string) : pyval :=
  match dict_lookup k d with Some v => v | None => PNone end.

(** The keys of the four recognized fields, and the two answers of an
    update that has nothing to write. *)
Definition recognized_keys : list string := ["name"; "email"; "age"; "course"].


Definition no_data_provided : response :=
  mkResponse (error_body "No data provided for update.") 400.

Definition no_valid_fields : response :=
  mkResponse (error_body "No valid fields to update.") 400.

(** ** Rows before and after an update *)

(** What [run_update] does to one row: it assigns, in order, to a row with
    the id, and passes the others by. *)
Definition touch (sid : Z) (asg : list assignment) (r : row) : row :=
  if id_is sid r then fold_left set_column asg r else r.

(** What an update may do to a row: nothing to the id and the creation
    time, nothing at all to a row with another id, and nothing to a column
    whose key the body does not hold. *)
Definition frame (sid : Z) (d : list (string * pyval)) (r r' : row) : Prop :=
  id r' = id r
  /\ created_at r' = created_at r
  /\ (id r <> sid -> r' = r)
  /\ (forall c, dict_has (key_of c) d = false -> cell c r' = cell c r).

(** ** What the schema guarantees of every stored row *)

(** NOT NULL on [name] and [email]; and [created_at], which no statement of
    the program assigns, still holds the default it got at insertion. *)
Definition well_formed_row (r : row) : Prop :=
  name r <> None /\ email r <> None /\ created_at r <> None.

(** A table, and a connection, all of whose rows are well formed. *)
Definition table_ok (t : list row) : Prop := Forall well_formed_row t.

Definition conn_ok (c : connection) : Prop :=
  table_ok (committed c) /\ table_ok (working c).

(** Code that leaves a connection's tables well formed, whether it returns
    or raises. *)
Definition keeps {A} (m : M A) : Prop :=
  forall c, conn_ok c -> conn_ok (snd (m c)).

(** [name]: "text, required, non-empty", as a predicate on rows. *)
Definition has_nonempty_name (r : row) : Prop :=
  match name r with
  | Some s => s <> EmptyString
  | None => False
  end.

(** ** Serialization and order *)

(** A student as the specification serializes it: the six fields under
    their names, the timestamp as an ISO-8601 string. *)
Definition student_json (r : row) : list (string * pyval) :=
  [ ("id", PInt (id r)); ("name", opt_str (name r));
    ("email", opt_str (email r)); ("age", opt_int (age r));
    ("course", opt_str (course r));
    ("created_at", match created_at r with
                   | Some t => PStr (isoformat t)
                   | None => PNone
                   end) ].

(** Ascending order of id. *)
Definition by_id (a b : row) : Prop := id a <= id b.

(** The ranges Python's [datetime] keeps its fields in; the offset of an
    aware [datetime] is strictly within a day. *)
Definition between (lo : Z) (n : nat) (hi : Z) : bool :=
  (lo <=? Z.of_nat n) && (Z.of_nat n <=? hi).

Definition valid_datetime (t : datetime) : bool :=
  between 1 (year t) 9999 && between 1 (month t) 12 && between 1 (day t) 31
  && between 0 (hour t) 23 && between 0 (minute t) 59
  && between 0 (second t) 59 && between 0 (microsecond t) 999999
  && (-1440 <? utcoffset t) && (utcoffset t <? 1440).

(** ISO-8601, extended format with a numeric offset:
    [YYYY-MM-DDThh:mm:ss], an optional fraction of six digits, then
    [+hh:mm] or [-hh:mm]; a recognizer that reads the text left to right
    and knows nothing of [isoformat]. *)
Definition is_digit (c : ascii) : bool :=
  Nat.leb 48 (nat_of_ascii c) && Nat.leb (nat_of_ascii c) 57.

Fixpoint take_digits (k : nat) (s : string) : option string :=
  match k with
  | O => Some s
  | S k' =>
      match s with
      | String c s' => if is_digit c then take_digits k' s' else None
      | EmptyString => None
      end
  end.

Definition take_char (c : ascii) (s : string) : option string :=
  match s with
  | String x s' => if Ascii.eqb x c then Some s' else None
  | EmptyString => None
  end.

Definition take_sign (s : string) : option string :=
  match s with
  | String x s' =>
      if Ascii.eqb x "+" || Ascii.eqb x "-" then Some s' else None
  | EmptyString => None
  end.

Definition take_fraction (s : string) : option string :=
  match take_char "." s with
  | Some s' => take_digits 6 s'
  | None => Some s
  end.

Fixpoint take_all (ps : list (string -> option string)) (s : string)
  : option string :=
  match ps with
  | [] => Some s
  | p :: ps' =>
      match p s with
      | Some s' => take_all ps' s'
      | None => None
      end
  end.

Definition iso8601 (s : string) : bool :=
  match take_all [ take_digits 4; take_char "-"; take_digits 2; take_char "-";
                   take_digits 2; take_char "T";
                   take_digits 2; take_char ":"; take_digits 2; take_char ":";
                   take_digits 2; take_fraction;
                   take_sign; take_digits 2; take_char ":"; take_digits 2 ] s
  with
  | Some EmptyString => true
  | _ => false
  end.

Fixpoint all_digits (s : string) : bool :=
  match s with
  | EmptyString => true
  | String c s' => is_digit c && all_digits s'
  end.

(** An entry of the list GET /students answers with, for the row [r]: an
    object keyed by the six field names, each key holding the row's value,
    null for NULL; [created_at] holds a string, the [isoformat] of the
    row's timestamp, which is ISO-8601, or null when the row has none. *)
Definition rendered (r : row) (e : list (string * pyval)) : Prop :=
  map fst e = ["id"; "name"; "email"; "age"; "course"; "created_at"]
  /\ dict_lookup "id" e = Some (PInt (id r))
  /\ dict_lookup "name" e = Some (opt_str (name r))
  /\ dict_lookup "email" e = Some (opt_str (email r))
  /\ dict_lookup "age" e = Some (opt_int (age r))
  /\ dict_lookup "course" e = Some (opt_str (course r))
  /\ match created_at r with
     | Some t =>
         exists s, dict_lookup "created_at" e = Some (PStr s)
                   /\ s = isoformat t
                   /\ (valid_datetime t = true -> iso8601 s = true)
     | None => dict_lookup "created_at" e = Some PNone
     end.

(** ** Answers, and what a request may leave behind *)

(** The status codes each route can answer with. *)
Definition allowed_status (rq : request) : list Z :=
  match rq with
  | POST_students _ => [201; 400; 409; 500]
  | GET_students => [200; 500]
  | GET_student _ => [200; 404; 500]
  | PUT_student _ _ => [200; 400; 404; 409; 500]
  | DELETE_student _ => [200; 404; 500]
  end.

(** A request that reads only. *)
Definition read_only (rq : request) : bool :=
  match rq with
  | GET_students | GET_student _ => true
  | _ => false
  end.

(** The request carries no body the handler validates before it opens the
    connection. *)
Definition opens_connection_first (rq : request) : bool :=
  match rq with
  | GET_students | GET_student _ | DELETE_student _ => true
  | _ => false
  end.

Definition is_dict (data : pyval) : bool :=
  match data with PDict _ => true | _ => false end.

(** ** The constraints of the schema, as properties of a table *)

(** UNIQUE on [email]: no address is held twice. *)
Definition unique_emails (t : list row) : Prop :=
  forall e, (List.length (filter (email_is e) t) <= 1)%nat.

(** A cell of a [VARCHAR(255)] column holds a string the column takes as it
    is. *)
Definition stored_text (o : option string) : Prop :=
  forall s, o = Some s -> fit_varchar s = Ok (Some s).

Definition assignment_fit (a : assignment) : Prop :=
  match a with
  | SetName v | SetEmail v | SetCourse v => stored_text v
  | SetAge _ => True
  end.

Definition emails_fit (t : list row) : Prop :=
  Forall (fun r => stored_text (email r)) t.

(** PRIMARY KEY on the serial [id]: ids are pairwise distinct, and all of
    them were handed out by the sequence, whose next value is [s]. *)
Definition primary_key_ok (t : list row) (s : Z) : Prop :=
  NoDup (map id t) /\ Forall (fun r => id r < s) t.

(** A property of table and sequence that holds of both copies a connection
    carries, and code that keeps it so. *)
Definition conn_inv (P : list row -> Z -> Prop) (c : connection) : Prop :=
  P (committed c) (seq c) /\ P (working c) (seq c).

Definition maintains (P : list row -> Z -> Prop) {A} (m : M A) : Prop :=
  forall c, conn_inv P c -> conn_inv P (snd (m c)).

(** Strictly ascending order of id. *)
Definition by_id_strict (a b : row) : Prop := id a < id b.

(** ** More example worlds and data *)



Definition alice_body : list (string * pyval) :=
  [("name", PStr "A"); ("email", PStr "a@x.com")].

Definition bob_body : list (string * pyval) :=
  [("name", PStr "B"); ("email", PStr "b@x.com")].

Definition bob : row :=
  mkRow 2 (Some "B") (Some "b@x.com") None None (Some noon).

Definition two_students : database := mkDatabase [alice; bob] 3.

(** The run that creates Alice on the empty table. *)
Definition first_post : list (World * request) :=
  [(fine, POST_students (PDict alice_body))].

(** A row inserted behind the service's back, without a timestamp. *)
Definition undated : row :=
  mkRow 5 (Some "U") (Some "u@x.com") None None None.

(** * Properties *)

(** ** Python and SQL text *)

Lemma app_str_assoc (a b c : string) : (a ++ b) ++ c = a ++ (b ++ c).
Proof. induction a as [|x a IH]; cbn; [reflexivity | now rewrite IH]. Qed.

Lemma app_str_nil (a : string) : a ++ EmptyString = a.
Proof. induction a as [|x a IH]; cbn; [reflexivity | now rewrite IH]. Qed.

Lemma update_fields_dict (d : list (string * pyval)) :
  update_fields (PDict d) = Ok (map clause_of (present d), supplied d).
Proof.
  unfold update_fields, add_field, present, supplied, py_in, py_getitem.
  cbn. unfold dict_has.
  destruct (dict_lookup "name" d), (dict_lookup "email" d),
    (dict_lookup "age" d), (dict_lookup "course" d); reflexivity.
Qed.

Lemma present_supplied_length (d : list (string * pyval)) :
  List.length (supplied d) = List.length (present d).
Proof.
  unfold present, supplied. cbn. unfold dict_has.
  destruct (dict_lookup "name" d), (dict_lookup "email" d),
    (dict_lookup "age" d), (dict_lookup "course" d); reflexivity.
Qed.

Lemma cat_parts_app (l1 l2 : list sql.Composable) :
  sql.as_string (sql.Composed (l1 ++ l2))
  = sql.as_string (sql.Composed l1) ++ sql.as_string (sql.Composed l2).
Proof.
  induction l1 as [|p l1 IH]; cbn.
  - reflexivity.
  - cbn in IH. rewrite IH. now rewrite app_str_assoc.
Qed.

Lemma as_string_join (parts : list string) :
  sql.as_string (sql.Composed (sql.join (sql.SQL ", ") (map sql.SQL parts)))
  = String.concat ", " parts.
Proof.
  induction parts as [|p [|q parts] IH].
  - reflexivity.
  - cbn. now rewrite app_str_nil.
  - transitivity (p ++ ", " ++ sql.as_string (sql.Composed
                    (sql.join (sql.SQL ", ") (map sql.SQL (q :: parts))))).
    + reflexivity.
    + now rewrite IH.
Qed.

(** The text sent for an update: the clauses in a row, comma-separated,
    between the fixed head and the WHERE clause. *)
Lemma as_string_update_query (parts : list string) :
  sql.as_string (update_query parts)
  = "UPDATE students SET " ++ String.concat ", " parts ++ " WHERE id = %s".
Proof.
  rewrite <- as_string_join. reflexivity.
Qed.

Lemma present_cases (d : list (string * pyval)) (P : list column -> Prop) :
  (forall b1 b2 b3 b4 : bool,
      P ((if b1 then [c_name] else []) ++ (if b2 then [c_email] else [])
         ++ (if b3 then [c_age] else []) ++ (if b4 then [c_course] else []))%list) ->
  P (present d).
Proof.
  intros H. unfold present. cbn.
  specialize (H (dict_has "name" d) (dict_has "email" d)
                (dict_has "age" d) (dict_has "course" d)).
  destruct (dict_has "name" d), (dict_has "email" d),
    (dict_has "age" d), (dict_has "course" d); exact H.
Qed.

(** The engine reads back from the text exactly the columns the handler
    wrote into it. *)
Lemma parse_update_present (d : list (string * pyval)) :
  present d <> [] ->
  parse_statement (sql.as_string (update_query (map clause_of (present d))))
  = Some (StUpdate (present d)).
Proof.
  apply (present_cases d). intros [] [] [] []; intros H;
    solve [vm_compute; reflexivity | now destruct H].
Qed.

Lemma distinct_present (d : list (string * pyval)) :
  distinct_columns (present d) = true.
Proof.
  apply (present_cases d). now intros [] [] [] [].
Qed.

(** ** The engine *)

Section Assignments.

Variable w : World.

Lemma bind_column_column (c : column) (v : pyval) (a : assignment) :
  bind_column w c v = Ok a -> assigned_column a = c.
Proof.
  destruct c; cbn; [destruct (adapt_text w v) | destruct (adapt_text w v)
                   | destruct (adapt_int w v) | destruct (adapt_text w v)];
    intros E; inversion E; reflexivity.
Qed.

(** Binding consumes one parameter per column, left to right, and hands
    back what follows them. *)
Lemma bind_columns_app (cols : list column) :
  forall (vals rest : list pyval),
    List.length vals = List.length cols ->
    bind_columns w cols (vals ++ rest)
    = match bind_columns w cols vals with
      | Ok (asg, _) => Ok (asg, rest)
      | Raise e => Raise e
      end.
Proof.
  induction cols as [|c cols IH]; intros [|v vals] rest L; try discriminate L.
  - reflexivity.
  - cbn in L. injection L as L. cbn.
    destruct (bind_column w c v); [|reflexivity].
    rewrite (IH vals rest L).
    destruct (bind_columns w cols vals) as [[asg tl]|]; reflexivity.
Qed.

Lemma bind_columns_columns (cols : list column) :
  forall (params : list pyval) (asg : list assignment) (rest : list pyval),
    bind_columns w cols params = Ok (asg, rest) ->
    map assigned_column asg = cols.
Proof.
  induction cols as [|c cols IH]; intros params asg rest E; cbn in E.
  - now inversion E.
  - destruct params as [|v params]; [discriminate|].
    destruct (bind_column w c v) as [a|] eqn:Ea; [|discriminate].
    destruct (bind_columns w cols params) as [[asg' rest']|] eqn:Er;
      [|discriminate].
    inversion E; subst. cbn.
    now rewrite (bind_column_column _ _ _ Ea), (IH _ _ _ Er).
Qed.

(** The value standing at the position of a column is the one bound to
    it. *)
Lemma bind_columns_values (cols : list column) :
  forall (params : list pyval) (asg : list assignment) (rest : list pyval)
         (c : column) (v : pyval),
    bind_columns w cols params = Ok (asg, rest) ->
    In (c, v) (combine cols params) ->
    exists a, In a asg /\ bind_column w c v = Ok a.
Proof.
  induction cols as [|c0 cols IH]; intros params asg rest c v E Hin; cbn in E.
  - destruct Hin.
  - destruct params as [|v0 params]; [discriminate|].
    destruct (bind_column w c0 v0) as [a0|] eqn:Ea; [|discriminate].
    destruct (bind_columns w cols params) as [[asg' rest']|] eqn:Er;
      [|discriminate].
    inversion E; subst. destruct Hin as [Hin|Hin].
    + inversion Hin; subst. exists a0. split; [now left | exact Ea].
    + destruct (IH _ _ _ _ _ Er Hin) as [a [Ha Hb]].
      exists a. split; [now right | exact Hb].
Qed.

End Assignments.

Lemma set_column_id (r : row) (a : assignment) : id (set_column r a) = id r.
Proof. now destruct a. Qed.

Lemma set_column_created_at (r : row) (a : assignment) :
  created_at (set_column r a) = created_at r.
Proof. now destruct a. Qed.

Lemma set_column_other (r : row) (a : assignment) (c : column) :
  assigned_column a <> c -> cell c (set_column r a) = cell c r.
Proof. destruct a, c; cbn; intros H; try reflexivity; now destruct H. Qed.

Lemma set_column_same (r : row) (a : assignment) :
  cell (assigned_column a) (set_column r a) = assigned_value a.
Proof. now destruct a. Qed.

Lemma set_columns_id (asg : list assignment) :
  forall r, id (fold_left set_column asg r) = id r.
Proof.
  induction asg as [|a asg IH]; intros r; cbn; [reflexivity|].
  now rewrite IH, set_column_id.
Qed.

Lemma set_columns_created_at (asg : list assignment) :
  forall r, created_at (fold_left set_column asg r) = created_at r.
Proof.
  induction asg as [|a asg IH]; intros r; cbn; [reflexivity|].
  now rewrite IH, set_column_created_at.
Qed.

(** A column no assignment names keeps its cell. *)
Lemma set_columns_other (asg : list assignment) (c : column) :
  forall r, ~ In c (map assigned_column asg) ->
            cell c (fold_left set_column asg r) = cell c r.
Proof.
  induction asg as [|a asg IH]; intros r H; cbn; [reflexivity|].
  rewrite IH.
  - apply set_column_other. intros E. apply H. now left.
  - intros Hin. apply H. now right.
Qed.

Lemma existsb_column_eqb (c : column) (cs : list column) :
  existsb (column_eqb c) cs = true <-> In c cs.
Proof.
  rewrite existsb_exists. split.
  - intros [x [Hin E]]. now destruct c, x.
  - intros Hin. exists c. split; [exact Hin | now destruct c].
Qed.

(** A column assigned once holds the assigned value afterwards. *)
Lemma set_columns_assigned (asg : list assignment) (a : assignment) :
  forall r, distinct_columns (map assigned_column asg) = true ->
            In a asg ->
            cell (assigned_column a) (fold_left set_column asg r)
            = assigned_value a.
Proof.
  induction asg as [|a0 asg IH]; intros r D Hin; [destruct Hin|].
  cbn in D. apply andb_prop in D as [D1 D2]. cbn.
  destruct Hin as [->|Hin].
  - rewrite set_columns_other; [apply set_column_same|].
    intros Hin. apply existsb_column_eqb in Hin. rewrite Hin in D1. discriminate.
  - now apply IH.
Qed.

Lemma check_rows_ok (t rs : list row) :
  check_rows t rs = Ok tt -> Forall (fun r => check_row t r = Ok tt) rs.
Proof.
  induction rs as [|r rs IH]; cbn; intros E; [constructor|].
  destruct (check_row t r) as [[]|] eqn:Er; [|discriminate].
  constructor; [exact Er | now apply IH].
Qed.

Lemma check_row_name (t : list row) (r : row) :
  check_row t r = Ok tt -> name r <> None /\ email r <> None.
Proof.
  unfold check_row. destruct (name r); [|discriminate].
  destruct (email r); [|discriminate]. intros _. split; discriminate.
Qed.

Lemma run_update_eq (w : World) (cols : list column) (params : list pyval)
      (c : connection) :
  run_update w cols params c
  = if negb (distinct_columns cols)
    then (Raise (ProgrammingError "multiple assignments to same column"), c)
    else match bind_columns w cols params with
         | Raise e => (Raise e, c)
         | Ok (asg, rest) =>
             match the_id rest with
             | Raise e => (Raise e, c)
             | Ok sid =>
                 let t := map (touch sid asg) (working c) in
                 match check_rows t (filter (id_is sid) t) with
                 | Raise e => (Raise e, c)
                 | Ok _ =>
                     (Ok (mkCursor (Z.of_nat (List.length (filter (id_is sid) t))) []),
                      mkConn (committed c) t (seq c))
                 end
             end
         end.
Proof.
  unfold run_update, bind, lift, raise.
  destruct (negb (distinct_columns cols)); [reflexivity|].
  destruct (bind_columns w cols params) as [[asg rest]|]; [|reflexivity].
  destruct (the_id rest); reflexivity.
Qed.

Lemma id_is_touch (sid : Z) (asg : list assignment) (r : row) :
  id_is sid (touch sid asg r) = id_is sid r.
Proof.
  unfold touch. destruct (id_is sid r) eqn:E; [|exact E].
  unfold id_is in *. now rewrite set_columns_id.
Qed.

Lemma filter_touch (sid : Z) (asg : list assignment) (t : list row) :
  filter (id_is sid) (map (touch sid asg) t)
  = map (touch sid asg) (filter (id_is sid) t).
Proof.
  induction t as [|r t IH]; [reflexivity|]. cbn [map filter].
  rewrite id_is_touch. destruct (id_is sid r); cbn [map]; now rewrite IH.
Qed.

(** ** PUT: what an update does to the table *)

Lemma update_student_execute_nonempty (w : World) (sid : Z)
      (qp : list string) (params : list pyval) :
  qp <> [] ->
  update_student_execute w sid qp params
  = (cur <- execute w (sql.as_string (update_query qp))
                      (params ++ [PInt sid])%list ;;
     update_student_after w sid cur).
Proof. destruct qp; [intros H; now destruct H | reflexivity]. Qed.

Lemma clauses_nonempty (cols : list column) :
  cols <> [] -> map clause_of cols <> [].
Proof. destruct cols; [intros H; now destruct H | discriminate]. Qed.

(** The three ways the [except] clauses and the 404 branch end: the
    committed table is the one the request found. *)
Lemma update_student_except_keeps (e : exn) (c : connection) :
  exists resp,
    update_student_except e c
    = (Ok resp, mkConn (committed c) (committed c) (seq c))
    /\ status resp <> 200.
Proof.
  unfold update_student_except.
  destruct (is_IntegrityError e); eexists; (split; [reflexivity | discriminate]).
Qed.

(** Every PUT with a dict body either leaves the database as it was (and does
    not answer 200), or answers 200 after writing the bound values into the
    rows with the requested id. *)
Lemma update_student_dict_cases (w : World) (sid : Z)
      (d : list (string * pyval)) (db : database) :
  (fst (update_student w sid (PDict d) db) = db
   /\ status_code (snd (update_student w sid (PDict d) db)) <> 200)
  \/ (exists asg rest,
        bind_columns w (present d) (supplied d) = Ok (asg, rest)
        /\ filter (id_is sid) (students db) <> []
        /\ check_rows (map (touch sid asg) (students db))
             (filter (id_is sid) (map (touch sid asg) (students db))) = Ok tt
        /\ update_student w sid (PDict d) db
           = (mkDatabase (map (touch sid asg) (students db)) (students_id_seq db),
              Response (mkResponse
                (message_body ("Student with ID " ++ str_of_Z sid
                               ++ " updated successfully.")) 200))).
Proof.
  remember (update_student w sid (PDict d) db) as R eqn:HR.
  unfold update_student in HR.
  destruct (truthy (PDict d)); cbn [negb] in HR;
    [|subst R; left; split; [reflexivity | discriminate]].
  unfold get_db_connection in HR.
  destruct (connect_ok w);
    [|subst R; left; split; [reflexivity | discriminate]].
  destruct db as [t s]. cbn [students students_id_seq] in *.
  unfold update_student_try, try_except in HR.
  unfold bind at 1 in HR. unfold lift in HR. rewrite update_fields_dict in HR.
  destruct (list_eq_dec (fun a b : column =>
              ltac:(decide equality) : {a = b} + {a <> b}) (present d) [])
    as [E|NE].
  - rewrite E in HR. cbn in HR. subst R.
    left. split; [reflexivity | discriminate].
  - rewrite update_student_execute_nonempty in HR
      by now apply clauses_nonempty.
    unfold bind at 1 in HR. unfold execute in HR.
    destruct (execute_fault w) as [msg|].
    { unfold raise in HR.
      destruct (update_student_except_keeps (OperationalError msg)
                  (mkConn t t s)) as [resp [Hx Hs]].
      rewrite Hx in HR. subst R. left. split; [reflexivity | exact Hs]. }
    rewrite (parse_update_present d NE), run_update_eq, distinct_present in HR.
    cbn [negb] in HR.
    rewrite bind_columns_app in HR by apply present_supplied_length.
    destruct (bind_columns w (present d) (supplied d)) as [[asg rest]|e].
    2:{ destruct (update_student_except_keeps e (mkConn t t s))
          as [resp [Hx Hs]].
        rewrite Hx in HR. subst R. left. split; [reflexivity | exact Hs]. }
    cbn [the_id working committed seq] in HR.
    destruct (check_rows (map (touch sid asg) t)
                (filter (id_is sid) (map (touch sid asg) t))) as [[]|e] eqn:Ck.
    2:{ destruct (update_student_except_keeps e (mkConn t t s))
          as [resp [Hx Hs]].
        rewrite Hx in HR. subst R. left. split; [reflexivity | exact Hs]. }
    unfold update_student_after in HR. cbn [rowcount] in HR.
    destruct (Z.of_nat (List.length (filter (id_is sid) (map (touch sid asg) t)))
              =? 0) eqn:Rc.
    { cbn in HR. subst R. left. split; [reflexivity | discriminate]. }
    unfold bind at 1 in HR. unfold commit in HR.
    destruct (commit_fault w) as [msg|].
    { destruct (update_student_except_keeps (OperationalError msg)
                  (mkConn t (map (touch sid asg) t) s)) as [resp [Hx Hs]].
      rewrite Hx in HR. subst R. left. split; [reflexivity | exact Hs]. }
    right. exists asg, rest. split; [reflexivity|]. split; [|split].
    + intros F. rewrite filter_touch, F in Rc. discriminate.
    + exact Ck.
    + exact HR.
Qed.

Lemma present_iff (d : list (string * pyval)) (c : column) :
  In c (present d) <-> dict_has (key_of c) d = true.
Proof.
  unfold present. rewrite filter_In. split; [now intros [_ H]|].
  intros H. split; [|exact H]. destruct c; cbn; tauto.
Qed.

(** Clause [i] and parameter [i] belong together: the parameter is the
    body's value under the clause's key. *)
Lemma present_supplied_combine (d : list (string * pyval)) (c : column)
      (v : pyval) :
  In (c, v) (combine (present d) (supplied d))
  <-> dict_lookup (key_of c) d = Some v.
Proof.
  unfold present, supplied. cbn. unfold dict_has.
  destruct (dict_lookup "name" d) eqn:E1, (dict_lookup "email" d) eqn:E2,
    (dict_lookup "age" d) eqn:E3, (dict_lookup "course" d) eqn:E4;
    cbn; split; intros H;
    try (destruct c; cbn in H; congruence);
    repeat match goal with
           | H : _ \/ _ |- _ => destruct H
           | H : (_, _) = (_, _) |- _ => inversion H; subst; clear H
           | H : False |- _ => destruct H
           end;
    cbn; try assumption;
    destruct c; cbn in H; rewrite ?E1, ?E2, ?E3, ?E4 in H;
    inversion H; subst; tauto.
Qed.

Lemma frame_refl (sid : Z) (d : list (string * pyval)) (t : list row) :
  Forall2 (frame sid d) t t.
Proof.
  induction t; constructor; [|assumption]. unfold frame. tauto.
Qed.

Lemma frame_touch (sid : Z) (d : list (string * pyval))
      (asg : list assignment) (t : list row) :
  map assigned_column asg = present d ->
  Forall2 (frame sid d) t (map (touch sid asg) t).
Proof.
  intros Hc. induction t as [|r t IH]; cbn; constructor; [|exact IH].
  unfold frame, touch. destruct (id_is sid r) eqn:E.
  - rewrite set_columns_id, set_columns_created_at.
    repeat split.
    + intros N. unfold id_is in E. apply Z.eqb_eq in E. now destruct N.
    + intros c Hd. apply set_columns_other. rewrite Hc, present_iff.
      rewrite Hd. discriminate.
  - tauto.
Qed.

(** After a successful binding, a row with the requested id holds, in each
    supplied column, the value bound from the body. *)
Lemma touch_supplied_cell (w : World) (sid : Z) (d : list (string * pyval))
      (asg : list assignment) (rest : list pyval) (r : row)
      (c : column) (v : pyval) :
  bind_columns w (present d) (supplied d) = Ok (asg, rest) ->
  id_is sid r = true ->
  dict_lookup (key_of c) d = Some v ->
  exists a, bind_column w c v = Ok a
            /\ cell c (touch sid asg r) = assigned_value a.
Proof.
  intros Hb Hi Hl. apply present_supplied_combine in Hl.
  destruct (bind_columns_values w _ _ _ _ _ _ Hb Hl) as [a [Ha Hbc]].
  exists a. split; [exact Hbc|].
  rewrite <- (bind_column_column w _ _ _ Hbc).
  unfold touch. rewrite Hi. apply set_columns_assigned; [|exact Ha].
  rewrite (bind_columns_columns w _ _ _ _ Hb). apply distinct_present.
Qed.

Lemma update_student_frame (w : World) (sid : Z) (d : list (string * pyval))
      (db : database) :
  Forall2 (frame sid d) (students db)
          (students (fst (update_student w sid (PDict d) db))).
Proof.
  destruct (update_student_dict_cases w sid d db)
    as [[-> _]|[asg [rest [Hb [_ [_ ->]]]]]].
  - apply frame_refl.
  - apply frame_touch. exact (bind_columns_columns w _ _ _ _ Hb).
Qed.

Lemma update_student_effect (w : World) (sid : Z) (d : list (string * pyval))
      (db : database) :
  status_code (snd (update_student w sid (PDict d) db)) = 200 ->
  forall r', In r' (students (fst (update_student w sid (PDict d) db))) ->
             id r' = sid ->
  forall c v, dict_lookup (key_of c) d = Some v ->
  exists a, bind_column w c v = Ok a /\ cell c r' = assigned_value a.
Proof.
  destruct (update_student_dict_cases w sid d db)
    as [[_ N]|[asg [rest [Hb [_ [_ ->]]]]]].
  - intros F. now destruct N.
  - intros _ r' Hin Hid c v Hl. cbn [fst students] in Hin.
    apply in_map_iff in Hin as [r [<- Hr]].
    apply (touch_supplied_cell w sid d asg rest r c v Hb); [|exact Hl].
    rewrite <- (id_is_touch sid asg r). unfold id_is. now apply Z.eqb_eq.
Qed.

(** With a dict body holding a recognized field, the [try] block executes
    the specified text on the specified parameters. *)
Lemma update_student_try_dict (w : World) (sid : Z) (d : list (string * pyval)) :
  present d <> [] ->
  update_student_try w sid (PDict d)
  = try_except
      (cur <- execute w (update_text (present d))
                       (supplied d ++ [PInt sid])%list ;;
       update_student_after w sid cur)
      update_student_except.
Proof.
  intros NE. unfold update_student_try.
  unfold bind at 1, lift. rewrite update_fields_dict.
  rewrite update_student_execute_nonempty by now apply clauses_nonempty.
  now rewrite as_string_update_query.
Qed.

(** When nothing stands in the way (the connection opens, the body holds a
    recognized field, its values bind, a row has the id, the constraints
    hold on the result, statement and commit do not fail), the update is
    committed and answered 200. *)
Lemma update_student_succeeds (w : World) (sid : Z) (d : list (string * pyval))
      (db : database) (asg : list assignment) (rest : list pyval) :
  connect_ok w = true -> execute_fault w = None -> commit_fault w = None ->
  present d <> [] ->
  bind_columns w (present d) (supplied d) = Ok (asg, rest) ->
  (exists r, In r (students db) /\ id r = sid) ->
  check_rows (map (touch sid asg) (students db))
             (filter (id_is sid) (map (touch sid asg) (students db))) = Ok tt ->
  update_student w sid (PDict d) db
  = (mkDatabase (map (touch sid asg) (students db)) (students_id_seq db),
     Response (mkResponse
                 (message_body ("Student with ID " ++ str_of_Z sid
                                ++ " updated successfully.")) 200)).
Proof.
  intros Hc Hf Hm NE Hb [r0 [Hin Hid]] Ck.
  unfold update_student, get_db_connection. rewrite Hc.
  destruct d as [|kv d]; [now destruct NE|]. cbn [truthy negb].
  rewrite (update_student_try_dict w sid (kv :: d) NE).
  unfold try_except. unfold bind at 1. unfold execute. rewrite Hf.
  unfold update_text.
  rewrite <- as_string_update_query, (parse_update_present _ NE).
  rewrite run_update_eq, distinct_present. cbn [negb].
  rewrite bind_columns_app by apply present_supplied_length.
  rewrite Hb. cbn [the_id working committed seq]. cbv zeta. rewrite Ck.
  unfold update_student_after. cbn [rowcount].
  rewrite filter_touch, length_map.
  assert (F : In r0 (filter (id_is sid) (students db))).
  { apply filter_In. split; [exact Hin|]. unfold id_is. now apply Z.eqb_eq. }
  destruct (filter (id_is sid) (students db)) as [|x l]; [destruct F|].
  cbn [List.length]. rewrite Nat2Z.inj_succ.
  destruct (Z.succ (Z.of_nat (List.length l)) =? 0) eqn:Z0;
    [apply Z.eqb_eq in Z0; lia|].
  unfold bind, commit. rewrite Hm. reflexivity.
Qed.

(** C1. For every PUT /students/{id} whose body is a JSON object: the
    handler's field list has exactly one [column = %s] clause per recognized
    field present in the body, comma-separated inside
    [UPDATE students SET ... WHERE id = %s]; the parameter list pairs each
    clause with the body's value for that field, in the same order, and ends
    with the id; this text and these parameters are what the handler
    executes.  Whatever the outcome, every row keeps its id and creation
    time, rows with another id are unchanged, and the columns of unsupplied
    fields are unchanged; when the handler answers 200 each supplied field
    of the row with the requested id holds the value bound from the body.
    And the handler does answer 200, committing exactly these assignments,
    when the id matches a row and nothing fails (connection, statement,
    commit, binding of the values, constraints on the result). *)
Theorem update_touches_only_supplied_fields
        (w : World) (sid : Z) (d : list (string * pyval)) (db : database) :
  let R := update_student w sid (PDict d) db in
  (update_fields (PDict d) = Ok (map clause_of (present d), supplied d)
   /\ sql.as_string (update_query (map clause_of (present d)))
      = update_text (present d)
   /\ NoDup (present d)
   /\ (forall c, In c (present d) <-> dict_has (key_of c) d = true)
   /\ List.length (supplied d) = List.length (present d)
   /\ (forall c v, In (c, v) (combine (present d) (supplied d))
                   <-> dict_lookup (key_of c) d = Some v)
   /\ (present d <> [] ->
       update_student_try w sid (PDict d)
       = try_except
           (cur <- execute w (update_text (present d))
                            (supplied d ++ [PInt sid])%list ;;
            update_student_after w sid cur)
           update_student_except))
  /\ Forall2 (frame sid d) (students db) (students (fst R))
  /\ (status_code (snd R) = 200 ->
      forall r', In r' (students (fst R)) -> id r' = sid ->
      forall c v, dict_lookup (key_of c) d = Some v ->
      exists a, bind_column w c v = Ok a /\ cell c r' = assigned_value a)
  /\ (forall asg rest,
        connect_ok w = true -> execute_fault w = None ->
        commit_fault w = None ->
        present d <> [] ->
        bind_columns w (present d) (supplied d) = Ok (asg, rest) ->
        (exists r, In r (students db) /\ id r = sid) ->
        check_rows (map (touch sid asg) (students db))
                   (filter (id_is sid) (map (touch sid asg) (students db)))
        = Ok tt ->
        R = (mkDatabase (map (touch sid asg) (students db))
                        (students_id_seq db),
             Response (mkResponse
                         (message_body ("Student with ID " ++ str_of_Z sid
                                        ++ " updated successfully.")) 200))).
Proof.
  cbv zeta. split; [|split; [|split]].
  - repeat split.
    + apply update_fields_dict.
    + apply as_string_update_query.
    + apply (present_cases d). intros [] [] [] []; cbn;
        repeat constructor; cbn; intuition discriminate.
    + apply present_iff.
    + apply present_iff.
    + apply present_supplied_length.
    + apply present_supplied_combine.
    + apply present_supplied_combine.
    + apply update_student_try_dict.
  - apply update_student_frame.
  - apply update_student_effect.
  - intros asg rest. apply update_student_succeeds.
Qed.

(** ** Start-up *)

(** Creating the table is idempotent: run on its own result, in any world,
    it changes nothing; and on a fresh server where it goes through, it
    yields the empty table. *)
Lemma create_table_if_not_exists_idempotent (w w' : World)
      (server : option database) :
  create_table_if_not_exists w'
    (create_table_if_not_exists w server)
  = match create_table_if_not_exists w server with
    | Some db => Some db
    | None => create_table_if_not_exists w' None
    end.
Proof.
  unfold create_table_if_not_exists.
  destruct (connect_ok w), (execute_fault w), (commit_fault w), server,
    (connect_ok w'), (execute_fault w'), (commit_fault w'); reflexivity.
Qed.

Lemma create_table_on_fresh_server :
  create_table_if_not_exists fine None = Some empty_database.
Proof. reflexivity. Qed.

(** ** The schema's guarantees are kept by every request *)

Section Keeps.

Context {A B : Type}.

Lemma keeps_ret (a : A) : keeps (ret a).
Proof. intros c H. exact H. Qed.

Lemma keeps_raise (e : exn) : keeps (@raise A e).
Proof. intros c H. exact H. Qed.

Lemma keeps_lift (r : result A) : keeps (lift r).
Proof. intros c H. exact H. Qed.

Lemma keeps_bind (m : M A) (k : A -> M B) :
  keeps m -> (forall a, keeps (k a)) -> keeps (bind m k).
Proof.
  intros Hm Hk c H. unfold bind. specialize (Hm c H).
  destruct (m c) as [[a|e] c']; cbn in *; [now apply Hk | exact Hm].
Qed.

Lemma keeps_try_except (body : M A) (handler : exn -> M A) :
  keeps body -> (forall e, keeps (handler e)) -> keeps (try_except body handler).
Proof.
  intros Hm Hk c H. unfold try_except. specialize (Hm c H).
  destruct (body c) as [[a|e] c']; cbn in *; [exact Hm | now apply Hk].
Qed.

End Keeps.

Lemma keeps_commit (w : World) : keeps (commit w).
Proof.
  intros c [Hc Hw]. unfold commit. destruct (commit_fault w); cbn; now split.
Qed.

Lemma keeps_rollback : keeps rollback.
Proof. intros c [Hc Hw]. now split. Qed.

Lemma touch_well_formed (sid : Z) (asg : list assignment) (t : list row) :
  table_ok t ->
  check_rows (map (touch sid asg) t)
             (filter (id_is sid) (map (touch sid asg) t)) = Ok tt ->
  table_ok (map (touch sid asg) t).
Proof.
  intros Ht Ck. apply check_rows_ok in Ck. rewrite Forall_forall in Ck.
  unfold table_ok in *. rewrite Forall_forall in *.
  intros r' Hin. pose proof Hin as Hin'.
  apply in_map_iff in Hin' as [r [E Hr]].
  destruct (id_is sid r') eqn:I.
  - assert (Hf : In r' (filter (id_is sid) (map (touch sid asg) t)))
      by (apply filter_In; now split).
    destruct (check_row_name _ _ (Ck r' Hf)) as [Hn He].
    repeat split; [exact Hn | exact He |].
    subst r'. unfold touch. destruct (id_is sid r).
    + rewrite set_columns_created_at. apply (Ht r Hr).
    + apply (Ht r Hr).
  - subst r'. rewrite id_is_touch in I. unfold touch. rewrite I.
    apply (Ht r Hr).
Qed.

Lemma keeps_run_insert (w : World) (params : list pyval) :
  keeps (run_insert w params).
Proof.
  intros c [Hc Hw]. unfold run_insert.
  destruct params as [|p1 [|p2 [|p3 [|p4 [|p5 ps]]]]];
    try (split; assumption).
  unfold bind, lift.
  destruct (adapt_text w p1); [|now split].
  destruct (adapt_text w p2); [|now split].
  destruct (adapt_int w p3); [|now split].
  destruct (adapt_text w p4); [|now split].
  destruct (existsb _ (working c)); [now split|].
  match goal with |- context [check_row ?t ?r] =>
    destruct (check_row t r) as [[]|] eqn:Ck end; [|now split].
  split; [exact Hc|]. cbn. apply Forall_app. split; [exact Hw|].
  constructor; [|constructor].
  destruct (check_row_name _ _ Ck) as [Hn He].
  repeat split; [exact Hn | exact He | discriminate].
Qed.

Lemma keeps_run_update (w : World) (cols : list column) (params : list pyval) :
  keeps (run_update w cols params).
Proof.
  intros c [Hc Hw]. rewrite run_update_eq.
  destruct (negb (distinct_columns cols)); [now split|].
  destruct (bind_columns w cols params) as [[asg rest]|]; [|now split].
  destruct (the_id rest) as [sid|]; [|now split].
  cbv zeta.
  destruct (check_rows _ _) as [[]|] eqn:Ck; [|now split].
  split; [exact Hc|]. cbn. now apply touch_well_formed.
Qed.

Lemma keeps_run_delete (params : list pyval) : keeps (run_delete params).
Proof.
  intros c [Hc Hw]. unfold run_delete, bind, lift.
  destruct (the_id params); [|now split].
  split; [exact Hc|]. cbn. unfold table_ok in *.
  rewrite Forall_forall in *. intros r Hin. apply filter_In in Hin as [Hin _].
  now apply Hw.
Qed.

Lemma keeps_run_select_by_id (params : list pyval) :
  keeps (run_select_by_id params).
Proof.
  intros c H. unfold run_select_by_id, bind, lift.
  destruct (the_id params); exact H.
Qed.

Lemma keeps_run_select_all (params : list pyval) :
  keeps (run_select_all params).
Proof.
  intros c H. unfold run_select_all. destruct params; exact H.
Qed.

Lemma keeps_execute (w : World) (q : string) (params : list pyval) :
  keeps (execute w q params).
Proof.
  unfold execute. destruct (execute_fault w); [apply keeps_raise|].
  destruct (parse_statement q) as [[]|].
  - apply keeps_run_insert.
  - apply keeps_run_select_all.
  - apply keeps_run_select_by_id.
  - apply keeps_run_update.
  - apply keeps_run_delete.
  - apply keeps_raise.
Qed.

Create HintDb keeps.

#[local] Hint Resolve keeps_ret keeps_raise keeps_lift keeps_commit
  keeps_rollback keeps_execute : keeps.

Ltac keeps_step :=
  match goal with
  | |- keeps (bind _ _) => apply keeps_bind
  | |- keeps (try_except _ _) => apply keeps_try_except
  | |- forall _, _ => intro
  | |- keeps (if ?b then _ else _) => destruct b
  | |- keeps (match ?x with _ => _ end) => destruct x
  | |- keeps _ => solve [auto with keeps]
  end.

Lemma keeps_add_student_try (w : World) (a b c d : pyval) :
  keeps (add_student_try w a b c d).
Proof. unfold add_student_try. repeat keeps_step. Qed.

Lemma keeps_get_all_students_try (w : World) : keeps (get_all_students_try w).
Proof. unfold get_all_students_try. repeat keeps_step. Qed.

Lemma keeps_get_student_try (w : World) (sid : Z) :
  keeps (get_student_try w sid).
Proof. unfold get_student_try. repeat keeps_step. Qed.

Lemma keeps_update_student_try (w : World) (sid : Z) (data : pyval) :
  keeps (update_student_try w sid data).
Proof.
  unfold update_student_try, update_student_execute, update_student_after,
    update_student_except.
  repeat keeps_step.
Qed.

Lemma keeps_delete_student_try (w : World) (sid : Z) :
  keeps (delete_student_try w sid).
Proof. unfold delete_student_try. repeat keeps_step. Qed.

(** Opening a connection on a well-formed table, running code that keeps it
    so, and closing: the table is well formed. *)
Lemma finish_keeps (w : World) (db : database) (conn : connection)
      (m : M response) :
  table_ok (students db) ->
  get_db_connection w db = Some conn ->
  keeps m ->
  table_ok (students (fst (finish (m conn)))).
Proof.
  intros Hdb Hc Hm. unfold get_db_connection in Hc.
  destruct (connect_ok w); [|discriminate]. inversion Hc; subst conn.
  assert (H : conn_ok (mkConn (students db) (students db) (students_id_seq db)))
    by now split.
  specialize (Hm _ H). unfold finish.
  destruct (m _) as [[resp|e] c']; cbn in *; apply Hm.
Qed.

Lemma handle_keeps (w : World) (rq : request) (db : database) :
  table_ok (students db) -> table_ok (students (fst (handle w rq db))).
Proof.
  intros H. destruct rq as [data| |sid|sid data|sid]; cbn [handle].
  - unfold add_student.
    destruct (missing_required data) as [[]|]; try exact H.
    destruct (py_get data "name"), (py_get data "email"),
      (py_get data "age"), (py_get data "course"); try exact H.
    destruct (get_db_connection w db) eqn:E; [|exact H].
    eapply finish_keeps; eauto using keeps_add_student_try.
  - unfold get_all_students.
    destruct (get_db_connection w db) eqn:E; [|exact H].
    eapply finish_keeps; eauto using keeps_get_all_students_try.
  - unfold get_student.
    destruct (get_db_connection w db) eqn:E; [|exact H].
    eapply finish_keeps; eauto using keeps_get_student_try.
  - unfold update_student. destruct (negb (truthy data)); [exact H|].
    destruct (get_db_connection w db) eqn:E; [|exact H].
    eapply finish_keeps; eauto using keeps_update_student_try.
  - unfold delete_student.
    destruct (get_db_connection w db) eqn:E; [|exact H].
    eapply finish_keeps; eauto using keeps_delete_student_try.
Qed.

Lemma serve_keeps (rqs : list (World * request)) :
  forall db, table_ok (students db) -> table_ok (students (serve rqs db)).
Proof.
  induction rqs as [|[w rq] rqs IH]; intros db H; cbn; [exact H|].
  apply IH. now apply handle_keeps.
Qed.

(** C5 (as stated, refuted).  POST /students with the body
    [{"name": (empty string), "email": "a@x.com"}] on the empty table: the
    key [name] is present, so the request passes the handler's check, and
    the NOT NULL column accepts the empty string.  The stored row has an
    empty name. *)
Lemma empty_name_is_stored :
  ~ Forall has_nonempty_name
      (students (serve [(fine, POST_students
                           (PDict [("name", PStr EmptyString);
                                   ("email", PStr "a@x.com")]))]
                       empty_database)).
Proof.
  intros H. vm_compute in H. inversion H as [|r l Hr Hl]; subst.
  now apply Hr.
Qed.

(** C5 (amended).  After any sequence of requests (creates and updates, and
    reads and deletes as well) on the table as [create_table_if_not_exists]
    made it, in any worlds, no stored row has a null name: the handler
    requires the key, and the NOT NULL constraint rejects a null value. *)
Theorem stored_name_never_null (rqs : list (World * request)) :
  Forall (fun r => name r <> None) (students (serve rqs empty_database)).
Proof.
  assert (H : table_ok (students (serve rqs empty_database)))
    by (apply serve_keeps; constructor).
  unfold table_ok in H. rewrite Forall_forall in *.
  intros r Hin. now destruct (H r Hin).
Qed.

(** ** GET: serialization and order *)

Lemma created_at_to_string_row (r : row) :
  created_at_to_string (dict_of_row r) = Ok (student_json r).
Proof.
  unfold created_at_to_string, dict_of_row, student_json.
  destruct (created_at r); reflexivity.
Qed.

Lemma for_each_student_rows (l : list row) :
  for_each_student (map dict_of_row l) = Ok (map student_json l).
Proof.
  induction l as [|r l IH]; cbn [map for_each_student]; [reflexivity|].
  now rewrite created_at_to_string_row, IH.
Qed.

Lemma insert_by_id_perm (r : row) (l : list row) :
  Permutation (insert_by_id r l) (r :: l).
Proof.
  induction l as [|x l IH]; cbn; [reflexivity|].
  destruct (id r <=? id x); [reflexivity|].
  rewrite IH. apply perm_swap.
Qed.

Lemma order_by_id_perm (l : list row) : Permutation (order_by_id l) l.
Proof.
  induction l as [|r l IH]; cbn; [reflexivity|].
  rewrite insert_by_id_perm. now constructor.
Qed.

Lemma insert_by_id_hd (r x : row) (l : list row) :
  by_id x r -> HdRel by_id x l -> HdRel by_id x (insert_by_id r l).
Proof.
  intros Hxr Hl. destruct l as [|y l]; cbn.
  - now constructor.
  - destruct (id r <=? id y); constructor; [exact Hxr|].
    now inversion Hl.
Qed.

Lemma insert_by_id_sorted (r : row) (l : list row) :
  Sorted by_id l -> Sorted by_id (insert_by_id r l).
Proof.
  induction l as [|x l IH]; intros Hs; cbn.
  - repeat constructor.
  - inversion Hs as [|? ? Hs' Hd]; subst.
    destruct (id r <=? id x) eqn:E.
    + constructor; [exact Hs|]. constructor. unfold by_id. lia.
    + constructor; [now apply IH|].
      apply insert_by_id_hd; [unfold by_id; lia | exact Hd].
Qed.

Lemma order_by_id_sorted (l : list row) : Sorted by_id (order_by_id l).
Proof.
  induction l as [|r l IH]; cbn; [constructor|].
  now apply insert_by_id_sorted.
Qed.

Lemma get_all_students_eq (w : World) (db : database) :
  connect_ok w = true -> execute_fault w = None ->
  get_all_students w db
  = (db, Response (mkResponse
                     (PList (map PDict (map student_json
                                          (order_by_id (students db)))))
                     200)).
Proof.
  intros Hc Hf. unfold get_all_students, get_db_connection. rewrite Hc.
  unfold get_all_students_try, try_except, bind, execute. rewrite Hf.
  change (parse_statement select_all_query) with (Some StSelectAll).
  cbn [run_select_all working fetchall result_set lift].
  rewrite for_each_student_rows. cbn. now destruct db.
Qed.

(** *** What [isoformat] writes is ISO-8601 *)

Lemma all_digits_string_of_uint (d : Decimal.uint) :
  all_digits (NilEmpty.string_of_uint d) = true.
Proof. induction d; cbn; auto. Qed.

Lemma all_digits_digits (n : nat) : all_digits (digits n) = true.
Proof.
  unfold digits, NilZero.string_of_uint.
  destruct (Nat.to_uint n); try reflexivity; apply all_digits_string_of_uint.
Qed.

Lemma length_string_of_uint (d : Decimal.uint) :
  String.length (NilEmpty.string_of_uint d) = Decimal.nb_digits d.
Proof. induction d; cbn; auto. Qed.

Lemma length_digits_of_uint (d : Decimal.uint) :
  (String.length (NilZero.string_of_uint d)
   <= Nat.max 1 (Decimal.nb_digits d))%nat.
Proof.
  destruct d; cbn [NilZero.string_of_uint NilEmpty.string_of_uint
                   String.length Decimal.nb_digits];
    rewrite ?length_string_of_uint; lia.
Qed.

(** A number below [10^k] has a little-endian writing of [k] digits. *)
Lemma of_lu_bounded (k : nat) :
  forall n, (n < 10 ^ k)%nat ->
  exists l, Decimal.nb_digits l = k /\ DecimalNat.Unsigned.of_lu l = n.
Proof.
  induction k as [|k IH]; intros n Hn.
  - exists Decimal.Nil. cbn in *. split; [reflexivity | lia].
  - assert (Hq : (n / 10 < 10 ^ k)%nat).
    { apply Nat.Div0.div_lt_upper_bound. cbn [Nat.pow] in Hn. lia. }
    destruct (IH _ Hq) as [l [Hl Ho]].
    pose proof (Nat.div_mod_eq n 10) as E.
    pose proof (Nat.mod_upper_bound n 10 ltac:(lia)) as B.
    remember (n mod 10)%nat as r eqn:Er.
    destruct r as [|[|[|[|[|[|[|[|[|[|r]]]]]]]]]]; [ | | | | | | | | | | lia].
    + exists (Decimal.D0 l).
      cbn [Decimal.nb_digits DecimalNat.Unsigned.of_lu]. split; lia.
    + exists (Decimal.D1 l).
      cbn [Decimal.nb_digits DecimalNat.Unsigned.of_lu]. split; lia.
    + exists (Decimal.D2 l).
      cbn [Decimal.nb_digits DecimalNat.Unsigned.of_lu]. split; lia.
    + exists (Decimal.D3 l).
      cbn [Decimal.nb_digits DecimalNat.Unsigned.of_lu]. split; lia.
    + exists (Decimal.D4 l).
      cbn [Decimal.nb_digits DecimalNat.Unsigned.of_lu]. split; lia.
    + exists (Decimal.D5 l).
      cbn [Decimal.nb_digits DecimalNat.Unsigned.of_lu]. split; lia.
    + exists (Decimal.D6 l).
      cbn [Decimal.nb_digits DecimalNat.Unsigned.of_lu]. split; lia.
    + exists (Decimal.D7 l).
      cbn [Decimal.nb_digits DecimalNat.Unsigned.of_lu]. split; lia.
    + exists (Decimal.D8 l).
      cbn [Decimal.nb_digits DecimalNat.Unsigned.of_lu]. split; lia.
    + exists (Decimal.D9 l).
      cbn [Decimal.nb_digits DecimalNat.Unsigned.of_lu]. split; lia.
Qed.

Lemma length_digits (k n : nat) :
  (0 < k)%nat -> Z.of_nat n < 10 ^ Z.of_nat k ->
  (String.length (digits n) <= k)%nat.
Proof.
  intros Hk Hz.
  assert (Hn : (n < 10 ^ k)%nat).
  { apply Nat2Z.inj_lt. now rewrite Nat2Z.inj_pow. }
  destruct (of_lu_bounded k n Hn) as [l [Hl Ho]].
  assert (E : Nat.to_uint n = Decimal.unorm (Decimal.rev l)).
  { rewrite <- (DecimalNat.Unsigned.to_of (Decimal.rev l)).
    rewrite DecimalNat.Unsigned.of_uint_alt, DecimalFacts.rev_rev.
    now rewrite Ho. }
  assert (Hr : Decimal.nb_digits (Decimal.rev l) = k)
    by (now rewrite DecimalFacts.nb_digits_rev).
  assert (NN : Decimal.rev l <> Decimal.Nil)
    by (intros Z; rewrite Z in Hr; cbn in Hr; lia).
  pose proof (DecimalFacts.nb_digits_unorm (Decimal.rev l) NN) as B.
  unfold digits. rewrite E.
  pose proof (length_digits_of_uint (Decimal.unorm (Decimal.rev l))). lia.
Qed.

Lemma length_zeros (k : nat) : String.length (zeros k) = k.
Proof. induction k; cbn; auto. Qed.

Lemma all_digits_zeros (k : nat) : all_digits (zeros k) = true.
Proof. induction k; cbn; auto. Qed.

Lemma length_app_str (a b : string) :
  String.length (a ++ b) = (String.length a + String.length b)%nat.
Proof. induction a; cbn; auto. Qed.

Lemma all_digits_app (a b : string) :
  all_digits a = true -> all_digits b = true -> all_digits (a ++ b) = true.
Proof.
  induction a as [|c a IH]; cbn; [auto|].
  intros H Hb. apply andb_true_iff in H as [Hc Ha]. rewrite Hc. cbn. auto.
Qed.

Lemma take_digits_app (a rest : string) :
  all_digits a = true -> take_digits (String.length a) (a ++ rest) = Some rest.
Proof.
  induction a as [|c a IH]; cbn; [reflexivity|].
  intros H. apply andb_true_iff in H as [Hc Ha]. rewrite Hc. auto.
Qed.

(** [%0kd] of a number below [10^k] is exactly [k] digits. *)
Lemma take_digits_zfill (k n : nat) (rest : string) :
  (0 < k)%nat -> Z.of_nat n < 10 ^ Z.of_nat k ->
  take_digits k (zfill k n ++ rest) = Some rest.
Proof.
  intros Hk Hn. pose proof (length_digits k n Hk Hn) as L.
  assert (E : String.length (zfill k n) = k).
  { unfold zfill. rewrite length_app_str, length_zeros. lia. }
  rewrite <- E at 1. apply take_digits_app. unfold zfill.
  apply all_digits_app; [apply all_digits_zeros | apply all_digits_digits].
Qed.

Lemma isoformat_is_iso8601 (t : datetime) :
  valid_datetime t = true -> iso8601 (isoformat t) = true.
Proof.
  unfold valid_datetime, between. intros H.
  repeat (apply andb_true_iff in H; destruct H as [H ?]).
  repeat match goal with
         | X : (_ && _) = true |- _ => apply andb_true_iff in X; destruct X
         | X : (_ <=? _) = true |- _ => apply Z.leb_le in X
         | X : (_ <? _) = true |- _ => apply Z.ltb_lt in X
         end.
  unfold iso8601, isoformat. cbn [take_all].
  rewrite take_digits_zfill by (cbn; lia).
  cbn [append take_char Ascii.eqb Bool.eqb].
  rewrite take_digits_zfill by (cbn; lia).
  cbn [append take_char Ascii.eqb Bool.eqb].
  rewrite take_digits_zfill by (cbn; lia).
  cbn [append take_char Ascii.eqb Bool.eqb].
  rewrite take_digits_zfill by (cbn; lia).
  cbn [append take_char Ascii.eqb Bool.eqb].
  rewrite take_digits_zfill by (cbn; lia).
  cbn [append take_char Ascii.eqb Bool.eqb].
  rewrite take_digits_zfill by (cbn; lia).
  assert (Hh : Z.of_nat (Z.abs_nat (utcoffset t) / 60) < 10 ^ Z.of_nat 2).
  { change (10 ^ Z.of_nat 2) with (Z.of_nat 100). apply Nat2Z.inj_lt.
    apply Nat.Div0.div_lt_upper_bound. lia. }
  assert (Hm : Z.of_nat (Z.abs_nat (utcoffset t) mod 60) < 10 ^ Z.of_nat 2).
  { change (10 ^ Z.of_nat 2) with (Z.of_nat 100). apply Nat2Z.inj_lt.
    pose proof (Nat.mod_upper_bound (Z.abs_nat (utcoffset t)) 60). lia. }
  assert (F : forall rest,
             take_sign
               ((if utcoffset t <? 0 then "-" else "+")
                ++ zfill 2 (Z.abs_nat (utcoffset t) / 60) ++ ":"
                ++ zfill 2 (Z.abs_nat (utcoffset t) mod 60) ++ rest)
             = Some (zfill 2 (Z.abs_nat (utcoffset t) / 60) ++ ":"
                     ++ zfill 2 (Z.abs_nat (utcoffset t) mod 60) ++ rest))
    by (intros rest; destruct (utcoffset t <? 0); reflexivity).
  assert (G : take_fraction
                ((if Nat.eqb (microsecond t) 0 then EmptyString
                  else "." ++ zfill 6 (microsecond t))
                 ++ (if utcoffset t <? 0 then "-" else "+")
                 ++ zfill 2 (Z.abs_nat (utcoffset t) / 60) ++ ":"
                 ++ zfill 2 (Z.abs_nat (utcoffset t) mod 60))
              = Some ((if utcoffset t <? 0 then "-" else "+")
                      ++ zfill 2 (Z.abs_nat (utcoffset t) / 60) ++ ":"
                      ++ zfill 2 (Z.abs_nat (utcoffset t) mod 60))).
  { destruct (Nat.eqb (microsecond t) 0).
    - now destruct (utcoffset t <? 0).
    - unfold take_fraction. cbn [append take_char Ascii.eqb Bool.eqb].
      apply take_digits_zfill; cbn; lia. }
  specialize (F EmptyString). rewrite app_str_nil in F.
  cbn [append] in F, G |- *. rewrite G, F.
  rewrite take_digits_zfill by (exact Hh || lia).
  cbn [append take_char Ascii.eqb Bool.eqb].
  rewrite <- (app_str_nil (zfill 2 (Z.abs_nat (utcoffset t) mod 60))).
  rewrite take_digits_zfill by (exact Hm || lia). reflexivity.
Qed.

Lemma student_json_rendered (r : row) : rendered r (student_json r).
Proof.
  unfold rendered, student_json.
  repeat (split; [reflexivity|]).
  destruct (created_at r) as [t|]; [|reflexivity].
  exists (isoformat t). split; [reflexivity|]. split; [reflexivity|].
  apply isoformat_is_iso8601.
Qed.

(** C6 as worded fails on a row whose [created_at] is NULL, which the
    column allows and the handler's guard on [created_at] provides for:
    GET /students answers 200 and lists the row with [created_at] null,
    not an ISO-8601 string. *)
Lemma null_created_at_is_listed_as_null :
  get_all_students fine (mkDatabase [undated] 6)
  = (mkDatabase [undated] 6,
     Response
       (mkResponse
          (PList [PDict [("id", PInt 5); ("name", PStr "U");
                         ("email", PStr "u@x.com"); ("age", PNone);
                         ("course", PNone); ("created_at", PNone)]])
          200)).
Proof. reflexivity. Qed.

(** C6, amended. For every GET /students on any table, with the connection
    open and the SELECT not failing: the answer is 200 and the table is
    unchanged; its list has one entry per row of the table, all of them and
    no other, in ascending order of id; each entry is an object keyed by the
    six field names holding the row's values, whose [created_at] is the
    [isoformat] string of the row's timestamp, an ISO-8601 text for every
    timestamp Python's [datetime] can hold, or null when the row's
    [created_at] is NULL; the rows of a table the service itself has built
    since [create_table_if_not_exists] all have a timestamp; for an empty
    table the list is empty. *)
Theorem get_all_students_lists_the_table (w : World) (db : database) :
  connect_ok w = true -> execute_fault w = None ->
  exists listed entries,
    get_all_students w db
    = (db, Response (mkResponse (PList (map PDict entries)) 200))
    /\ Permutation listed (students db)
    /\ Sorted by_id listed
    /\ Forall2 rendered listed entries
    /\ (forall rqs, db = serve rqs empty_database ->
        Forall (fun r => created_at r <> None) listed)
    /\ (students db = [] -> entries = []).
Proof.
  intros Hc Hf.
  exists (order_by_id (students db)),
         (map student_json (order_by_id (students db))).
  split; [now apply get_all_students_eq|].
  split; [apply order_by_id_perm|].
  split; [apply order_by_id_sorted|].
  split; [|split].
  - induction (order_by_id (students db)) as [|r l IH]; cbn [map];
      constructor; [apply student_json_rendered | exact IH].
  - intros rqs ->.
    assert (H : table_ok (students (serve rqs empty_database)))
      by (apply serve_keeps; constructor).
    unfold table_ok in H. rewrite Forall_forall in *.
    intros r Hin.
    apply (Permutation_in _ (order_by_id_perm _)) in Hin.
    destruct (H r Hin) as [_ [_ Ht]].
    intros E. rewrite E in Ht. now destruct Ht.
  - intros E. now rewrite E.
Qed.


Lemma str_contains_unfold (n h : string) :
  str_contains n h
  = if String.prefix n h then true
    else match h with
         | EmptyString => false
         | String _ h' => str_contains n h'
         end.
Proof. destruct h; reflexivity. Qed.


Lemma get_student_eq (w : World) (sid : Z) (db : database) :
  connect_ok w = true -> execute_fault w = None ->
  get_student w sid db
  = (db, Response
           match filter (id_is sid) (students db) with
           | r :: _ => mkResponse (PDict (student_json r)) 200
           | [] => mkResponse
                     (error_body ("Student with ID " ++ str_of_Z sid ++ " not found"))
                     404
           end).
Proof.
  intros Hc Hf. unfold get_student, get_db_connection. rewrite Hc.
  unfold get_student_try, try_except. unfold bind at 1. unfold execute.
  rewrite Hf.
  change (parse_statement select_by_id_query) with (Some StSelectById).
  unfold run_select_by_id, bind, lift. cbn [the_id working fetchone result_set].
  destruct db as [t s]. cbn [students students_id_seq].
  destruct (filter (id_is sid) t) as [|r l]; [reflexivity|].
  unfold fetchone. cbn [result_set hd_error]. unfold dict_of_row, student_json.
  destruct (created_at r); reflexivity.
Qed.


(** ** POST: validation *)


(** [add_student] on a dict body, with the validation spelled out. *)
Lemma add_student_dict_eq (w : World) (d : list (string * pyval))
      (db : database) :
  add_student w (PDict d) db
  = if dict_has "name" d && dict_has "email" d then
      match get_db_connection w db with
      | None => (db, connection_failed)
      | Some conn =>
          finish (add_student_try w (value_of d "name") (value_of d "email")
                    (value_of d "age") (value_of d "course") conn)
      end
    else
      (db, Response (mkResponse
                       (error_body "Name and email are required fields.") 400)).
Proof.
  unfold add_student, missing_required.
  destruct d as [|kv d]; [reflexivity|]. cbn [truthy negb py_in].
  destruct (dict_has "name" (kv :: d)), (dict_has "email" (kv :: d));
    reflexivity.
Qed.


(** ** PUT: validation *)

(** Only a dict body gets as far as the UPDATE: on any other body the four
    blocks raise or collect nothing. *)
Lemma only_dicts_reach_update (data : pyval) (qp : list string)
      (ps : list pyval) :
  update_fields data = Ok (qp, ps) -> qp <> [] -> exists d, data = PDict d.
Proof.
  intros E NE. destruct data as [| | | s |l|d|]; try discriminate E.
  - exfalso. unfold update_fields, add_field in E. cbn in E.
    destruct (str_contains "name" s); [discriminate|].
    destruct (str_contains "email" s); [discriminate|].
    destruct (str_contains "age" s); [discriminate|].
    destruct (str_contains "course" s); [discriminate|].
    inversion E; subst. now destruct NE.
  - exfalso. unfold update_fields, add_field in E. cbn [py_in py_getitem] in E.
    repeat match type of E with
           | context [existsb ?f l] => destruct (existsb f l); [discriminate|]
           end.
    inversion E; subst. now destruct NE.
  - now exists d.
Qed.

(** C7 as worded fails.  PUT /students/1 with the body
    [{"nickname": "Al"}] while the database cannot be reached: the body is
    not empty and holds none of the four recognized fields, yet the answer is
    500, since the handler opens the connection before it looks at the
    fields. *)
Lemma no_valid_fields_needs_connection :
  truthy (PDict [("nickname", PStr "Al")]) = true
  /\ (forall c, py_in (key_of c) (PDict [("nickname", PStr "Al")]) = Ok false)
  /\ status_code (snd (update_student unreachable 1
                         (PDict [("nickname", PStr "Al")]) one_student))
     <> 400.
Proof.
  split; [reflexivity|]. split; [now intros []|]. vm_compute. discriminate.
Qed.

(** A body in which none of the four membership tests succeeds collects no
    clause: the handler answers from inside the [try] block, and closing the
    connection leaves the table as it was. *)
Lemma update_student_collects_nothing
      (w : World) (sid : Z) (data : pyval) (db : database) :
  truthy data = true -> connect_ok w = true ->
  (forall k, In k recognized_keys -> py_in k data = Ok false) ->
  update_student w sid data db = (db, Response no_valid_fields).
Proof.
  intros Ht Hc Hp. unfold update_student, get_db_connection.
  rewrite Ht, Hc. cbn [negb].
  unfold update_student_try, try_except, bind, lift.
  unfold update_fields, add_field.
  rewrite (Hp "name"), (Hp "email"), (Hp "age"), (Hp "course")
    by (cbn; tauto).
  cbn. now destruct db.
Qed.

Lemma no_element_is (k : string) (l : list pyval) :
  ~ In (PStr k) l ->
  existsb (fun x => match x with
                    | PStr s => String.eqb k s
                    | _ => false
                    end) l = false.
Proof.
  induction l as [|x l IH]; intros H; cbn; [reflexivity|].
  rewrite IH by (intros F; apply H; now right).
  destruct x as [| | |s| | |]; try reflexivity.
  destruct (String.eqb k s) eqn:E; [|reflexivity].
  apply String.eqb_eq in E. subst. exfalso. apply H. now left.
Qed.

(** C7, amended.  For every PUT /students/{id}: an empty body (one that
    Python holds false: null, an empty object, array or string, 0, false)
    is answered 400 with "No data provided for update.", whether or not the
    database can be reached.  When the connection can be opened, a non-empty
    object with none of the keys name, email, age, course, a non-empty array
    with none of these four strings among its elements and a non-empty
    string with none of these four words in it are answered 400 with "No
    valid fields to update."; a non-zero integer and [true] are answered 500,
    the membership test raising inside the [try] block.  When the connection
    cannot be opened, every non-empty body is answered 500 with "Database
    connection failed".  In all these cases the database is as before. *)
Theorem update_student_rejects_empty_or_unrecognized
        (w : World) (sid : Z) (db : database) :
  (forall data,
      truthy data = false ->
      update_student w sid data db = (db, Response no_data_provided))
  /\ (connect_ok w = true ->
      (forall d,
          d <> [] ->
          (forall k, In k recognized_keys -> dict_lookup k d = None) ->
          update_student w sid (PDict d) db = (db, Response no_valid_fields))
      /\ (forall l,
             l <> [] ->
             (forall k, In k recognized_keys -> ~ In (PStr k) l) ->
             update_student w sid (PList l) db = (db, Response no_valid_fields))
      /\ (forall s,
             s <> EmptyString ->
             (forall k, In k recognized_keys -> str_contains k s = false) ->
             update_student w sid (PStr s) db = (db, Response no_valid_fields))
      /\ (forall n,
             n <> 0 ->
             update_student w sid (PInt n) db
             = (db, Response
                      (mkResponse
                         (error_body "argument of type 'int' is not iterable")
                         500)))
      /\ update_student w sid (PBool true) db
         = (db, Response
                  (mkResponse
                     (error_body "argument of type 'bool' is not iterable")
                     500)))
  /\ (connect_ok w = false ->
      forall data,
        truthy data = true ->
        update_student w sid data db = (db, connection_failed)).
Proof.
  split; [|split].
  - intros data H. unfold update_student. now rewrite H.
  - intros Hc. repeat split.
    + intros d Hd Hk. apply update_student_collects_nothing; [|exact Hc|].
      * destruct d; [now destruct Hd | reflexivity].
      * intros k Hin. cbn [py_in]. unfold dict_has. now rewrite (Hk k Hin).
    + intros l Hl Hk. apply update_student_collects_nothing; [|exact Hc|].
      * destruct l; [now destruct Hl | reflexivity].
      * intros k Hin. cbn [py_in]. now rewrite (no_element_is k l (Hk k Hin)).
    + intros s Hs Hk. apply update_student_collects_nothing; [|exact Hc|].
      * cbn [truthy]. destruct (String.eqb s EmptyString) eqn:E;
          [apply String.eqb_eq in E; now destruct Hs | reflexivity].
      * intros k Hin. cbn [py_in]. now rewrite (Hk k Hin).
    + intros n Hn. unfold update_student, get_db_connection.
      cbn [truthy]. destruct (n =? 0) eqn:E; [apply Z.eqb_eq in E; lia|].
      rewrite Hc. cbn. now destruct db.
    + unfold update_student, get_db_connection. rewrite Hc. cbn.
      now destruct db.
  - intros Hc data Ht. unfold update_student, get_db_connection.
    now rewrite Ht, Hc.
Qed.

(** ** PUT: the statement is a function of the recognized fields *)

Lemma dict_lookup_in (d : list (string * pyval)) (k : string) (v : pyval) :
  NoDup (map fst d) -> (dict_lookup k d = Some v <-> In (k, v) d).
Proof.
  induction d as [|[k' v'] d IH]; cbn; intros N.
  - split; [discriminate | tauto].
  - inversion N as [|? ? Hk N']; subst.
    destruct (String.eqb k k') eqn:E.
    + apply String.eqb_eq in E. subst k'. split.
      * intros H. inversion H. now left.
      * intros [H|H]; [now inversion H|].
        destruct Hk. apply in_map_iff. now exists (k, v).
    + apply String.eqb_neq in E. rewrite (IH N'). split.
      * tauto.
      * intros [H|H]; [inversion H; subst; now destruct E | exact H].
Qed.

(** Reordering the keys of a body does not change what it holds. *)
Lemma reordered_same_recognized (d1 d2 : list (string * pyval)) :
  NoDup (map fst d1) -> Permutation d1 d2 -> same_recognized d1 d2.
Proof.
  intros N1 P c.
  assert (N2 : NoDup (map fst d2))
    by (eapply Permutation_NoDup; [apply Permutation_map; exact P | exact N1]).
  destruct (dict_lookup (key_of c) d1) as [v|] eqn:E1.
  - symmetry. apply (dict_lookup_in d2 _ _ N2).
    apply (Permutation_in _ P). now apply (dict_lookup_in d1 _ _ N1).
  - destruct (dict_lookup (key_of c) d2) as [v|] eqn:E2; [|reflexivity].
    apply (dict_lookup_in d2 _ _ N2) in E2.
    apply (Permutation_in _ (Permutation_sym P)) in E2.
    apply (dict_lookup_in d1 _ _ N1) in E2. congruence.
Qed.

(** The clauses and the values of a body, written out key by key. *)
Lemma clauses_key_by_key (d : list (string * pyval)) :
  map clause_of (present d)
  = ((if dict_has "name" d then ["name = %s"] else [])
     ++ (if dict_has "email" d then ["email = %s"] else [])
     ++ (if dict_has "age" d then ["age = %s"] else [])
     ++ (if dict_has "course" d then ["course = %s"] else []))%list.
Proof.
  unfold present. cbn.
  destruct (dict_has "name" d), (dict_has "email" d),
    (dict_has "age" d), (dict_has "course" d); reflexivity.
Qed.

Lemma values_key_by_key (d : list (string * pyval)) :
  supplied d
  = ((match dict_lookup "name" d with Some v => [v] | None => [] end)
     ++ (match dict_lookup "email" d with Some v => [v] | None => [] end)
     ++ (match dict_lookup "age" d with Some v => [v] | None => [] end)
     ++ (match dict_lookup "course" d with Some v => [v] | None => [] end))%list.
Proof.
  unfold supplied. cbn. now rewrite app_nil_r.
Qed.

(** C10. Two PUT bodies that hold the same recognized fields with the same
    values, in whatever order of keys, give the same clauses and the same
    values: one clause for each of name, email, age, course the body holds,
    in this order, and the values of these keys in the same order.  The text
    the handler composes from the clauses is [UPDATE students SET], the
    clauses joined by commas, [WHERE id = %s]; when there is a clause at
    all, the [try] block executes exactly this text with the values followed
    by the id; and the [try] block runs the same on both bodies. *)
Theorem update_query_is_canonical
        (w : World) (sid : Z) (d1 d2 : list (string * pyval)) :
  same_recognized d1 d2 ->
  exists parts vals,
    parts = ((if dict_has "name" d1 then ["name = %s"] else [])
             ++ (if dict_has "email" d1 then ["email = %s"] else [])
             ++ (if dict_has "age" d1 then ["age = %s"] else [])
             ++ (if dict_has "course" d1 then ["course = %s"] else []))%list
    /\ vals
       = ((match dict_lookup "name" d1 with Some v => [v] | None => [] end)
          ++ (match dict_lookup "email" d1 with Some v => [v] | None => [] end)
          ++ (match dict_lookup "age" d1 with Some v => [v] | None => [] end)
          ++ (match dict_lookup "course" d1 with Some v => [v] | None => [] end)
         )%list
    /\ update_fields (PDict d1) = Ok (parts, vals)
    /\ update_fields (PDict d2) = Ok (parts, vals)
    /\ sql.as_string (update_query parts)
       = "UPDATE students SET " ++ String.concat ", " parts ++ " WHERE id = %s"
    /\ (parts <> [] ->
        update_student_try w sid (PDict d1)
        = try_except
            (cur <- execute w
                      ("UPDATE students SET " ++ String.concat ", " parts
                       ++ " WHERE id = %s")
                      (vals ++ [PInt sid])%list ;;
             update_student_after w sid cur)
            update_student_except)
    /\ update_student_try w sid (PDict d1) = update_student_try w sid (PDict d2).
Proof.
  intros H.
  pose proof (H c_name) as H1. pose proof (H c_email) as H2.
  pose proof (H c_age) as H3. pose proof (H c_course) as H4.
  cbn in H1, H2, H3, H4.
  assert (Hp : present d1 = present d2).
  { unfold present. cbn. unfold dict_has. now rewrite H1, H2, H3, H4. }
  assert (Hs : supplied d1 = supplied d2).
  { unfold supplied. cbn. now rewrite H1, H2, H3, H4. }
  exists (map clause_of (present d1)), (supplied d1).
  split; [apply clauses_key_by_key|].
  split; [apply values_key_by_key|].
  split; [apply update_fields_dict|].
  split; [rewrite Hp, Hs; apply update_fields_dict|].
  split; [apply as_string_update_query|].
  split.
  - intros NE. apply update_student_try_dict.
    intros E. apply NE. now rewrite E.
  - unfold update_student_try. now rewrite !update_fields_dict, Hp, Hs.
Qed.

(** ** PUT and DELETE on an id no row has *)

Lemma filter_length_zero {X} (f : X -> bool) (l : list X) :
  Z.of_nat (List.length (filter f l)) = 0 -> forall x, In x l -> f x = false.
Proof.
  intros H x Hin. destruct (f x) eqn:E; [|reflexivity].
  assert (F : In x (filter f l)) by (apply filter_In; now split).
  destruct (filter f l); [destruct F | discriminate].
Qed.

Lemma not_id_is (sid : Z) (t : list row) :
  (forall r, In r t -> id_is sid r = false) ->
  forall r, In r t -> id r <> sid.
Proof.
  intros H r Hin E. specialize (H r Hin). unfold id_is in H.
  apply Z.eqb_neq in H. now destruct H.
Qed.

(** An UPDATE that returns leaves the committed table and the sequence
    alone, and its row count is the number of rows with the id. *)
Lemma execute_update_ok (w : World) (sid : Z) (d : list (string * pyval))
      (c c' : connection) (cur : cursor) :
  present d <> [] ->
  execute w (update_text (present d)) (supplied d ++ [PInt sid])%list c
  = (Ok cur, c') ->
  committed c' = committed c /\ seq c' = seq c
  /\ rowcount cur = Z.of_nat (List.length (filter (id_is sid) (working c))).
Proof.
  intros NE E. unfold execute in E.
  destruct (execute_fault w); [discriminate|].
  unfold update_text in E.
  rewrite <- as_string_update_query, (parse_update_present d NE) in E.
  rewrite run_update_eq, distinct_present in E. cbn [negb] in E.
  rewrite bind_columns_app in E by apply present_supplied_length.
  destruct (bind_columns w (present d) (supplied d)) as [[asg rest]|];
    [|discriminate].
  cbn [the_id] in E. cbv zeta in E.
  destruct (check_rows _ _) as [[]|]; [|discriminate].
  inversion E; subst. cbn. now rewrite filter_touch, length_map.
Qed.

Lemma execute_delete_ok (w : World) (sid : Z) (c c' : connection)
      (cur : cursor) :
  execute w delete_query [PInt sid] c = (Ok cur, c') ->
  committed c' = committed c /\ seq c' = seq c
  /\ rowcount cur = Z.of_nat (List.length (filter (id_is sid) (working c))).
Proof.
  intros E. unfold execute in E.
  destruct (execute_fault w); [discriminate|].
  change (parse_statement delete_query) with (Some StDelete) in E.
  unfold run_delete, bind, lift in E. cbn [the_id] in E.
  inversion E; subst. now cbn.
Qed.

(** C4. For every PUT /students/{id} (with a body that reaches the UPDATE)
    and every DELETE /students/{id} whose statement runs and reports zero
    rows: no row has that id, the handler rolls back and answers 404, the
    connection is back in the state it was opened in, and the database is as
    before. *)
Theorem zero_rows_is_404 (w : World) (sid : Z) (db : database) :
  let conn := mkConn (students db) (students db) (students_id_seq db) in
  connect_ok w = true ->
  (forall d cur conn',
      present d <> [] ->
      execute w (update_text (present d)) (supplied d ++ [PInt sid])%list conn
      = (Ok cur, conn') ->
      rowcount cur = 0 ->
      (forall r, In r (students db) -> id r <> sid)
      /\ update_student_try w sid (PDict d) conn
         = (Ok (mkResponse
                  (error_body ("Student with ID " ++ str_of_Z sid ++ " not found."))
                  404), conn)
      /\ update_student w sid (PDict d) db
         = (db, Response (mkResponse
                  (error_body ("Student with ID " ++ str_of_Z sid ++ " not found."))
                  404)))
  /\ (forall cur conn',
        execute w delete_query [PInt sid] conn = (Ok cur, conn') ->
        rowcount cur = 0 ->
        (forall r, In r (students db) -> id r <> sid)
        /\ delete_student_try w sid conn
           = (Ok (mkResponse
                    (error_body ("Student with ID " ++ str_of_Z sid ++ " not found."))
                    404), conn)
        /\ delete_student w sid db
           = (db, Response (mkResponse
                    (error_body ("Student with ID " ++ str_of_Z sid ++ " not found."))
                    404))).
Proof.
  intros conn Hc. split.
  - intros d cur conn' NE E Hr.
    destruct (execute_update_ok w sid d conn conn' cur NE E) as [Hcm [Hsq Hrc]].
    assert (T : update_student_try w sid (PDict d) conn
                = (Ok (mkResponse
                         (error_body ("Student with ID " ++ str_of_Z sid
                                      ++ " not found.")) 404), conn)).
    { rewrite (update_student_try_dict w sid d NE).
      unfold try_except, bind at 1. rewrite E.
      unfold update_student_after. rewrite Hr. cbn.
      now rewrite Hcm, Hsq. }
    split; [|split; [exact T|]].
    + apply not_id_is. apply filter_length_zero.
      rewrite Hr in Hrc. symmetry. exact Hrc.
    + unfold update_student, get_db_connection. rewrite Hc.
      destruct d as [|kv d]; [now destruct NE|]. cbn [truthy negb].
      fold conn. rewrite T. cbn. now destruct db.
  - intros cur conn' E Hr.
    destruct (execute_delete_ok w sid conn conn' cur E) as [Hcm [Hsq Hrc]].
    assert (T : delete_student_try w sid conn
                = (Ok (mkResponse
                         (error_body ("Student with ID " ++ str_of_Z sid
                                      ++ " not found.")) 404), conn)).
    { unfold delete_student_try, try_except, bind at 1. rewrite E.
      rewrite Hr. cbn. now rewrite Hcm, Hsq. }
    split; [|split; [exact T|]].
    + apply not_id_is. apply filter_length_zero.
      rewrite Hr in Hrc. symmetry. exact Hrc.
    + unfold delete_student, get_db_connection. rewrite Hc.
      fold conn. rewrite T. cbn. now destruct db.
Qed.

(** ** PUT: a key present with a null value *)

(** C3 (as stated, refuted).  PUT /students/1 with the body
    [{"name": null}] on a table holding student 1: the key is present with a
    null value, but the column is not overwritten with null.  The NOT NULL
    constraint rejects the statement, the handler rolls back, and the row
    keeps its name. *)
Lemma null_name_is_not_stored :
  dict_lookup "name" [("name", PNone)] = Some PNone
  /\ status_code (snd (update_student fine 1 (PDict [("name", PNone)])
                         one_student)) <> 200
  /\ Forall (fun r => cell c_name r <> VNull)
            (students (fst (update_student fine 1 (PDict [("name", PNone)])
                              one_student))).
Proof.
  split; [reflexivity|]. split; [vm_compute; discriminate|].
  vm_compute. repeat constructor. discriminate.
Qed.

Lemma bind_column_null (w : World) (c : column) :
  exists a, bind_column w c PNone = Ok a /\ assigned_value a = VNull.
Proof. destruct c; cbn; eexists; split; reflexivity. Qed.

Lemma bind_column_inj (w : World) (c : column) (v : pyval) (a b : assignment) :
  bind_column w c v = Ok a -> bind_column w c v = Ok b -> a = b.
Proof. congruence. Qed.

Lemma dict_lookup_none (k : string) (d : list (string * pyval)) :
  dict_lookup k d = None -> dict_has k d = false.
Proof. unfold dict_has. now intros ->. Qed.

(** C3 (amended).  For every PUT /students/{id} whose body is a JSON object
    and each of the four recognized fields: a key present with a null value
    puts its clause into the statement with SQL NULL as the parameter, and
    when the update is answered 200 the column of the row with that id is
    null; a key that is absent contributes no clause and the column is
    unchanged in every row.  For [name] and [email] the NOT NULL constraint
    refuses the null: the update is never answered 200 and the database is as
    before. *)
Theorem null_overwrites_nullable_columns
        (w : World) (sid : Z) (d : list (string * pyval)) (db : database) :
  let R := update_student w sid (PDict d) db in
  (forall c, dict_lookup (key_of c) d = Some PNone ->
             In (c, PNone) (combine (present d) (supplied d))
             /\ (exists a, bind_column w c PNone = Ok a
                           /\ assigned_value a = VNull)
             /\ (status_code (snd R) = 200 ->
                 forall r', In r' (students (fst R)) -> id r' = sid ->
                            cell c r' = VNull))
  /\ (forall c, dict_lookup (key_of c) d = None ->
                ~ In c (present d)
                /\ Forall2 (fun r r' => cell c r' = cell c r)
                           (students db) (students (fst R)))
  /\ (dict_lookup "name" d = Some PNone \/ dict_lookup "email" d = Some PNone ->
      fst R = db /\ status_code (snd R) <> 200).
Proof.
  cbv zeta. split; [|split].
  - intros c Hl. split; [now apply present_supplied_combine|].
    split; [apply bind_column_null|].
    intros Hs r' Hin Hid.
    destruct (update_student_effect w sid d db Hs r' Hin Hid c PNone Hl)
      as [a [Ha ->]].
    destruct (bind_column_null w c) as [b [Hb Hv]].
    now rewrite (bind_column_inj w c PNone a b Ha Hb).
  - intros c Hl. apply dict_lookup_none in Hl. split.
    + rewrite present_iff, Hl. discriminate.
    + eapply Forall2_impl; [|apply (update_student_frame w sid d db)].
      intros r r' [_ [_ [_ H]]]. now apply H.
  - intros Hnull.
    destruct (update_student_dict_cases w sid d db)
      as [H|[asg [rest [Hb [Hne [Ck _]]]]]]; [exact H|].
    exfalso.
    destruct (filter (id_is sid) (students db)) as [|r0 l] eqn:F;
      [now destruct Hne|].
    assert (Hr0 : In r0 (filter (id_is sid) (students db)))
      by (rewrite F; now left).
    apply filter_In in Hr0 as [Hin Hi].
    apply check_rows_ok in Ck. rewrite filter_touch, F in Ck.
    cbn [map] in Ck. inversion Ck as [|? ? Hrow _]; subst.
    apply check_row_name in Hrow as [Hn He].
    destruct Hnull as [Hl|Hl].
    + destruct (touch_supplied_cell w sid d asg rest r0 c_name PNone Hb Hi Hl)
        as [a [Ha Hc]].
      cbn in Ha. inversion Ha; subst a. cbn in Hc.
      destruct (name (touch sid asg r0)); [discriminate | now destruct Hn].
    + destruct (touch_supplied_cell w sid d asg rest r0 c_email PNone Hb Hi Hl)
        as [a [Ha Hc]].
      cbn in Ha. inversion Ha; subst a. cbn in Hc.
      destruct (email (touch sid asg r0)); [discriminate | now destruct He].
Qed.

(** ** POST: what is answered 409 *)


Lemma email_count_new (e : string) (t : list row) (r : row) :
  email r = Some e ->
  List.length (filter (email_is e) (t ++ [r]))
  = S (List.length (filter (email_is e) t)).
Proof.
  intros E. rewrite filter_app, length_app. cbn [filter].
  assert (H : email_is e r = true)
    by (unfold email_is; rewrite E; apply String.eqb_refl).
  rewrite H. cbn [List.length]. lia.
Qed.

(** A second student with an email the table already holds is answered 409,
    and no row is inserted. *)
Lemma duplicate_email_is_answered_409 (w : World) (db : database)
      (d : list (string * pyval)) (n : option string) (e : string)
      (a : option Z) (k : option string) :
  connect_ok w = true -> execute_fault w = None ->
  dict_has "name" d = true -> dict_has "email" d = true ->
  adapt_text w (value_of d "name") = Ok n ->
  adapt_text w (value_of d "email") = Ok (Some e) ->
  adapt_int w (value_of d "age") = Ok a ->
  adapt_text w (value_of d "course") = Ok k ->
  existsb (email_is e) (students db) = true ->
  add_student w (PDict d) db
  = (mkDatabase (students db) (students_id_seq db + 1),
     Response (mkResponse
                 (error_body "A student with this email already exists.") 409)).
Proof.
  intros Hc Hf Hn He An Ae Aa Ak Hdup.
  unfold add_student, missing_required, get_db_connection.
  destruct d as [|kv d]; [discriminate|]. cbn [truthy negb py_in py_get].
  rewrite Hn, He, Hc. cbn [negb].
  unfold add_student_try, try_except. unfold bind at 1. unfold execute.
  rewrite Hf. change (parse_statement insert_query) with (Some StInsert).
  unfold run_insert, bind, lift.
  unfold value_of in An, Ae, Aa, Ak. rewrite An, Ae, Aa, Ak.
  cbn [seq working committed id].
  destruct (existsb (id_is (students_id_seq db)) (students db));
    [reflexivity|].
  unfold check_row. cbn [name email].
  destruct n as [n|]; [|reflexivity].
  rewrite email_count_new by reflexivity.
  apply existsb_exists in Hdup as [r [Hin Hr]].
  assert (F : In r (filter (email_is e) (students db)))
    by (apply filter_In; now split).
  destruct (filter (email_is e) (students db)) as [|x l]; [destruct F|].
  reflexivity.
Qed.

(** Whatever the table and the other fields: a null [name] that reaches the
    INSERT is answered 409 with the email-conflict message, and nothing is
    inserted. *)
Lemma null_name_is_answered_409 (w : World) (db : database)
      (d : list (string * pyval)) (e : option string) (a : option Z)
      (k : option string) :
  connect_ok w = true -> execute_fault w = None ->
  dict_lookup "name" d = Some PNone -> dict_has "email" d = true ->
  adapt_text w (value_of d "email") = Ok e ->
  adapt_int w (value_of d "age") = Ok a ->
  adapt_text w (value_of d "course") = Ok k ->
  existsb (id_is (students_id_seq db)) (students db) = false ->
  add_student w (PDict d) db
  = (mkDatabase (students db) (students_id_seq db + 1),
     Response (mkResponse
                 (error_body "A student with this email already exists.") 409)).
Proof.
  intros Hc Hf Hn He Ae Aa Ak Hid.
  unfold add_student, missing_required, get_db_connection.
  destruct d as [|kv d]; [discriminate|]. cbn [truthy negb py_in py_get].
  unfold dict_has at 1. rewrite Hn, He, Hc. cbn [negb].
  unfold add_student_try, try_except. unfold bind at 1. unfold execute.
  rewrite Hf. change (parse_statement insert_query) with (Some StInsert).
  unfold run_insert, bind, lift. cbn [adapt_text].
  unfold value_of in Ae, Aa, Ak. rewrite Ae, Aa, Ak.
  cbn [seq working committed id]. rewrite Hid.
  reflexivity.
Qed.

(** C2, at the failing input.  POST /students with the body
    [{"name": null, "email": "new@x.com"}] on the empty table: no student has
    this email, the INSERT fails on the NOT NULL constraint of [name], and the
    [except psycopg2.IntegrityError] clause ("This will catch cases where the
    email is not unique") answers 409 "A student with this email already
    exists."  No row is inserted. *)
Theorem null_name_answers_email_conflict :
  existsb (email_is "new@x.com") (students empty_database) = false
  /\ add_student fine (PDict [("name", PNone); ("email", PStr "new@x.com")])
                 empty_database
     = (mkDatabase [] 2,
        Response (mkResponse
                    (error_body "A student with this email already exists.") 409)).
Proof. split; reflexivity. Qed.

(** ** The theorems at concrete requests *)

(** PUT /students/1 [{"age": 22}] on the table holding Alice: 200, the frame
    holds, and the age is the bound 22. *)
Lemma update_touches_only_supplied_fields_witness :
  status_code (snd (update_student fine 1 (PDict age_22) one_student)) = 200
  /\ Forall2 (frame 1 age_22) (students one_student)
             (students (fst (update_student fine 1 (PDict age_22) one_student)))
  /\ exists a, bind_column fine c_age (PInt 22) = Ok a
               /\ cell c_age alice_22 = assigned_value a.
Proof.
  destruct (update_touches_only_supplied_fields fine 1 age_22 one_student)
    as [_ [Hf [He _]]].
  split; [reflexivity|]. split; [exact Hf|].
  exact (He eq_refl alice_22 (or_introl eq_refl) eq_refl c_age (PInt 22) eq_refl).
Defined.

(** PUT /students/1 [{"age": null}] on Alice aged 22: 200 and the age is
    null. *)
Lemma null_overwrites_nullable_columns_witness :
  dict_lookup (key_of c_age) [("age", PNone)] = Some PNone
  /\ status_code (snd (update_student fine 1 (PDict [("age", PNone)])
                         (mkDatabase [alice_22] 2))) = 200
  /\ cell c_age alice = VNull.
Proof.
  destruct (null_overwrites_nullable_columns fine 1 [("age", PNone)]
              (mkDatabase [alice_22] 2)) as [H _].
  destruct (H c_age eq_refl) as [_ [_ Hc]].
  split; [reflexivity|]. split; [reflexivity|].
  exact (Hc eq_refl alice (or_introl eq_refl) eq_refl).
Defined.

(** PUT and DELETE on id 7, which the table does not hold. *)
Lemma zero_rows_is_404_witness :
  connect_ok fine = true
  /\ present age_22 <> []
  /\ update_student fine 7 (PDict age_22) one_student
     = (one_student, Response not_found_7)
  /\ delete_student fine 7 one_student = (one_student, Response not_found_7).
Proof.
  destruct (zero_rows_is_404 fine 7 one_student eq_refl) as [Hu Hd].
  assert (NE : present age_22 <> []) by discriminate.
  split; [reflexivity|]. split; [exact NE|]. split.
  - exact (proj2 (proj2 (Hu age_22 (mkCursor 0 []) (mkConn [alice] [alice] 2)
                            NE eq_refl eq_refl))).
  - exact (proj2 (proj2 (Hd (mkCursor 0 []) (mkConn [alice] [alice] 2)
                            eq_refl eq_refl))).
Defined.

(** GET /students on a table whose rows are stored out of order, one of
    them without a timestamp. *)
Lemma get_all_students_lists_the_table_witness :
  connect_ok fine = true /\ execute_fault fine = None
  /\ exists listed entries,
       get_all_students fine (mkDatabase [bob; undated; alice] 6)
       = (mkDatabase [bob; undated; alice] 6,
          Response (mkResponse (PList (map PDict entries)) 200))
       /\ Permutation listed [bob; undated; alice]
       /\ Sorted by_id listed
       /\ Forall2 rendered listed entries.
Proof.
  split; [reflexivity|]. split; [reflexivity|].
  destruct (get_all_students_lists_the_table
              fine (mkDatabase [bob; undated; alice] 6) eq_refl eq_refl)
    as [listed [entries [H1 [H2 [H3 [H4 _]]]]]].
  exists listed, entries. repeat split; assumption.
Defined.

(** PUT on the table holding Alice: no body while the database is down;
    then, the database up, an object, an array and a string without a
    recognized field, and the number 5. *)
Lemma update_student_rejects_empty_or_unrecognized_witness :
  update_student unreachable 1 PNone one_student
  = (one_student, Response no_data_provided)
  /\ connect_ok fine = true
  /\ update_student fine 1 (PDict [("nickname", PStr "Al")]) one_student
     = (one_student, Response no_valid_fields)
  /\ update_student fine 1 (PList [PInt 1; PStr "nickname"]) one_student
     = (one_student, Response no_valid_fields)
  /\ update_student fine 1 (PStr "hello") one_student
     = (one_student, Response no_valid_fields)
  /\ status_code (snd (update_student fine 1 (PInt 5) one_student)) = 500
  /\ connect_ok unreachable = false
  /\ update_student unreachable 1 (PInt 5) one_student
     = (one_student, connection_failed).
Proof.
  destruct (update_student_rejects_empty_or_unrecognized
              unreachable 1 one_student) as [U0 [_ U2]].
  destruct (update_student_rejects_empty_or_unrecognized
              fine 1 one_student) as [_ [F1 _]].
  destruct (F1 eq_refl) as [Fd [Fl [Fs [Fn _]]]].
  split; [exact (U0 PNone eq_refl)|].
  split; [reflexivity|].
  split.
  { apply Fd; [discriminate|].
    intros k [<-|[<-|[<-|[<-|[]]]]]; reflexivity. }
  split.
  { apply Fl; [discriminate|].
    intros k [<-|[<-|[<-|[<-|[]]]]] [H|[H|[]]]; discriminate H. }
  split.
  { apply Fs; [discriminate|].
    intros k [<-|[<-|[<-|[<-|[]]]]]; reflexivity. }
  split; [rewrite (Fn 5); [reflexivity | discriminate]|].
  split; [reflexivity|].
  exact (U2 eq_refl (PInt 5) eq_refl).
Defined.


(** The same two fields in the two possible key orders, for the id 1. *)
Lemma update_query_is_canonical_witness :
  same_recognized [("age", PInt 22); ("name", PStr "A")]
                  [("name", PStr "A"); ("age", PInt 22)]
  /\ exists parts vals,
       update_fields (PDict [("age", PInt 22); ("name", PStr "A")])
       = Ok (parts, vals)
       /\ update_fields (PDict [("name", PStr "A"); ("age", PInt 22)])
          = Ok (parts, vals)
       /\ sql.as_string (update_query parts)
          = "UPDATE students SET name = %s, age = %s WHERE id = %s"
       /\ (vals ++ [PInt 1])%list = [PStr "A"; PInt 22; PInt 1].
Proof.
  assert (S : same_recognized [("age", PInt 22); ("name", PStr "A")]
                              [("name", PStr "A"); ("age", PInt 22)])
    by (intros c; destruct c; reflexivity).
  split; [exact S|].
  destruct (update_query_is_canonical fine 1 _ _ S)
    as [parts [vals [Hp [Hv [E1 [E2 [T _]]]]]]].
  exists parts, vals. split; [exact E1|]. split; [exact E2|].
  split; [rewrite T, Hp | rewrite Hv]; reflexivity.
Defined.

(** * Further properties of the handlers *)

(** ** Statements never touch what is committed *)

Lemma execute_committed (w : World) (q : string) (params : list pyval)
      (c : connection) :
  committed (snd (execute w q params c)) = committed c.
Proof.
  unfold execute. destruct (execute_fault w); [reflexivity|].
  destruct (parse_statement q) as [[]|]; [| | | | |reflexivity].
  - unfold run_insert.
    destruct params as [|p1 [|p2 [|p3 [|p4 [|p5 ps]]]]]; try reflexivity.
    unfold bind, lift.
    destruct (adapt_text w p1); [|reflexivity].
    destruct (adapt_text w p2); [|reflexivity].
    destruct (adapt_int w p3); [|reflexivity].
    destruct (adapt_text w p4); [|reflexivity].
    destruct (existsb _ (working c)); [reflexivity|].
    match goal with |- context [check_row ?t ?r] =>
      destruct (check_row t r) as [[]|] end; reflexivity.
  - unfold run_select_all. destruct params; reflexivity.
  - unfold run_select_by_id, bind, lift. destruct (the_id params); reflexivity.
  - rewrite run_update_eq.
    destruct (negb (distinct_columns cols)); [reflexivity|].
    destruct (bind_columns w cols params) as [[asg rest]|]; [|reflexivity].
    destruct (the_id rest); [|reflexivity]. cbv zeta.
    destruct (check_rows _ _) as [[]|]; reflexivity.
  - unfold run_delete, bind, lift. destruct (the_id params); reflexivity.
Qed.

(** ** POST: every way a create can end *)

(** The [try] block of [add_student] on a freshly opened connection either
    commits exactly one new row, built from the bound values, the next value
    of the sequence and the clock, and answers 201 with that id; or it
    answers 409 or 500 and what is committed is what was there. *)
Lemma add_student_try_cases (w : World) (a b c d : pyval) (t : list row) (s : Z) :
  (exists resp c',
      add_student_try w a b c d (mkConn t t s) = (Ok resp, c')
      /\ committed c' = t
      /\ (status resp = 409 \/ status resp = 500))
  \/ (exists n e g k,
        adapt_text w a = Ok n /\ adapt_text w b = Ok e
        /\ adapt_int w c = Ok g /\ adapt_text w d = Ok k
        /\ existsb (id_is s) t = false
        /\ check_row (t ++ [mkRow s n e g k (Some (now w))])
                     (mkRow s n e g k (Some (now w))) = Ok tt
        /\ execute_fault w = None /\ commit_fault w = None
        /\ add_student_try w a b c d (mkConn t t s)
           = (Ok (mkResponse
                    (PDict [ ("message", PStr "Student added successfully");
                             ("id", PInt s); ("name", a); ("email", b) ])
                    201),
              mkConn (t ++ [mkRow s n e g k (Some (now w))])
                     (t ++ [mkRow s n e g k (Some (now w))]) (s + 1))).
Proof.
  unfold add_student_try, try_except. unfold bind at 1. unfold execute.
  destruct (execute_fault w) as [msg|] eqn:Hf.
  { left. cbn. do 2 eexists. split; [reflexivity|]. split; [reflexivity|now right]. }
  change (parse_statement insert_query) with (Some StInsert).
  unfold run_insert, bind, lift.
  destruct (adapt_text w a) as [n|x] eqn:A1.
  2:{ left. destruct (is_IntegrityError x); cbn; do 2 eexists;
      (split; [reflexivity|]); (split; [reflexivity|]); tauto. }
  destruct (adapt_text w b) as [e|x] eqn:A2.
  2:{ left. destruct (is_IntegrityError x); cbn; do 2 eexists;
      (split; [reflexivity|]); (split; [reflexivity|]); tauto. }
  destruct (adapt_int w c) as [g|x] eqn:A3.
  2:{ left. destruct (is_IntegrityError x); cbn; do 2 eexists;
      (split; [reflexivity|]); (split; [reflexivity|]); tauto. }
  destruct (adapt_text w d) as [k|x] eqn:A4.
  2:{ left. destruct (is_IntegrityError x); cbn; do 2 eexists;
      (split; [reflexivity|]); (split; [reflexivity|]); tauto. }
  cbn [seq working committed id].
  destruct (existsb (id_is s) t) eqn:Hid.
  { left. cbn. do 2 eexists. split; [reflexivity|]. split; [reflexivity|now left]. }
  destruct (check_row (t ++ [mkRow s n e g k (Some (now w))])
                      (mkRow s n e g k (Some (now w)))) as [[]|x] eqn:Ck.
  2:{ left. destruct (is_IntegrityError x); cbn; do 2 eexists;
      (split; [reflexivity|]); (split; [reflexivity|]); tauto. }
  unfold fetchone. cbn [result_set hd_error id]. unfold commit.
  destruct (commit_fault w) as [msg|] eqn:Hm.
  { left. cbn. do 2 eexists. split; [reflexivity|]. split; [reflexivity|now right]. }
  right. exists n, e, g, k. repeat (split; [first [assumption | reflexivity]|]).
  reflexivity.
Qed.

(** A body that is not a dict never gets past the four [data.get] calls. *)
Lemma add_student_not_dict (w : World) (data : pyval) (db : database) :
  is_dict data = false ->
  fst (add_student w data db) = db
  /\ (status_code (snd (add_student w data db)) = 400
      \/ status_code (snd (add_student w data db)) = 500).
Proof.
  intros H. unfold add_student.
  destruct (missing_required data) as [[|]|e];
    [cbn; split; [reflexivity | auto] | | cbn; split; [reflexivity | auto]].
  destruct data; try discriminate H; cbn; split; solve [reflexivity | auto].
Qed.

(** The whole handler: a POST either leaves the table as it was and answers
    400, 409 or 500, or it appends one row and answers 201. *)
Lemma add_student_cases (w : World) (data : pyval) (db : database) :
  (students (fst (add_student w data db)) = students db
   /\ In (status_code (snd (add_student w data db))) [400; 409; 500])
  \/ (exists d n e g k,
        data = PDict d
        /\ adapt_text w (value_of d "name") = Ok n
        /\ adapt_text w (value_of d "email") = Ok e
        /\ adapt_int w (value_of d "age") = Ok g
        /\ adapt_text w (value_of d "course") = Ok k
        /\ existsb (id_is (students_id_seq db)) (students db) = false
        /\ check_row (students db
                      ++ [mkRow (students_id_seq db) n e g k (Some (now w))])
                     (mkRow (students_id_seq db) n e g k (Some (now w))) = Ok tt
        /\ add_student w data db
           = (mkDatabase
                (students db
                 ++ [mkRow (students_id_seq db) n e g k (Some (now w))])
                (students_id_seq db + 1),
              Response (mkResponse
                (PDict [ ("message", PStr "Student added successfully");
                         ("id", PInt (students_id_seq db));
                         ("name", value_of d "name");
                         ("email", value_of d "email") ])
                201))).
Proof.
  destruct (is_dict data) eqn:D.
  2:{ left. destruct (add_student_not_dict w data db D) as [-> [->| ->]];
      cbn; tauto. }
  destruct data as [| | | | |d|]; try discriminate D.
  remember (add_student w (PDict d) db) as R eqn:HR.
  unfold add_student in HR.
  destruct (missing_required (PDict d)) as [[|]|x] eqn:V.
  - subst R. left. cbn. tauto.
  - cbn [py_get] in HR. fold (value_of d "name") (value_of d "email")
      (value_of d "age") (value_of d "course") in HR.
    unfold get_db_connection in HR. destruct (connect_ok w).
    2:{ subst R. left. cbn. tauto. }
    destruct db as [t s]. cbn [students students_id_seq] in *.
    destruct (add_student_try_cases w (value_of d "name") (value_of d "email")
                (value_of d "age") (value_of d "course") t s)
      as [[resp [c' [E [Hc Hs]]]]|[n [e [g [k [A1 [A2 [A3 [A4 [Hid [Ck [_ [_ E]]]]]]]]]]]]].
    + rewrite E in HR. subst R. left. cbn. rewrite Hc. split; [reflexivity|].
      destruct Hs as [-> | ->]; tauto.
    + rewrite E in HR. right. exists d, n, e, g, k. now repeat split.
  - subst R. left. cbn. tauto.
Qed.

(** ** DELETE: every way a delete can end *)

Lemma delete_student_cases (w : World) (sid : Z) (db : database) :
  (fst (delete_student w sid db) = db
   /\ In (status_code (snd (delete_student w sid db))) [404; 500])
  \/ (filter (id_is sid) (students db) <> []
      /\ connect_ok w = true /\ execute_fault w = None /\ commit_fault w = None
      /\ delete_student w sid db
         = (mkDatabase (filter (fun r => negb (id_is sid r)) (students db))
                       (students_id_seq db),
            Response (mkResponse
                        (message_body ("Student with ID " ++ str_of_Z sid
                                       ++ " deleted successfully.")) 200))).
Proof.
  remember (delete_student w sid db) as R eqn:HR.
  unfold delete_student, get_db_connection in HR.
  destruct (connect_ok w); [|subst R; left; cbn; tauto].
  destruct db as [t s]. cbn [students students_id_seq] in *.
  unfold delete_student_try, try_except in HR. unfold bind at 1 in HR.
  unfold execute in HR.
  destruct (execute_fault w); [subst R; left; cbn; tauto|].
  change (parse_statement delete_query) with (Some StDelete) in HR.
  unfold run_delete, bind, lift in HR. cbn [the_id working rowcount] in HR.
  destruct (Z.of_nat (List.length (filter (id_is sid) t)) =? 0) eqn:Rc.
  { subst R. left. cbn. tauto. }
  unfold commit in HR. destruct (commit_fault w).
  { subst R. left. cbn. tauto. }
  right. split; [|repeat split; exact HR].
  intros F. rewrite F in Rc. discriminate.
Qed.

(** ** GET: reading changes nothing *)

Lemma get_all_students_any (w : World) (db : database) :
  fst (get_all_students w db) = db
  /\ In (status_code (snd (get_all_students w db))) [200; 500].
Proof.
  destruct (connect_ok w) eqn:Hc.
  - destruct (execute_fault w) as [msg|] eqn:Hf.
    + unfold get_all_students, get_db_connection. rewrite Hc.
      unfold get_all_students_try, try_except, bind, execute. rewrite Hf.
      destruct db. cbn. tauto.
    + rewrite (get_all_students_eq w db Hc Hf). cbn. tauto.
  - unfold get_all_students, get_db_connection. rewrite Hc. cbn. tauto.
Qed.

Lemma get_student_any (w : World) (sid : Z) (db : database) :
  fst (get_student w sid db) = db
  /\ In (status_code (snd (get_student w sid db))) [200; 404; 500].
Proof.
  destruct (connect_ok w) eqn:Hc.
  - destruct (execute_fault w) as [msg|] eqn:Hf.
    + unfold get_student, get_db_connection. rewrite Hc.
      unfold get_student_try, try_except, bind, execute. rewrite Hf.
      destruct db. cbn. tauto.
    + rewrite (get_student_eq w sid db Hc Hf).
      destruct (filter (id_is sid) (students db)); cbn; tauto.
  - unfold get_student, get_db_connection. rewrite Hc. cbn. tauto.
Qed.

(** ** PUT: every way an update can end *)

(** The four blocks on a body that is not a dict: they raise (never a
    constraint violation), or they collect nothing. *)
Lemma update_fields_not_dict (data : pyval) :
  is_dict data = false ->
  (exists e, update_fields data = Raise e /\ is_IntegrityError e = false)
  \/ update_fields data = Ok ([], []).
Proof.
  intros H. destruct data as [| | | s |l|d|]; try discriminate H;
    try (left; eexists; split; reflexivity).
  - unfold update_fields, add_field. cbn.
    destruct (str_contains "name" s); [left; eexists; split; reflexivity|].
    destruct (str_contains "email" s); [left; eexists; split; reflexivity|].
    destruct (str_contains "age" s); [left; eexists; split; reflexivity|].
    destruct (str_contains "course" s); [left; eexists; split; reflexivity|].
    now right.
  - unfold update_fields, add_field. cbn [py_in py_getitem].
    repeat match goal with
           | |- context [existsb ?f l] =>
               destruct (existsb f l); [left; eexists; split; reflexivity|]
           end.
    now right.
Qed.

Lemma update_student_not_dict (w : World) (sid : Z) (data : pyval)
      (db : database) :
  is_dict data = false ->
  fst (update_student w sid data db) = db
  /\ In (status_code (snd (update_student w sid data db))) [400; 500].
Proof.
  intros H. unfold update_student.
  destruct (negb (truthy data)); [cbn; tauto|].
  unfold get_db_connection. destruct (connect_ok w); [|cbn; tauto].
  unfold update_student_try, try_except, bind, lift.
  destruct db as [t s].
  destruct (update_fields_not_dict data H) as [[e [-> He]]| ->].
  - unfold update_student_except. rewrite He. cbn. tauto.
  - cbn. tauto.
Qed.

Lemma update_student_try_status (w : World) (sid : Z) (data : pyval)
      (c : connection) :
  exists resp c',
    update_student_try w sid data c = (Ok resp, c')
    /\ In (status resp) [200; 400; 404; 409; 500].
Proof.
  unfold update_student_try, try_except.
  match goal with |- context [match ?m c with _ => _ end] =>
    destruct (m c) as [[resp|e] c1] eqn:E end.
  - exists resp, c1. split; [reflexivity|].
    unfold bind at 1 in E. unfold lift in E.
    destruct (update_fields data) as [[qp ps]|]; [|discriminate].
    unfold update_student_execute in E.
    destruct qp as [|q qp]; [inversion E; cbn; tauto|].
    unfold bind at 1 in E.
    destruct (execute w _ _ c) as [[cur|x] c2]; [|discriminate].
    unfold update_student_after in E.
    destruct (rowcount cur =? 0); [inversion E; cbn; tauto|].
    unfold bind, commit in E.
    destruct (commit_fault w); [discriminate|]. inversion E. cbn. tauto.
  - unfold update_student_except.
    destruct (is_IntegrityError e); cbn; do 2 eexists;
      (split; [reflexivity | cbn; tauto]).
Qed.

Lemma update_student_status (w : World) (sid : Z) (data : pyval)
      (db : database) :
  In (status_code (snd (update_student w sid data db)))
     [200; 400; 404; 409; 500].
Proof.
  unfold update_student.
  destruct (negb (truthy data)); [cbn; tauto|].
  destruct (get_db_connection w db) as [c|]; [|cbn; tauto].
  destruct (update_student_try_status w sid data c) as [resp [c' [-> H]]].
  exact H.
Qed.

(** ** The service as a whole *)

Lemma handle_status (w : World) (rq : request) (db : database) :
  In (status_code (snd (handle w rq db))) (allowed_status rq).
Proof.
  destruct rq as [data| |sid|sid data|sid]; cbn [handle allowed_status].
  - destruct (add_student_cases w data db)
      as [[_ H]|[d [n [e [g [k [_ [_ [_ [_ [_ [_ [_ ->]]]]]]]]]]]]].
    + cbn in H |- *. tauto.
    + cbn. tauto.
  - apply get_all_students_any.
  - apply get_student_any.
  - apply update_student_status.
  - destruct (delete_student_cases w sid db) as [[_ H]|[_ [_ [_ [_ ->]]]]].
    + cbn in H |- *. tauto.
    + cbn. tauto.
Qed.

Lemma handle_atomic (w : World) (rq : request) (db : database) :
  status_code (snd (handle w rq db)) <> 200 ->
  status_code (snd (handle w rq db)) <> 201 ->
  students (fst (handle w rq db)) = students db.
Proof.
  destruct rq as [data| |sid|sid data|sid]; cbn [handle]; intros N0 N1.
  - destruct (add_student_cases w data db)
      as [[H _]|[d [n [e [g [k [_ [_ [_ [_ [_ [_ [_ E]]]]]]]]]]]]]; [exact H|].
    rewrite E in N1. now destruct N1.
  - now rewrite (proj1 (get_all_students_any w db)).
  - now rewrite (proj1 (get_student_any w sid db)).
  - destruct (is_dict data) eqn:D.
    + destruct data as [| | | | |d|]; try discriminate D.
      destruct (update_student_dict_cases w sid d db)
        as [[-> _]|[asg [rest [_ [_ [_ E]]]]]]; [reflexivity|].
      rewrite E in N0. now destruct N0.
    + now rewrite (proj1 (update_student_not_dict w sid data db D)).
  - destruct (delete_student_cases w sid db) as [[-> _]|[_ [_ [_ [_ E]]]]];
      [reflexivity|].
    rewrite E in N0. now destruct N0.
Qed.

(** ** What a VARCHAR(255) column has taken, it takes again *)

Lemma split_chars_app (s : string) :
  forall n a b, split_chars n s = (a, b) -> s = a ++ b.
Proof.
  induction s as [|c s IH]; intros n a b E; cbn in E.
  - now inversion E.
  - destruct (is_continuation c).
    + destruct (split_chars n s) as [a' b'] eqn:E'. inversion E; subst.
      cbn. f_equal. exact (IH _ _ _ E').
    + destruct n as [|n]; [now inversion E|].
      destruct (split_chars n s) as [a' b'] eqn:E'. inversion E; subst.
      cbn. f_equal. exact (IH _ _ _ E').
Qed.

Lemma split_chars_kept (s : string) :
  forall n a b, split_chars n s = (a, b) -> split_chars n a = (a, EmptyString).
Proof.
  induction s as [|c s IH]; intros n a b E; cbn in E.
  - now inversion E.
  - destruct (is_continuation c) eqn:C.
    + destruct (split_chars n s) as [a' b'] eqn:E'. inversion E; subst.
      cbn. now rewrite C, (IH _ _ _ E').
    + destruct n as [|n]; [now inversion E|].
      destruct (split_chars n s) as [a' b'] eqn:E'. inversion E; subst.
      cbn. now rewrite C, (IH _ _ _ E').
Qed.

Lemma prefix_app_r (n a b : string) :
  String.prefix n a = true -> String.prefix n (a ++ b) = true.
Proof.
  revert a. induction n as [|x n IH]; intros a H.
  - now destruct (a ++ b).
  - destruct a as [|y a]; [discriminate|]. cbn in H |- *.
    destruct (ascii_dec x y); [now apply IH | discriminate].
Qed.

Lemma str_contains_app_l (n a b : string) :
  str_contains n (a ++ b) = false -> str_contains n a = false.
Proof.
  induction a as [|y a IH]; intros H.
  - rewrite str_contains_unfold in H |- *.
    destruct (String.prefix n EmptyString) eqn:P; [|reflexivity].
    now rewrite (prefix_app_r n EmptyString b P) in H.
  - rewrite str_contains_unfold in H |- *.
    destruct (String.prefix n (String y a)) eqn:P.
    + now rewrite (prefix_app_r n (String y a) b P) in H.
    + cbn [append] in H.
      destruct (String.prefix n (String y (a ++ b))); [discriminate|].
      now apply IH.
Qed.

Lemma fit_varchar_stored (s : string) (o : option string) :
  fit_varchar s = Ok o -> stored_text o.
Proof.
  unfold fit_varchar. destruct (has_nul s) eqn:N; [discriminate|].
  destruct (split_chars 255 s) as [a b] eqn:E.
  destruct (all_spaces b); [|discriminate].
  intros [= <-] s' [= <-]. unfold fit_varchar.
  pose proof (split_chars_app _ _ _ _ E) as A. rewrite A in N.
  unfold has_nul in *. rewrite (str_contains_app_l _ _ _ N).
  now rewrite (split_chars_kept _ _ _ _ E).
Qed.

Lemma adapt_text_stored (w : World) (v : pyval) (o : option string) :
  adapt_text w v = Ok o -> stored_text o.
Proof.
  unfold adapt_text.
  destruct v; try (destruct (cast_text w _); [apply fit_varchar_stored | discriminate]).
  - intros [= <-] s E. discriminate.
  - apply fit_varchar_stored.
Qed.

Lemma bind_column_fit (w : World) (c : column) (v : pyval) (a : assignment) :
  bind_column w c v = Ok a -> assignment_fit a.
Proof.
  destruct c; cbn.
  - destruct (adapt_text w v) eqn:E; [|discriminate]. intros [= <-].
    exact (adapt_text_stored _ _ _ E).
  - destruct (adapt_text w v) eqn:E; [|discriminate]. intros [= <-].
    exact (adapt_text_stored _ _ _ E).
  - destruct (adapt_int w v); [|discriminate]. now intros [= <-].
  - destruct (adapt_text w v) eqn:E; [|discriminate]. intros [= <-].
    exact (adapt_text_stored _ _ _ E).
Qed.

Lemma bind_columns_fit (w : World) (cols : list column) :
  forall params asg rest,
    bind_columns w cols params = Ok (asg, rest) -> Forall assignment_fit asg.
Proof.
  induction cols as [|c cols IH]; intros params asg rest E; cbn in E.
  - inversion E. constructor.
  - destruct params as [|v params]; [discriminate|].
    destruct (bind_column w c v) as [a|] eqn:Ea; [|discriminate].
    destruct (bind_columns w cols params) as [[asg' rest']|] eqn:Er;
      [|discriminate].
    inversion E; subst. constructor.
    + exact (bind_column_fit _ _ _ _ Ea).
    + exact (IH _ _ _ Er).
Qed.

Lemma set_columns_email_fit (asg : list assignment) :
  Forall assignment_fit asg ->
  forall r, stored_text (email r) ->
            stored_text (email (fold_left set_column asg r)).
Proof.
  induction 1 as [|a asg Ha _ IH]; intros r Hr; cbn; [exact Hr|].
  apply IH. destruct a; cbn in *; assumption.
Qed.

(** ** Constraints kept along every sequence of requests *)

(** A property of table and sequence that survives a step of the sequence,
    an accepted INSERT, an accepted UPDATE and a DELETE survives every
    request. *)
Section Maintains.

Variable P : list row -> Z -> Prop.

Hypothesis P_next : forall t s, P t s -> P t (s + 1).

Hypothesis P_insert :
  forall t s r,
    P t s -> id r = s -> existsb (id_is s) t = false ->
    check_row (t ++ [r]) r = Ok tt ->
    stored_text (email r) ->
    P (t ++ [r]) (s + 1).

Hypothesis P_update :
  forall t s sid asg,
    P t s ->
    check_rows (map (touch sid asg) t)
               (filter (id_is sid) (map (touch sid asg) t)) = Ok tt ->
    Forall assignment_fit asg ->
    P (map (touch sid asg) t) s.

Hypothesis P_delete :
  forall t s sid, P t s -> P (filter (fun r => negb (id_is sid r)) t) s.

Lemma maintains_ret {A} (a : A) : maintains P (ret a).
Proof. intros c H. exact H. Qed.

Lemma maintains_raise {A} (e : exn) : maintains P (@raise A e).
Proof. intros c H. exact H. Qed.

Lemma maintains_lift {A} (r : result A) : maintains P (lift r).
Proof. intros c H. exact H. Qed.

Lemma maintains_bind {A B} (m : M A) (k : A -> M B) :
  maintains P m -> (forall a, maintains P (k a)) -> maintains P (bind m k).
Proof.
  intros Hm Hk c H. unfold bind. specialize (Hm c H).
  destruct (m c) as [[a|e] c']; cbn in *; [now apply Hk | exact Hm].
Qed.

Lemma maintains_try_except {A} (body : M A) (handler : exn -> M A) :
  maintains P body -> (forall e, maintains P (handler e)) ->
  maintains P (try_except body handler).
Proof.
  intros Hm Hk c H. unfold try_except. specialize (Hm c H).
  destruct (body c) as [[a|e] c']; cbn in *; [exact Hm | now apply Hk].
Qed.

Lemma maintains_commit (w : World) : maintains P (commit w).
Proof.
  intros c [Hc Hw]. unfold commit. destruct (commit_fault w); cbn; now split.
Qed.

Lemma maintains_rollback : maintains P rollback.
Proof. intros c [Hc Hw]. now split. Qed.

Lemma maintains_run_insert (w : World) (params : list pyval) :
  maintains P (run_insert w params).
Proof.
  intros c [Hc Hw]. unfold run_insert.
  destruct params as [|p1 [|p2 [|p3 [|p4 [|p5 ps]]]]];
    try (split; assumption).
  unfold bind, lift.
  destruct (adapt_text w p1); [|now split].
  destruct (adapt_text w p2) eqn:A2; [|now split].
  destruct (adapt_int w p3); [|now split].
  destruct (adapt_text w p4); [|now split].
  cbn [id].
  destruct (existsb (id_is (seq c)) (working c)) eqn:Hid;
    [split; cbn; now apply P_next|].
  match goal with |- context [check_row ?t ?r] =>
    destruct (check_row t r) as [[]|] eqn:Ck end;
    [|split; cbn; now apply P_next].
  split; cbn; [now apply P_next|].
  apply P_insert; try assumption; try reflexivity.
  exact (adapt_text_stored _ _ _ A2).
Qed.

Lemma maintains_run_update (w : World) (cols : list column)
      (params : list pyval) :
  maintains P (run_update w cols params).
Proof.
  intros c [Hc Hw]. rewrite run_update_eq.
  destruct (negb (distinct_columns cols)); [now split|].
  destruct (bind_columns w cols params) as [[asg rest]|] eqn:Hb; [|now split].
  destruct (the_id rest) as [sid|]; [|now split].
  cbv zeta.
  destruct (check_rows _ _) as [[]|] eqn:Ck; [|now split].
  split; [exact Hc|]. cbn. apply P_update; try assumption.
  exact (bind_columns_fit _ _ _ _ _ Hb).
Qed.

Lemma maintains_run_delete (params : list pyval) :
  maintains P (run_delete params).
Proof.
  intros c [Hc Hw]. unfold run_delete, bind, lift.
  destruct (the_id params); [|now split].
  split; [exact Hc|]. cbn. now apply P_delete.
Qed.

Lemma maintains_execute (w : World) (q : string) (params : list pyval) :
  maintains P (execute w q params).
Proof.
  unfold execute. destruct (execute_fault w); [apply maintains_raise|].
  destruct (parse_statement q) as [[]|].
  - apply maintains_run_insert.
  - intros c H. unfold run_select_all. destruct params; exact H.
  - intros c H. unfold run_select_by_id, bind, lift.
    destruct (the_id params); exact H.
  - apply maintains_run_update.
  - apply maintains_run_delete.
  - apply maintains_raise.
Qed.

Ltac maintains_step :=
  match goal with
  | |- maintains _ (bind _ _) => apply maintains_bind
  | |- maintains _ (try_except _ _) => apply maintains_try_except
  | |- forall _, _ => intro
  | |- maintains _ (if ?b then _ else _) => destruct b
  | |- maintains _ (match ?x with _ => _ end) => destruct x
  | |- maintains _ (ret _) => apply maintains_ret
  | |- maintains _ (raise _) => apply maintains_raise
  | |- maintains _ (lift _) => apply maintains_lift
  | |- maintains _ (commit _) => apply maintains_commit
  | |- maintains _ rollback => apply maintains_rollback
  | |- maintains _ (execute _ _ _) => apply maintains_execute
  end.

Lemma maintains_add_student_try (w : World) (a b c d : pyval) :
  maintains P (add_student_try w a b c d).
Proof. unfold add_student_try. repeat maintains_step. Qed.

Lemma maintains_get_all_students_try (w : World) :
  maintains P (get_all_students_try w).
Proof. unfold get_all_students_try. repeat maintains_step. Qed.

Lemma maintains_get_student_try (w : World) (sid : Z) :
  maintains P (get_student_try w sid).
Proof. unfold get_student_try. repeat maintains_step. Qed.

Lemma maintains_update_student_try (w : World) (sid : Z) (data : pyval) :
  maintains P (update_student_try w sid data).
Proof.
  unfold update_student_try, update_student_execute, update_student_after,
    update_student_except.
  repeat maintains_step.
Qed.

Lemma maintains_delete_student_try (w : World) (sid : Z) :
  maintains P (delete_student_try w sid).
Proof. unfold delete_student_try. repeat maintains_step. Qed.

Lemma finish_maintains (w : World) (db : database) (conn : connection)
      (m : M response) :
  P (students db) (students_id_seq db) ->
  get_db_connection w db = Some conn ->
  maintains P m ->
  P (students (fst (finish (m conn)))) (students_id_seq (fst (finish (m conn)))).
Proof.
  intros Hdb Hc Hm. unfold get_db_connection in Hc.
  destruct (connect_ok w); [|discriminate]. inversion Hc; subst conn.
  assert (H : conn_inv P (mkConn (students db) (students db)
                                 (students_id_seq db))) by now split.
  specialize (Hm _ H). unfold finish.
  destruct (m _) as [[resp|e] c']; cbn in *; apply Hm.
Qed.

Lemma handle_maintains (w : World) (rq : request) (db : database) :
  P (students db) (students_id_seq db) ->
  P (students (fst (handle w rq db))) (students_id_seq (fst (handle w rq db))).
Proof.
  intros H. destruct rq as [data| |sid|sid data|sid]; cbn [handle].
  - unfold add_student.
    destruct (missing_required data) as [[]|]; try exact H.
    destruct (py_get data "name"), (py_get data "email"),
      (py_get data "age"), (py_get data "course"); try exact H.
    destruct (get_db_connection w db) eqn:E; [|exact H].
    eapply finish_maintains; eauto using maintains_add_student_try.
  - unfold get_all_students.
    destruct (get_db_connection w db) eqn:E; [|exact H].
    eapply finish_maintains; eauto using maintains_get_all_students_try.
  - unfold get_student.
    destruct (get_db_connection w db) eqn:E; [|exact H].
    eapply finish_maintains; eauto using maintains_get_student_try.
  - unfold update_student. destruct (negb (truthy data)); [exact H|].
    destruct (get_db_connection w db) eqn:E; [|exact H].
    eapply finish_maintains; eauto using maintains_update_student_try.
  - unfold delete_student.
    destruct (get_db_connection w db) eqn:E; [|exact H].
    eapply finish_maintains; eauto using maintains_delete_student_try.
Qed.

Lemma serve_maintains (rqs : list (World * request)) :
  forall db,
    P (students db) (students_id_seq db) ->
    P (students (serve rqs db)) (students_id_seq (serve rqs db)).
Proof.
  induction rqs as [|[w rq] rqs IH]; intros db H; cbn; [exact H|].
  apply IH. now apply handle_maintains.
Qed.

End Maintains.

(** *** PRIMARY KEY *)

Lemma map_id_touch (sid : Z) (asg : list assignment) (t : list row) :
  map id (map (touch sid asg) t) = map id t.
Proof.
  induction t as [|r t IH]; cbn; [reflexivity|]. rewrite IH. f_equal.
  unfold touch. destruct (id_is sid r); [apply set_columns_id | reflexivity].
Qed.

Lemma NoDup_map_filter {X Y} (g : X -> Y) (f : X -> bool) (l : list X) :
  NoDup (map g l) -> NoDup (map g (filter f l)).
Proof.
  induction l as [|x l IH]; cbn; intros N; [constructor|].
  inversion N as [|? ? Hx N']; subst.
  destruct (f x); cbn; [|now apply IH].
  constructor; [|now apply IH].
  intros Hin. apply Hx. apply in_map_iff in Hin as [y [E Hy]].
  apply filter_In in Hy as [Hy _]. apply in_map_iff. now exists y.
Qed.

Lemma primary_key_next (t : list row) (s : Z) :
  primary_key_ok t s -> primary_key_ok t (s + 1).
Proof.
  intros [N F]. split; [exact N|].
  eapply Forall_impl; [|exact F]. cbn. intros r H. lia.
Qed.

Lemma primary_key_insert (t : list row) (s : Z) (r : row) :
  primary_key_ok t s -> id r = s -> existsb (id_is s) t = false ->
  check_row (t ++ [r]) r = Ok tt ->
  primary_key_ok (t ++ [r]) (s + 1).
Proof.
  intros [N F] Hid _ _. split.
  - rewrite map_app. apply NoDup_app; [exact N | repeat constructor; tauto |].
    intros a Ha [<-|[]]. apply in_map_iff in Ha as [x [E Hx]].
    rewrite Forall_forall in F. specialize (F x Hx). lia.
  - apply Forall_app. split.
    + eapply Forall_impl; [|exact F]. cbn. intros x H. lia.
    + repeat constructor. lia.
Qed.

Lemma primary_key_update (t : list row) (s sid : Z) (asg : list assignment) :
  primary_key_ok t s ->
  check_rows (map (touch sid asg) t)
             (filter (id_is sid) (map (touch sid asg) t)) = Ok tt ->
  primary_key_ok (map (touch sid asg) t) s.
Proof.
  intros [N F] _. split; [now rewrite map_id_touch|].
  rewrite Forall_forall in *. intros r' Hin.
  apply in_map_iff in Hin as [r [<- Hr]].
  unfold touch. destruct (id_is sid r); [rewrite set_columns_id|]; now apply F.
Qed.

Lemma primary_key_delete (t : list row) (s sid : Z) :
  primary_key_ok t s ->
  primary_key_ok (filter (fun r => negb (id_is sid r)) t) s.
Proof.
  intros [N F]. split; [now apply NoDup_map_filter|].
  rewrite Forall_forall in *. intros r Hin.
  apply filter_In in Hin as [Hin _]. now apply F.
Qed.

(** *** UNIQUE (email) *)

Lemma email_is_eq (e : string) (r : row) :
  email_is e r = true <-> email r = Some e.
Proof.
  unfold email_is. destruct (email r) as [e'|].
  - rewrite String.eqb_eq. split; [now intros -> | now intros [= ->]].
  - split; discriminate.
Qed.

Lemma check_row_count (t : list row) (r : row) (e : string) :
  check_row t r = Ok tt -> email r = Some e ->
  (List.length (filter (email_is e) t) <= 1)%nat.
Proof.
  unfold check_row. destruct (name r); [|discriminate].
  intros H E. rewrite E in H.
  destruct (Nat.leb (List.length (filter (email_is e) t)) 1) eqn:L;
    [|discriminate].
  now apply Nat.leb_le.
Qed.

Lemma filter_filter_length {X} (f g : X -> bool) (l : list X) :
  (List.length (filter f (filter g l)) <= List.length (filter f l))%nat.
Proof.
  induction l as [|x l IH]; cbn; [lia|].
  destruct (g x); cbn; destruct (f x); cbn; lia.
Qed.

(** Rows no assignment reached hold the addresses they held. *)
Lemma touch_count (e : string) (sid : Z) (asg : list assignment)
      (t : list row) :
  (forall r, In r t -> id_is sid r = true ->
             email_is e (touch sid asg r) = false) ->
  (List.length (filter (email_is e) (map (touch sid asg) t))
   <= List.length (filter (email_is e) t))%nat.
Proof.
  induction t as [|r t IH]; intros H; cbn [map filter]; [lia|].
  assert (IH' := IH (fun x Hx => H x (or_intror Hx))).
  destruct (id_is sid r) eqn:I.
  - rewrite (H r (or_introl eq_refl) I).
    destruct (email_is e r); cbn [List.length]; lia.
  - unfold touch at 1. rewrite I.
    destruct (email_is e r); cbn [List.length]; lia.
Qed.

Lemma unique_emails_insert (t : list row) (r : row) :
  unique_emails t -> check_row (t ++ [r]) r = Ok tt ->
  unique_emails (t ++ [r]).
Proof.
  intros U Ck e. destruct (email_is e r) eqn:E.
  - apply email_is_eq in E. exact (check_row_count _ _ _ Ck E).
  - rewrite filter_app, length_app. cbn [filter]. rewrite E. cbn.
    specialize (U e). lia.
Qed.

Lemma unique_emails_update (t : list row) (sid : Z) (asg : list assignment) :
  unique_emails t ->
  check_rows (map (touch sid asg) t)
             (filter (id_is sid) (map (touch sid asg) t)) = Ok tt ->
  unique_emails (map (touch sid asg) t).
Proof.
  intros U Ck e. apply check_rows_ok in Ck. rewrite Forall_forall in Ck.
  destruct (existsb (email_is e)
              (filter (id_is sid) (map (touch sid asg) t))) eqn:X.
  - apply existsb_exists in X as [r' [Hin He]].
    apply email_is_eq in He. exact (check_row_count _ _ _ (Ck r' Hin) He).
  - etransitivity; [apply touch_count | apply U].
    intros r Hr I.
    destruct (email_is e (touch sid asg r)) eqn:E; [|reflexivity].
    assert (F : In (touch sid asg r)
                   (filter (id_is sid) (map (touch sid asg) t))).
    { apply filter_In. split; [now apply in_map | now rewrite id_is_touch]. }
    assert (Y : existsb (email_is e)
                  (filter (id_is sid) (map (touch sid asg) t)) = true)
      by (apply existsb_exists; eauto).
    congruence.
Qed.

Lemma unique_emails_delete (t : list row) (sid : Z) :
  unique_emails t ->
  unique_emails (filter (fun r => negb (id_is sid r)) t).
Proof.
  intros U e. etransitivity; [apply filter_filter_length | apply U].
Qed.

(** ** What every route does and never does *)

(** X1. The two GET handlers never change the database: whatever the world
    (connection refused, statement failing or not) and whatever the id, the
    database after the request is the database before it. *)
Theorem reads_change_nothing (w : World) (sid : Z) (db : database) :
  fst (get_all_students w db) = db /\ fst (get_student w sid db) = db.
Proof.
  split; [apply get_all_students_any | apply get_student_any].
Qed.

(** X2. Every route answers with one of its own status codes only:
    POST 201/400/409/500, GET list 200/500, GET by id 200/404/500,
    PUT 200/400/404/409/500, DELETE 200/404/500 (an exception that leaves a
    handler counts as 500). *)
Theorem every_route_answers_within_its_codes
        (w : World) (rq : request) (db : database) :
  In (status_code (snd (handle w rq db))) (allowed_status rq).
Proof. apply handle_status. Qed.

(** X3. No partial writes: a request that is not answered 200 or 201 leaves
    the table exactly as it found it. *)
Theorem unsuccessful_requests_change_nothing
        (w : World) (rq : request) (db : database) :
  status_code (snd (handle w rq db)) <> 200 ->
  status_code (snd (handle w rq db)) <> 201 ->
  students (fst (handle w rq db)) = students db.
Proof. apply handle_atomic. Qed.

(** X4. When the connection cannot be opened no request changes the
    database.  GET, GET by id and DELETE answer 500 "Database connection
    failed"; so does a PUT with a non-empty body, and a POST whose body holds
    [name] and [email]. *)
Theorem connection_failure_short_circuits
        (w : World) (rq : request) (db : database) :
  connect_ok w = false ->
  fst (handle w rq db) = db
  /\ (opens_connection_first rq = true ->
      snd (handle w rq db) = connection_failed)
  /\ (forall sid data,
        truthy data = true ->
        update_student w sid data db = (db, connection_failed))
  /\ (forall d,
        dict_has "name" d = true -> dict_has "email" d = true ->
        add_student w (PDict d) db = (db, connection_failed)).
Proof.
  intros Hc. split; [|split; [|split]].
  - destruct rq as [data| |sid|sid data|sid]; cbn [handle].
    + unfold add_student, get_db_connection. rewrite Hc.
      destruct (missing_required data) as [[]|]; try reflexivity.
      destruct (py_get data "name"), (py_get data "email"),
        (py_get data "age"), (py_get data "course"); reflexivity.
    + apply get_all_students_any.
    + apply get_student_any.
    + unfold update_student, get_db_connection. rewrite Hc.
      now destruct (negb (truthy data)).
    + unfold delete_student, get_db_connection. now rewrite Hc.
  - destruct rq as [data| |sid|sid data|sid]; cbn [handle]; try discriminate;
      intros _.
    + unfold get_all_students, get_db_connection. now rewrite Hc.
    + unfold get_student, get_db_connection. now rewrite Hc.
    + unfold delete_student, get_db_connection. now rewrite Hc.
  - intros sid data Ht. unfold update_student, get_db_connection.
    now rewrite Ht, Hc.
  - intros d Hn He. unfold add_student, missing_required, get_db_connection.
    destruct d as [|kv d]; [discriminate|]. cbn [truthy negb py_in py_get].
    now rewrite Hn, He, Hc.
Qed.

(** X5. A body that is not a JSON object never writes: a POST or a PUT with
    a list, a string, a number, a boolean or no body at all leaves the
    database as it was and is answered 400 or 500. *)
Theorem non_object_bodies_never_write
        (w : World) (sid : Z) (data : pyval) (db : database) :
  is_dict data = false ->
  (fst (add_student w data db) = db
   /\ In (status_code (snd (add_student w data db))) [400; 500])
  /\ (fst (update_student w sid data db) = db
      /\ In (status_code (snd (update_student w sid data db))) [400; 500]).
Proof.
  intros H. split.
  - destruct (add_student_not_dict w data db H) as [E [S|S]];
      (split; [exact E | rewrite S; cbn; tauto]).
  - now apply update_student_not_dict.
Qed.


(** ** POST: creating, and reading back *)

Lemma filter_nil_existsb {X} (f : X -> bool) (l : list X) :
  existsb f l = false -> filter f l = [].
Proof.
  induction l as [|x l IH]; cbn; [reflexivity|].
  destruct (f x); cbn; [discriminate | exact IH].
Qed.

Lemma filter_nil_forall {X} (f : X -> bool) (l : list X) :
  filter f l = [] -> forall x, In x l -> f x = false.
Proof.
  intros H x Hin. destruct (f x) eqn:E; [|reflexivity].
  assert (F : In x (filter f l)) by (apply filter_In; now split).
  rewrite H in F. destruct F.
Qed.

(** An accepted row has a name and an address, and the address is new. *)
Lemma check_row_new (t : list row) (r : row) :
  check_row (t ++ [r]) r = Ok tt ->
  exists n e, name r = Some n /\ email r = Some e
              /\ forall x, In x t -> email x <> Some e.
Proof.
  intros Ck. destruct (check_row_name _ _ Ck) as [Hn He].
  destruct (name r) as [n|]; [|now destruct Hn].
  destruct (email r) as [e|] eqn:E; [|now destruct He].
  exists n, e. repeat split. intros x Hx Ex.
  pose proof (check_row_count _ _ e Ck E) as L.
  rewrite (email_count_new e t r E) in L.
  assert (Z0 : filter (email_is e) t = [])
    by (destruct (filter (email_is e) t); [reflexivity | cbn in L; lia]).
  pose proof (filter_nil_forall _ _ Z0 x Hx) as F.
  apply email_is_eq in Ex. congruence.
Qed.

Lemma existsb_id_is_false (s : Z) (t : list row) :
  existsb (id_is s) t = false -> forall x, In x t -> id x <> s.
Proof.
  intros H x Hx E.
  assert (F : existsb (id_is s) t = true).
  { apply existsb_exists. exists x. split; [exact Hx|].
    unfold id_is. now apply Z.eqb_eq. }
  congruence.
Qed.

(** X7. Whenever POST /students is answered 201, the body was a JSON
    object, exactly one row was appended to the table, and nothing else
    changed: the row carries the values bound from the body's [name],
    [email], [age] and [course] (name and email not null), the creation time
    of the request, and as id the sequence value, which no row had; no row
    had its email; and the answer echoes that id with the body's name and
    email. *)
Theorem created_means_one_fresh_row
        (w : World) (data : pyval) (db : database) :
  status_code (snd (add_student w data db)) = 201 ->
  exists d n e g k,
    data = PDict d
    /\ adapt_text w (value_of d "name") = Ok (Some n)
    /\ adapt_text w (value_of d "email") = Ok (Some e)
    /\ adapt_int w (value_of d "age") = Ok g
    /\ adapt_text w (value_of d "course") = Ok k
    /\ (forall x, In x (students db) ->
                  id x <> students_id_seq db /\ email x <> Some e)
    /\ add_student w data db
       = (mkDatabase
            (students db
             ++ [mkRow (students_id_seq db) (Some n) (Some e) g k
                       (Some (now w))])
            (students_id_seq db + 1),
          Response (mkResponse
            (PDict [ ("message", PStr "Student added successfully");
                     ("id", PInt (students_id_seq db));
                     ("name", value_of d "name");
                     ("email", value_of d "email") ])
            201)).
Proof.
  intros S.
  destruct (add_student_cases w data db)
    as [[_ H]|[d [n [e [g [k [-> [A1 [A2 [A3 [A4 [Hid [Ck E]]]]]]]]]]]]].
  - rewrite S in H. cbn in H. intuition discriminate.
  - destruct (check_row_new _ _ Ck) as [n' [e' [Hn [He Hnew]]]].
    cbn in Hn, He. subst n e.
    exists d, n', e', g, k. repeat split; try assumption.
    + now apply (existsb_id_is_false _ _ Hid).
    + now apply Hnew.
Qed.

(** The other direction: what suffices for a 201. *)
Lemma add_student_succeeds (w : World) (d : list (string * pyval))
      (db : database) (n e : string) (g : option Z) (k : option string) :
  connect_ok w = true -> execute_fault w = None -> commit_fault w = None ->
  dict_has "name" d = true -> dict_has "email" d = true ->
  adapt_text w (value_of d "name") = Ok (Some n) ->
  adapt_text w (value_of d "email") = Ok (Some e) ->
  adapt_int w (value_of d "age") = Ok g ->
  adapt_text w (value_of d "course") = Ok k ->
  existsb (id_is (students_id_seq db)) (students db) = false ->
  existsb (email_is e) (students db) = false ->
  add_student w (PDict d) db
  = (mkDatabase
       (students db
        ++ [mkRow (students_id_seq db) (Some n) (Some e) g k (Some (now w))])
       (students_id_seq db + 1),
     Response (mkResponse
       (PDict [ ("message", PStr "Student added successfully");
                ("id", PInt (students_id_seq db));
                ("name", value_of d "name");
                ("email", value_of d "email") ])
       201)).
Proof.
  intros Hc Hf Hm Hn He A1 A2 A3 A4 Hid Hem.
  unfold add_student, missing_required, get_db_connection.
  destruct d as [|kv d]; [discriminate|]. cbn [truthy negb py_in py_get].
  rewrite Hn, He, Hc. cbn [negb].
  unfold add_student_try, try_except. unfold bind at 1. unfold execute.
  rewrite Hf. change (parse_statement insert_query) with (Some StInsert).
  unfold run_insert, bind, lift.
  unfold value_of in A1, A2, A3, A4. rewrite A1, A2, A3, A4.
  cbn [seq working committed id]. rewrite Hid.
  unfold check_row. cbn [name email].
  rewrite email_count_new by reflexivity.
  rewrite (filter_nil_existsb _ _ Hem). cbn [List.length Nat.leb].
  unfold fetchone, commit. cbn [result_set hd_error]. rewrite Hm.
  reflexivity.
Qed.

(** *** POST: validation, and what a valid body goes on to *)




(** ** The schema's constraints along every run of the service *)

Lemma serve_primary_key (rqs : list (World * request)) (db : database) :
  primary_key_ok (students db) (students_id_seq db) ->
  primary_key_ok (students (serve rqs db)) (students_id_seq (serve rqs db)).
Proof.
  apply (serve_maintains primary_key_ok).
  - apply primary_key_next.
  - intros t s r H E X Ck _. now apply primary_key_insert.
  - intros t s sid asg H Ck _. now apply primary_key_update.
  - apply primary_key_delete.
Qed.

Lemma serve_unique_emails (rqs : list (World * request)) (db : database) :
  unique_emails (students db) -> unique_emails (students (serve rqs db)).
Proof.
  apply (serve_maintains (fun t _ => unique_emails t)).
  - trivial.
  - intros t s r U _ _ Ck _. now apply unique_emails_insert.
  - intros t s sid asg U Ck _. now apply unique_emails_update.
  - intros t s sid. apply unique_emails_delete.
Qed.

Lemma serve_emails_fit (rqs : list (World * request)) (db : database) :
  emails_fit (students db) -> emails_fit (students (serve rqs db)).
Proof.
  apply (serve_maintains (fun t _ => emails_fit t)).
  - trivial.
  - intros t s r F _ _ _ Hr. apply Forall_app. split; [exact F|].
    now repeat constructor.
  - intros t s sid asg F _ Ha. unfold emails_fit in *.
    rewrite Forall_forall in *. intros r' Hin.
    apply in_map_iff in Hin as [r [<- Hr]]. unfold touch.
    destruct (id_is sid r); [|now apply F].
    apply set_columns_email_fit; [|now apply F].
    now apply Forall_forall.
  - intros t s sid F. unfold emails_fit in *. rewrite Forall_forall in *.
    intros r Hin. apply filter_In in Hin as [Hin _]. now apply F.
Qed.

Lemma serve_sequence_grows (rqs : list (World * request)) (db : database) :
  students_id_seq db <= students_id_seq (serve rqs db).
Proof.
  apply (serve_maintains (fun _ s => students_id_seq db <= s)); intros; lia.
Qed.

Lemma unique_emails_tail (r : row) (t : list row) :
  unique_emails (r :: t) -> unique_emails t.
Proof.
  intros U e. specialize (U e). cbn [filter] in U.
  destruct (email_is e r); cbn [List.length] in U; lia.
Qed.

Lemma unique_emails_NoDup (t : list row) :
  unique_emails t -> Forall (fun r => email r <> None) t ->
  NoDup (map email t).
Proof.
  induction t as [|r t IH]; intros U F; cbn; [constructor|].
  inversion F as [|? ? Hr Ft]; subst.
  constructor; [|apply IH; [now apply unique_emails_tail in U | exact Ft]].
  intros Hin. apply in_map_iff in Hin as [x [Ex Hx]].
  destruct (email r) as [e|] eqn:E; [|now destruct Hr].
  specialize (U e). cbn [filter] in U.
  assert (E1 : email_is e r = true) by now apply email_is_eq.
  rewrite E1 in U. cbn [List.length] in U.
  assert (Fx : In x (filter (email_is e) t))
    by (apply filter_In; split; [exact Hx | now apply email_is_eq]).
  destruct (filter (email_is e) t); [destruct Fx | cbn in U; lia].
Qed.

(** X8. Email uniqueness is an invariant of the service: after any sequence
    of requests on the table as created at start-up, in any worlds, every
    stored email is non-null and no two rows hold the same email. *)
Theorem emails_stay_unique (rqs : list (World * request)) :
  Forall (fun r => email r <> None) (students (serve rqs empty_database))
  /\ NoDup (map email (students (serve rqs empty_database))).
Proof.
  assert (F : Forall (fun r => email r <> None)
                     (students (serve rqs empty_database))).
  { assert (H : table_ok (students (serve rqs empty_database)))
      by (apply serve_keeps; constructor).
    unfold table_ok in H. rewrite Forall_forall in *.
    intros r Hin. now destruct (H r Hin) as [_ [He _]]. }
  split; [exact F|]. apply unique_emails_NoDup; [|exact F].
  apply serve_unique_emails. intros e. cbn. lia.
Qed.

Lemma ids_bound (rqs : list (World * request)) :
  NoDup (map id (students (serve rqs empty_database)))
  /\ Forall (fun r => id r < students_id_seq (serve rqs empty_database))
            (students (serve rqs empty_database)).
Proof.
  apply (serve_primary_key rqs empty_database).
  split; constructor.
Qed.

(** X9. The id is a primary key handed out by the sequence: after any
    sequence of requests on the table as created at start-up, no two rows
    have the same id and every id is below the next value of the
    sequence. *)
Theorem ids_stay_distinct (rqs : list (World * request)) :
  NoDup (map id (students (serve rqs empty_database)))
  /\ Forall (fun r => id r < students_id_seq (serve rqs empty_database))
            (students (serve rqs empty_database)).
Proof. apply ids_bound. Qed.

(** X10. Ids are never reused: a student created at any later time, after
    any further requests (deletes included), gets an id greater than the id
    of every row the table held before. *)
Theorem ids_are_never_reused
        (rqs1 rqs2 : list (World * request)) (w : World) (data : pyval)
        (r : row) :
  In r (students (serve rqs1 empty_database)) ->
  status_code (snd (add_student w data
                      (serve rqs2 (serve rqs1 empty_database)))) = 201 ->
  exists d new_id,
    data = PDict d
    /\ snd (add_student w data (serve rqs2 (serve rqs1 empty_database)))
       = Response (mkResponse
           (PDict [ ("message", PStr "Student added successfully");
                    ("id", PInt new_id);
                    ("name", value_of d "name");
                    ("email", value_of d "email") ])
           201)
    /\ id r < new_id.
Proof.
  intros Hin S.
  destruct (add_student_cases w data (serve rqs2 (serve rqs1 empty_database)))
    as [[_ H]|[d [n [e [g [k [-> [_ [_ [_ [_ [_ [_ E]]]]]]]]]]]]].
  - rewrite S in H. cbn in H. intuition discriminate.
  - exists d, (students_id_seq (serve rqs2 (serve rqs1 empty_database))).
    split; [reflexivity|]. split; [now rewrite E|].
    destruct (ids_bound rqs1) as [_ F].
    rewrite Forall_forall in F. specialize (F r Hin).
    pose proof (serve_sequence_grows rqs2 (serve rqs1 empty_database)). lia.
Qed.

Lemma ids_below_no_collision (s : Z) (t : list row) :
  Forall (fun r => id r < s) t -> existsb (id_is s) t = false.
Proof.
  intros F. destruct (existsb (id_is s) t) eqn:E; [|reflexivity].
  apply existsb_exists in E as [x [Hx Hi]]. unfold id_is in Hi.
  apply Z.eqb_eq in Hi. rewrite Forall_forall in F. specialize (F x Hx). lia.
Qed.

(** X11. On a table the service itself has built, a POST whose body holds
    [name] and [email] with values the columns accept, and whose email no
    row holds, is answered 201 whenever connection, statement and commit do
    not fail: the row is appended with the next id of the sequence. *)
Theorem fresh_email_is_created
        (rqs : list (World * request)) (w : World)
        (d : list (string * pyval)) (n e : string) (g : option Z)
        (k : option string) :
  let db := serve rqs empty_database in
  connect_ok w = true -> execute_fault w = None -> commit_fault w = None ->
  dict_has "name" d = true -> dict_has "email" d = true ->
  adapt_text w (value_of d "name") = Ok (Some n) ->
  adapt_text w (value_of d "email") = Ok (Some e) ->
  adapt_int w (value_of d "age") = Ok g ->
  adapt_text w (value_of d "course") = Ok k ->
  (forall r, In r (students db) -> email r <> Some e) ->
  add_student w (PDict d) db
  = (mkDatabase
       (students db
        ++ [mkRow (students_id_seq db) (Some n) (Some e) g k (Some (now w))])
       (students_id_seq db + 1),
     Response (mkResponse
       (PDict [ ("message", PStr "Student added successfully");
                ("id", PInt (students_id_seq db));
                ("name", value_of d "name");
                ("email", value_of d "email") ])
       201)).
Proof.
  intros db Hc Hf Hm Hn He A1 A2 A3 A4 Hnew.
  apply add_student_succeeds; try assumption.
  - apply ids_below_no_collision. apply (ids_bound rqs).
  - destruct (existsb (email_is e) (students db)) eqn:X; [|reflexivity].
    apply existsb_exists in X as [x [Hx Ex]]. apply email_is_eq in Ex.
    now destruct (Hnew x Hx).
Qed.

Lemma filter_id_new (s : Z) (t : list row) (r : row) :
  existsb (id_is s) t = false -> id r = s ->
  filter (id_is s) (t ++ [r]) = [r].
Proof.
  intros H E. rewrite filter_app, (filter_nil_existsb _ _ H). cbn.
  unfold id_is. rewrite E, Z.eqb_refl. reflexivity.
Qed.

(** X12. Create, then read back: after a POST answered 201, GET
    /students/{id} with the id of the answer (connection open, SELECT not
    failing) is answered 200 with the stored student, whose name, email, age
    and course are the values bound from the POST body, and whose timestamp
    is the creation time rendered by [isoformat]. *)
Theorem created_student_can_be_fetched
        (w w' : World) (data : pyval) (db : database) :
  status_code (snd (add_student w data db)) = 201 ->
  connect_ok w' = true -> execute_fault w' = None ->
  exists d r,
    data = PDict d
    /\ id r = students_id_seq db
    /\ adapt_text w (value_of d "name") = Ok (name r)
    /\ adapt_text w (value_of d "email") = Ok (email r)
    /\ adapt_int w (value_of d "age") = Ok (age r)
    /\ adapt_text w (value_of d "course") = Ok (course r)
    /\ created_at r = Some (now w)
    /\ get_student w' (students_id_seq db) (fst (add_student w data db))
       = (fst (add_student w data db),
          Response (mkResponse (PDict (student_json r)) 200)).
Proof.
  intros S Hc Hf.
  destruct (add_student_cases w data db)
    as [[_ H]|[d [n [e [g [k [-> [A1 [A2 [A3 [A4 [Hid [Ck E]]]]]]]]]]]]].
  - rewrite S in H. cbn in H. intuition discriminate.
  - exists d, (mkRow (students_id_seq db) n e g k (Some (now w))).
    repeat split; try assumption.
    rewrite E. cbn [fst]. rewrite (get_student_eq w' _ _ Hc Hf).
    cbn [students].
    now rewrite (filter_id_new (students_id_seq db) (students db)
                   (mkRow (students_id_seq db) n e g k (Some (now w)))
                   Hid eq_refl).
Qed.

(** ** DELETE: removing, and what follows *)

Lemma delete_student_succeeds (w : World) (sid : Z) (db : database) :
  connect_ok w = true -> execute_fault w = None -> commit_fault w = None ->
  (exists r, In r (students db) /\ id r = sid) ->
  delete_student w sid db
  = (mkDatabase (filter (fun r => negb (id_is sid r)) (students db))
                (students_id_seq db),
     Response (mkResponse
                 (message_body ("Student with ID " ++ str_of_Z sid
                                ++ " deleted successfully.")) 200)).
Proof.
  intros Hc Hf Hm [r0 [Hin Hid]].
  unfold delete_student, get_db_connection. rewrite Hc.
  unfold delete_student_try, try_except. unfold bind at 1. unfold execute.
  rewrite Hf. change (parse_statement delete_query) with (Some StDelete).
  unfold run_delete, bind, lift. cbn [the_id working rowcount committed seq].
  assert (F : In r0 (filter (id_is sid) (students db))).
  { apply filter_In. split; [exact Hin|]. unfold id_is. now apply Z.eqb_eq. }
  destruct (filter (id_is sid) (students db)) as [|x l]; [destruct F|].
  cbn [List.length]. rewrite Nat2Z.inj_succ.
  destruct (Z.succ (Z.of_nat (List.length l)) =? 0) eqn:Z0;
    [apply Z.eqb_eq in Z0; lia|].
  unfold commit. rewrite Hm. reflexivity.
Qed.

Lemma delete_student_absent (w : World) (sid : Z) (db : database) :
  connect_ok w = true -> execute_fault w = None ->
  filter (id_is sid) (students db) = [] ->
  delete_student w sid db
  = (db, Response (mkResponse
                     (error_body ("Student with ID " ++ str_of_Z sid
                                  ++ " not found.")) 404)).
Proof.
  intros Hc Hf F.
  unfold delete_student, get_db_connection. rewrite Hc.
  unfold delete_student_try, try_except. unfold bind at 1. unfold execute.
  rewrite Hf. change (parse_statement delete_query) with (Some StDelete).
  unfold run_delete, bind, lift. cbn [the_id working rowcount committed seq].
  rewrite F. cbn. now destruct db.
Qed.

Lemma filter_id_gone (sid : Z) (t : list row) :
  filter (id_is sid) (filter (fun r => negb (id_is sid r)) t) = [].
Proof.
  induction t as [|r t IH]; cbn; [reflexivity|].
  destruct (id_is sid r) eqn:E; cbn; [exact IH|]. now rewrite E.
Qed.

(** X13. DELETE /students/{id} on an id a row has, with connection,
    statement and commit not failing, is answered 200; it removes the rows
    with that id and no other, keeps the remaining rows in their order, and
    leaves the sequence alone. *)
Theorem delete_removes_exactly_that_student
        (w : World) (sid : Z) (db : database) :
  connect_ok w = true -> execute_fault w = None -> commit_fault w = None ->
  (exists r, In r (students db) /\ id r = sid) ->
  delete_student w sid db
  = (mkDatabase (filter (fun r => negb (id_is sid r)) (students db))
                (students_id_seq db),
     Response (mkResponse
                 (message_body ("Student with ID " ++ str_of_Z sid
                                ++ " deleted successfully.")) 200))
  /\ (forall r, In r (students (fst (delete_student w sid db)))
                <-> In r (students db) /\ id r <> sid).
Proof.
  intros Hc Hf Hm Hex.
  rewrite (delete_student_succeeds w sid db Hc Hf Hm Hex).
  split; [reflexivity|]. intros r. cbn [fst students].
  rewrite filter_In. unfold id_is.
  split; intros [Hin H]; (split; [exact Hin|]).
  - intros E. apply Z.eqb_eq in E. rewrite E in H. discriminate.
  - apply Z.eqb_neq in H. now rewrite H.
Qed.

(** X14. Delete, then look again: after a DELETE answered 200, GET by the
    same id is answered 404 and a second DELETE of the same id is answered
    404 and changes nothing (connection open, statements not failing). *)
Theorem deleted_student_is_not_found
        (w w' : World) (sid : Z) (db : database) :
  status_code (snd (delete_student w sid db)) = 200 ->
  connect_ok w' = true -> execute_fault w' = None ->
  let db' := fst (delete_student w sid db) in
  get_student w' sid db'
  = (db', Response (mkResponse
                      (error_body ("Student with ID " ++ str_of_Z sid
                                   ++ " not found")) 404))
  /\ delete_student w' sid db'
     = (db', Response (mkResponse
                         (error_body ("Student with ID " ++ str_of_Z sid
                                      ++ " not found.")) 404)).
Proof.
  intros S Hc Hf db'. subst db'.
  destruct (delete_student_cases w sid db) as [[_ H]|[_ [_ [_ [_ E]]]]].
  - rewrite S in H. cbn in H. intuition discriminate.
  - rewrite E. cbn [fst]. split.
    + rewrite (get_student_eq w' sid _ Hc Hf). cbn [students].
      now rewrite filter_id_gone.
    + apply delete_student_absent; [exact Hc | exact Hf |].
      cbn [students]. apply filter_id_gone.
Qed.

(** ** PUT: taking another student's email *)

Lemma check_row_raises (t : list row) (r : row) (x : exn) :
  check_row t r = Raise x -> is_IntegrityError x = true.
Proof.
  unfold check_row. destruct (name r); [|now intros [= <-]].
  destruct (email r) as [e|]; [|now intros [= <-]].
  destruct (Nat.leb _ 1); [discriminate | now intros [= <-]].
Qed.

Lemma check_rows_raises (t rs : list row) (x : exn) :
  check_rows t rs = Raise x -> is_IntegrityError x = true.
Proof.
  induction rs as [|r rs IH]; cbn; [discriminate|].
  destruct (check_row t r) as [[]|y] eqn:E; [exact IH|].
  intros [= <-]. exact (check_row_raises _ _ _ E).
Qed.

Lemma count_two {X} (f : X -> bool) (l : list X) (a b : X) :
  In a l -> In b l -> a <> b -> f a = true -> f b = true ->
  (2 <= List.length (filter f l))%nat.
Proof.
  intros Ha Hb N Fa Fb. induction l as [|x l IH]; [destruct Ha|].
  cbn [filter]. destruct Ha as [->|Ha], Hb as [Eb|Hb].
  - now destruct N.
  - rewrite Fa. cbn [List.length].
    assert (F : In b (filter f l)) by (apply filter_In; now split).
    destruct (filter f l); [destruct F | cbn; lia].
  - subst x. rewrite Fb. cbn [List.length].
    assert (F : In a (filter f l)) by (apply filter_In; now split).
    destruct (filter f l); [destruct F | cbn; lia].
  - specialize (IH Ha Hb). destruct (f x); cbn [List.length]; lia.
Qed.

(** X15. PUT /students/{id} that sets the email to one another student
    holds is answered 409 "A student with this email already exists." and the
    database is as before (connection open, statement not failing, the
    supplied values bindable). *)
Theorem update_to_taken_email_is_409
        (w : World) (sid : Z) (d : list (string * pyval)) (db : database)
        (asg : list assignment) (rest : list pyval) (v : pyval) (e : string)
        (r0 r1 : row) :
  connect_ok w = true -> execute_fault w = None ->
  bind_columns w (present d) (supplied d) = Ok (asg, rest) ->
  dict_lookup "email" d = Some v -> adapt_text w v = Ok (Some e) ->
  In r0 (students db) -> id r0 = sid ->
  In r1 (students db) -> id r1 <> sid -> email r1 = Some e ->
  update_student w sid (PDict d) db
  = (db, Response (mkResponse
                     (error_body "A student with this email already exists.")
                     409)).
Proof.
  intros Hc Hf Hb Hl Ha H0 I0 H1 I1 E1.
  assert (NE : present d <> []).
  { intros Z0. assert (P : In c_email (present d))
      by (apply present_iff; unfold dict_has; cbn; now rewrite Hl).
    rewrite Z0 in P. destruct P. }
  assert (T0 : id_is sid r0 = true) by (unfold id_is; now apply Z.eqb_eq).
  assert (T1 : id_is sid r1 = false) by (unfold id_is; now apply Z.eqb_neq).
  destruct (touch_supplied_cell w sid d asg rest r0 c_email v Hb T0 Hl)
    as [a [Hbc Hcell]].
  cbn in Hbc. rewrite Ha in Hbc. inversion Hbc; subst a. cbn in Hcell.
  assert (E0 : email (touch sid asg r0) = Some e)
    by (destruct (email (touch sid asg r0)); now inversion Hcell).
  destruct (check_rows (map (touch sid asg) (students db))
              (filter (id_is sid) (map (touch sid asg) (students db))))
    as [[]|x] eqn:Ck.
  { exfalso. apply check_rows_ok in Ck. rewrite Forall_forall in Ck.
    assert (F0 : In (touch sid asg r0)
                    (filter (id_is sid) (map (touch sid asg) (students db)))).
    { apply filter_In. split; [now apply in_map | now rewrite id_is_touch]. }
    pose proof (check_row_count _ _ e (Ck _ F0) E0) as L.
    assert (M1 : In r1 (map (touch sid asg) (students db))).
    { apply in_map_iff. exists r1. split; [|exact H1].
      unfold touch. now rewrite T1. }
    assert (D : touch sid asg r0 <> r1).
    { intros Q. rewrite <- Q in T1. rewrite id_is_touch in T1. congruence. }
    pose proof (count_two (email_is e) _ _ _
                  (in_map (touch sid asg) _ _ H0) M1 D
                  (proj2 (email_is_eq e _) E0) (proj2 (email_is_eq e _) E1)).
    lia. }
  unfold update_student, get_db_connection. rewrite Hc.
  destruct d as [|kv d]; [discriminate|]. cbn [truthy negb].
  rewrite (update_student_try_dict w sid (kv :: d) NE).
  unfold try_except. unfold bind at 1. unfold execute. rewrite Hf.
  unfold update_text.
  rewrite <- as_string_update_query, (parse_update_present _ NE).
  rewrite run_update_eq, distinct_present. cbn [negb].
  rewrite bind_columns_app by apply present_supplied_length.
  rewrite Hb. cbn [the_id working committed seq]. cbv zeta. rewrite Ck.
  unfold update_student_except. rewrite (check_rows_raises _ _ _ Ck).
  cbn. now destruct db.
Qed.

(** X16. The text of an UPDATE depends only on which recognized keys the
    body holds, never on their values: two bodies with the same recognized
    keys give the same clauses and the same SQL text, and the values travel
    in the parameter list only. *)
Theorem statement_text_ignores_values (d1 d2 : list (string * pyval)) :
  (forall c, dict_has (key_of c) d1 = dict_has (key_of c) d2) ->
  exists clauses,
    update_fields (PDict d1) = Ok (clauses, supplied d1)
    /\ update_fields (PDict d2) = Ok (clauses, supplied d2)
    /\ sql.as_string (update_query clauses) = update_text (present d1)
    /\ update_text (present d1) = update_text (present d2).
Proof.
  intros H.
  assert (P : present d1 = present d2).
  { unfold present. apply filter_ext. exact H. }
  exists (map clause_of (present d1)). split; [apply update_fields_dict|].
  split; [rewrite P; apply update_fields_dict|].
  split; [apply as_string_update_query | now rewrite P].
Qed.

(** ** POST: an email already in use *)

(** X17. A POST whose email a stored student already holds is answered 409
    "A student with this email already exists." and no row is inserted
    (connection open, statement not failing, the supplied values
    bindable). *)
Theorem second_student_with_same_email_is_refused
        (w : World) (db : database) (d : list (string * pyval))
        (n : option string) (e : string) (a : option Z) (k : option string) :
  connect_ok w = true -> execute_fault w = None ->
  dict_has "name" d = true -> dict_has "email" d = true ->
  adapt_text w (value_of d "name") = Ok n ->
  adapt_text w (value_of d "email") = Ok (Some e) ->
  adapt_int w (value_of d "age") = Ok a ->
  adapt_text w (value_of d "course") = Ok k ->
  (exists r, In r (students db) /\ email r = Some e) ->
  students (fst (add_student w (PDict d) db)) = students db
  /\ snd (add_student w (PDict d) db)
     = Response (mkResponse
                   (error_body "A student with this email already exists.")
                   409).
Proof.
  intros Hc Hf Hn He A1 A2 A3 A4 [r [Hr Er]].
  rewrite (duplicate_email_is_answered_409 w db d n e a k Hc Hf Hn He
             A1 A2 A3 A4).
  - split; reflexivity.
  - apply existsb_exists. exists r. split; [exact Hr | now apply email_is_eq].
Qed.

(** ** GET: the listing of a table with a primary key *)

Lemma sorted_distinct_is_strict (l : list row) :
  Sorted by_id l -> NoDup (map id l) -> Sorted by_id_strict l.
Proof.
  induction 1 as [|a l Hs IH Hd]; intros N; [constructor|].
  cbn in N. inversion N as [|? ? Ha N']; subst.
  constructor; [now apply IH|].
  destruct Hd as [|b l Hab]; constructor.
  unfold by_id in Hab. unfold by_id_strict.
  assert (id a <> id b) by (intros E; apply Ha; cbn; now left).
  lia.
Qed.

(** X18. On a table the service itself has built, GET /students
    (connection open, SELECT not failing) lists exactly as many students as
    the table holds, in strictly ascending order of id: no id appears
    twice. *)
Theorem listing_is_strictly_ascending
        (w : World) (rqs : list (World * request)) :
  connect_ok w = true -> execute_fault w = None ->
  let db := serve rqs empty_database in
  exists listed,
    get_all_students w db
    = (db, Response (mkResponse (PList (map PDict (map student_json listed))) 200))
    /\ List.length listed = List.length (students db)
    /\ Sorted by_id_strict listed.
Proof.
  intros Hc Hf db. exists (order_by_id (students db)).
  split; [now apply get_all_students_eq|]. split.
  - apply Permutation_length, order_by_id_perm.
  - apply sorted_distinct_is_strict; [apply order_by_id_sorted|].
    eapply Permutation_NoDup;
      [apply Permutation_map, Permutation_sym, order_by_id_perm|].
    apply (ids_bound rqs).
Qed.

(** ** A commit that fails *)


(** ** PUT: reading back, and keys the handlers do not know *)

(** X20. Update, then read back: after a PUT answered 200, GET by the same
    id (connection open, SELECT not failing) is answered 200 with a student
    that differs from a row the table held under that id only in the
    supplied fields, each of which holds the value bound from the body. *)
Theorem updated_student_can_be_fetched
        (w w' : World) (sid : Z) (d : list (string * pyval)) (db : database) :
  status_code (snd (update_student w sid (PDict d) db)) = 200 ->
  connect_ok w' = true -> execute_fault w' = None ->
  exists r r',
    In r (students db) /\ id r = sid
    /\ get_student w' sid (fst (update_student w sid (PDict d) db))
       = (fst (update_student w sid (PDict d) db),
          Response (mkResponse (PDict (student_json r')) 200))
    /\ id r' = sid /\ created_at r' = created_at r
    /\ (forall c, dict_has (key_of c) d = false -> cell c r' = cell c r)
    /\ (forall c v, dict_lookup (key_of c) d = Some v ->
                    exists a, bind_column w c v = Ok a
                              /\ cell c r' = assigned_value a).
Proof.
  intros S Hc Hf.
  destruct (update_student_dict_cases w sid d db)
    as [[_ N]|[asg [rest [Hb [Hne [_ E]]]]]]; [now destruct N|].
  rewrite E. cbn [fst].
  rewrite (get_student_eq w' sid _ Hc Hf). cbn [students].
  rewrite filter_touch.
  destruct (filter (id_is sid) (students db)) as [|r l] eqn:F;
    [now destruct Hne|].
  assert (Hr : In r (filter (id_is sid) (students db)))
    by (rewrite F; now left).
  apply filter_In in Hr as [Hin Hi].
  assert (Hid : id r = sid) by (unfold id_is in Hi; now apply Z.eqb_eq).
  exists r, (touch sid asg r). cbn [map].
  split; [exact Hin|]. split; [exact Hid|]. split; [reflexivity|].
  assert (T : touch sid asg r = fold_left set_column asg r)
    by (unfold touch; now rewrite Hi).
  split; [now rewrite T, set_columns_id|].
  split; [rewrite T; apply set_columns_created_at|]. split.
  - intros c Hd. rewrite T. apply set_columns_other.
    rewrite (bind_columns_columns w _ _ _ _ Hb), present_iff, Hd.
    discriminate.
  - intros c v Hl.
    exact (touch_supplied_cell w sid d asg rest r c v Hb Hi Hl).
Qed.

(** X21. Keys the handlers do not know are ignored: two bodies that agree
    on [name], [email], [age] and [course] get the same answer and the same
    effect from POST, and, when both are non-empty, from PUT. *)
Theorem unrecognized_keys_are_ignored
        (w : World) (sid : Z) (d1 d2 : list (string * pyval)) (db : database) :
  same_recognized d1 d2 ->
  add_student w (PDict d1) db = add_student w (PDict d2) db
  /\ (d1 <> [] -> d2 <> [] ->
      update_student w sid (PDict d1) db = update_student w sid (PDict d2) db).
Proof.
  intros H.
  pose proof (H c_name) as H1. pose proof (H c_email) as H2.
  pose proof (H c_age) as H3. pose proof (H c_course) as H4.
  cbn in H1, H2, H3, H4. split.
  - rewrite !add_student_dict_eq. unfold dict_has, value_of.
    now rewrite H1, H2, H3, H4.
  - intros N1 N2. unfold update_student.
    destruct d1 as [|kv1 d1]; [now destruct N1|].
    destruct d2 as [|kv2 d2]; [now destruct N2|].
    cbn [truthy negb]. unfold update_student_try.
    assert (P : present (kv1 :: d1) = present (kv2 :: d2)).
    { unfold present. cbn [filter recognized key_of]. unfold dict_has.
      now rewrite H1, H2, H3, H4. }
    assert (Sv : supplied (kv1 :: d1) = supplied (kv2 :: d2)).
    { unfold supplied. cbn [flat_map recognized key_of].
      now rewrite H1, H2, H3, H4. }
    now rewrite !update_fields_dict, P, Sv.
Qed.

(** X22. Optional fields that a POST leaves out are stored as NULL: when
    the answer is 201, a missing [age] (or one sent as null) gives a row
    without age, and likewise for [course]. *)
Theorem omitted_optional_fields_are_null
        (w : World) (d : list (string * pyval)) (db : database) :
  status_code (snd (add_student w (PDict d) db)) = 201 ->
  exists r,
    students (fst (add_student w (PDict d) db)) = (students db ++ [r])%list
    /\ (value_of d "age" = PNone -> age r = None)
    /\ (value_of d "course" = PNone -> course r = None).
Proof.
  intros S.
  destruct (add_student_cases w (PDict d) db)
    as [[_ H]|[d' [n [e [g [k [D [_ [_ [A3 [A4 [_ [_ E]]]]]]]]]]]]].
  - rewrite S in H. cbn in H. intuition discriminate.
  - inversion D; subst d'. rewrite E. cbn [fst students].
    eexists. split; [reflexivity|]. cbn [age course]. split.
    + intros V. rewrite V in A3. cbn in A3. now inversion A3.
    + intros V. rewrite V in A4. cbn in A4. now inversion A4.
Qed.

(** X23. A row whose [created_at] is NULL does not break the GET handlers:
    on any table, with the connection open and the SELECT not failing, GET
    /students is answered 200 with every row serialized in ascending order
    of id, a NULL timestamp being rendered as null. *)
Theorem listing_tolerates_null_timestamps (w : World) (db : database) :
  connect_ok w = true -> execute_fault w = None ->
  exists listed,
    get_all_students w db
    = (db, Response (mkResponse (PList (map PDict (map student_json listed))) 200))
    /\ Permutation listed (students db)
    /\ Sorted by_id listed
    /\ Forall (fun r => created_at r = None ->
                        dict_lookup "created_at" (student_json r) = Some PNone)
              listed.
Proof.
  intros Hc Hf. exists (order_by_id (students db)).
  split; [now apply get_all_students_eq|].
  split; [apply order_by_id_perm|].
  split; [apply order_by_id_sorted|].
  apply Forall_forall. intros r _ E. cbn. now rewrite E.
Qed.

(** ** PUT: sending a student its own email *)

Lemma NoDup_map_In_eq {X Y} (f : X -> Y) (l : list X) (a b : X) :
  NoDup (map f l) -> In a l -> In b l -> f a = f b -> a = b.
Proof.
  induction l as [|x l IH]; cbn; intros N Ha Hb E; [destruct Ha|].
  inversion N as [|? ? Hx N']; subst.
  destruct Ha as [->|Ha], Hb as [->|Hb]; try reflexivity.
  - destruct Hx. rewrite E. now apply in_map.
  - destruct Hx. rewrite <- E. now apply in_map.
  - now apply IH.
Qed.

Lemma check_rows_all (t rs : list row) :
  Forall (fun r => check_row t r = Ok tt) rs -> check_rows t rs = Ok tt.
Proof.
  induction 1 as [|r rs Hr _ IH]; cbn; [reflexivity|]. now rewrite Hr.
Qed.

Lemma check_row_holds (t : list row) (r : row) :
  well_formed_row r -> unique_emails t -> check_row t r = Ok tt.
Proof.
  intros [Hn [He _]] U. unfold check_row.
  destruct (name r); [|now destruct Hn].
  destruct (email r) as [e|]; [|now destruct He].
  specialize (U e). apply Nat.leb_le in U. now rewrite U.
Qed.

Lemma map_fixed {X} (f : X -> X) (l : list X) :
  (forall x, In x l -> f x = x) -> map f l = l.
Proof.
  induction l as [|x l IH]; intros H; cbn; [reflexivity|].
  rewrite (H x (or_introl eq_refl)), IH; [reflexivity|].
  intros y Hy. apply H. now right.
Qed.

(** X24. Sending a student its own email is no conflict: on a table the
    service itself has built, PUT /students/{id} with just the email the
    student already has is answered 200 and leaves the database as it
    is (connection, statement and commit not failing). *)
Theorem own_email_is_no_conflict
        (rqs : list (World * request)) (w : World) (sid : Z) (e : string)
        (r0 : row) :
  let db := serve rqs empty_database in
  connect_ok w = true -> execute_fault w = None -> commit_fault w = None ->
  In r0 (students db) -> id r0 = sid -> email r0 = Some e ->
  update_student w sid (PDict [("email", PStr e)]) db
  = (db, Response (mkResponse
                     (message_body ("Student with ID " ++ str_of_Z sid
                                    ++ " updated successfully.")) 200)).
Proof.
  intros db Hc Hf Hm H0 I0 E0.
  assert (Fit : fit_varchar e = Ok (Some e)).
  { assert (F : emails_fit (students db))
      by (apply serve_emails_fit; constructor).
    unfold emails_fit in F. rewrite Forall_forall in F.
    exact (F r0 H0 e E0). }
  assert (Fix : map (touch sid [SetEmail (Some e)]) (students db)
                = students db).
  { apply map_fixed. intros r Hr. unfold touch.
    destruct (id_is sid r) eqn:I; [|reflexivity].
    unfold id_is in I. apply Z.eqb_eq in I.
    assert (r = r0).
    { apply (NoDup_map_In_eq id (students db)); try assumption.
      - apply (ids_bound rqs).
      - now rewrite I, I0. }
    subst r. destruct r0; cbn in *. now subst. }
  assert (Ck : check_rows (map (touch sid [SetEmail (Some e)]) (students db))
                 (filter (id_is sid)
                         (map (touch sid [SetEmail (Some e)]) (students db)))
               = Ok tt).
  { rewrite Fix. apply check_rows_all, Forall_forall. intros r Hr.
    apply filter_In in Hr as [Hr _].
    assert (T : table_ok (students db)) by (apply serve_keeps; constructor).
    unfold table_ok in T. rewrite Forall_forall in T.
    apply check_row_holds; [now apply T|].
    apply serve_unique_emails. intros x. cbn. lia. }
  rewrite (update_student_succeeds w sid [("email", PStr e)] db
             [SetEmail (Some e)] [] Hc Hf Hm).
  - rewrite Fix. now destruct db.
  - discriminate.
  - cbn. now rewrite Fit.
  - now exists r0.
  - exact Ck.
Qed.

(** ** The further properties at concrete requests *)

(** DELETE /students/7 on the table holding Alice: 404, nothing changed. *)
Lemma unsuccessful_requests_change_nothing_witness :
  status_code (snd (handle fine (DELETE_student 7) one_student)) <> 200
  /\ status_code (snd (handle fine (DELETE_student 7) one_student)) <> 201
  /\ students (fst (handle fine (DELETE_student 7) one_student)) = [alice].
Proof.
  assert (N0 : status_code (snd (handle fine (DELETE_student 7) one_student))
               <> 200) by (vm_compute; discriminate).
  assert (N1 : status_code (snd (handle fine (DELETE_student 7) one_student))
               <> 201) by (vm_compute; discriminate).
  split; [exact N0|]. split; [exact N1|].
  exact (unsuccessful_requests_change_nothing fine (DELETE_student 7)
           one_student N0 N1).
Defined.

(** GET /students while the database is down. *)
Lemma connection_failure_short_circuits_witness :
  connect_ok unreachable = false
  /\ fst (handle unreachable GET_students one_student) = one_student
  /\ snd (handle unreachable GET_students one_student) = connection_failed.
Proof.
  destruct (connection_failure_short_circuits unreachable GET_students
              one_student eq_refl) as [H1 [H2 _]].
  split; [reflexivity|]. split; [exact H1 | exact (H2 eq_refl)].
Defined.

(** POST and PUT with the JSON array ["name", "email"]. *)
Lemma non_object_bodies_never_write_witness :
  is_dict (PList [PStr "name"; PStr "email"]) = false
  /\ fst (add_student fine (PList [PStr "name"; PStr "email"]) one_student)
     = one_student
  /\ fst (update_student fine 1 (PList [PStr "name"; PStr "email"]) one_student)
     = one_student.
Proof.
  destruct (non_object_bodies_never_write fine 1
              (PList [PStr "name"; PStr "email"]) one_student eq_refl)
    as [[H1 _] [H2 _]].
  split; [reflexivity|]. split; [exact H1 | exact H2].
Defined.


(** POST Alice on the empty table. *)
Lemma created_means_one_fresh_row_witness :
  status_code (snd (add_student fine (PDict alice_body) empty_database)) = 201
  /\ exists d n e g k,
       PDict alice_body = PDict d
       /\ adapt_text fine (value_of d "name") = Ok (Some n)
       /\ adapt_text fine (value_of d "email") = Ok (Some e)
       /\ adapt_int fine (value_of d "age") = Ok g
       /\ adapt_text fine (value_of d "course") = Ok k
       /\ fst (add_student fine (PDict alice_body) empty_database)
          = mkDatabase [mkRow 1 (Some n) (Some e) g k (Some noon)] 2.
Proof.
  split; [reflexivity|].
  destruct (created_means_one_fresh_row fine (PDict alice_body) empty_database
              eq_refl) as [d [n [e [g [k [D [A1 [A2 [A3 [A4 [_ E]]]]]]]]]]].
  exists d, n, e, g, k. repeat split; try assumption.
  now rewrite E.
Defined.

(** Alice is created, deleted, and then Bob is created: Bob's id is above
    Alice's. *)
Lemma ids_are_never_reused_witness :
  In alice (students (serve first_post empty_database))
  /\ status_code
       (snd (add_student fine (PDict bob_body)
               (serve [(fine, DELETE_student 1)]
                      (serve first_post empty_database)))) = 201
  /\ exists d new_id,
       PDict bob_body = PDict d
       /\ snd (add_student fine (PDict bob_body)
                 (serve [(fine, DELETE_student 1)]
                        (serve first_post empty_database)))
          = Response (mkResponse
              (PDict [ ("message", PStr "Student added successfully");
                       ("id", PInt new_id);
                       ("name", value_of d "name");
                       ("email", value_of d "email") ])
              201)
       /\ id alice < new_id.
Proof.
  split; [now left|]. split; [reflexivity|].
  exact (ids_are_never_reused first_post [(fine, DELETE_student 1)] fine
           (PDict bob_body) alice (or_introl eq_refl) eq_refl).
Defined.

(** Bob, after Alice. *)
Lemma fresh_email_is_created_witness :
  (forall r, In r (students (serve first_post empty_database)) ->
             email r <> Some "b@x.com")
  /\ add_student fine (PDict bob_body) (serve first_post empty_database)
     = (two_students,
        Response (mkResponse
          (PDict [ ("message", PStr "Student added successfully");
                   ("id", PInt 2); ("name", PStr "B");
                   ("email", PStr "b@x.com") ])
          201)).
Proof.
  assert (H : forall r, In r (students (serve first_post empty_database)) ->
                        email r <> Some "b@x.com").
  { intros r [<-|[]]. discriminate. }
  split; [exact H|].
  exact (fresh_email_is_created first_post fine bob_body "B" "b@x.com"
           None None eq_refl eq_refl eq_refl eq_refl eq_refl eq_refl eq_refl
           eq_refl eq_refl H).
Defined.

(** POST Alice, then GET /students/1. *)
Lemma created_student_can_be_fetched_witness :
  status_code (snd (add_student fine (PDict alice_body) empty_database)) = 201
  /\ connect_ok fine = true /\ execute_fault fine = None
  /\ exists r,
       id r = 1
       /\ get_student fine 1 one_student
          = (one_student, Response (mkResponse (PDict (student_json r)) 200)).
Proof.
  split; [reflexivity|]. split; [reflexivity|]. split; [reflexivity|].
  destruct (created_student_can_be_fetched fine fine (PDict alice_body)
              empty_database eq_refl eq_refl eq_refl)
    as [d [r [_ [Hid [_ [_ [_ [_ [_ G]]]]]]]]].
  exists r. split; [exact Hid | exact G].
Defined.

(** DELETE /students/1 on the table holding Alice and Bob. *)
Lemma delete_removes_exactly_that_student_witness :
  connect_ok fine = true /\ execute_fault fine = None
  /\ commit_fault fine = None
  /\ (exists r, In r (students two_students) /\ id r = 1)
  /\ fst (delete_student fine 1 two_students) = mkDatabase [bob] 3.
Proof.
  assert (X : exists r, In r (students two_students) /\ id r = 1)
    by (exists alice; split; [now left | reflexivity]).
  split; [reflexivity|]. split; [reflexivity|]. split; [reflexivity|]. split; [exact X|].
  destruct (delete_removes_exactly_that_student fine 1 two_students
              eq_refl eq_refl eq_refl X) as [E _].
  now rewrite E.
Defined.

(** DELETE /students/1, then GET and DELETE again. *)
Lemma deleted_student_is_not_found_witness :
  status_code (snd (delete_student fine 1 one_student)) = 200
  /\ connect_ok fine = true /\ execute_fault fine = None
  /\ status_code (snd (get_student fine 1
                         (fst (delete_student fine 1 one_student)))) = 404
  /\ status_code (snd (delete_student fine 1
                         (fst (delete_student fine 1 one_student)))) = 404.
Proof.
  split; [reflexivity|]. split; [reflexivity|]. split; [reflexivity|].
  destruct (deleted_student_is_not_found fine fine 1 one_student
              eq_refl eq_refl eq_refl) as [G D].
  split; [now rewrite G | now rewrite D].
Defined.

(** PUT /students/1 with Bob's email. *)
Lemma update_to_taken_email_is_409_witness :
  connect_ok fine = true /\ execute_fault fine = None
  /\ bind_columns fine (present [("email", PStr "b@x.com")])
                  (supplied [("email", PStr "b@x.com")])
     = Ok ([SetEmail (Some "b@x.com")], [])
  /\ update_student fine 1 (PDict [("email", PStr "b@x.com")]) two_students
     = (two_students,
        Response (mkResponse
          (error_body "A student with this email already exists.") 409)).
Proof.
  split; [reflexivity|]. split; [reflexivity|]. split; [reflexivity|].
  refine (update_to_taken_email_is_409 fine 1 [("email", PStr "b@x.com")]
            two_students [SetEmail (Some "b@x.com")] [] (PStr "b@x.com")
            "b@x.com" alice bob eq_refl eq_refl eq_refl eq_refl eq_refl
            (or_introl eq_refl) eq_refl (or_intror (or_introl eq_refl))
            _ eq_refl).
  discriminate.
Defined.

(** Two ages, one statement. *)
Lemma statement_text_ignores_values_witness :
  (forall c, dict_has (key_of c) age_22
             = dict_has (key_of c) [("age", PInt 30)])
  /\ exists clauses,
       update_fields (PDict age_22) = Ok (clauses, [PInt 22])
       /\ update_fields (PDict [("age", PInt 30)]) = Ok (clauses, [PInt 30]).
Proof.
  assert (H : forall c, dict_has (key_of c) age_22
                        = dict_has (key_of c) [("age", PInt 30)])
    by (intros c; destruct c; reflexivity).
  split; [exact H|].
  destruct (statement_text_ignores_values age_22 [("age", PInt 30)] H)
    as [clauses [E1 [E2 _]]].
  exists clauses. split; [exact E1 | exact E2].
Defined.

(** A second student with Alice's email. *)
Lemma second_student_with_same_email_is_refused_witness :
  (exists r, In r (students one_student) /\ email r = Some "a@x.com")
  /\ students (fst (add_student fine
                      (PDict [("name", PStr "C"); ("email", PStr "a@x.com")])
                      one_student)) = [alice]
  /\ status_code (snd (add_student fine
                         (PDict [("name", PStr "C"); ("email", PStr "a@x.com")])
                         one_student)) = 409.
Proof.
  assert (X : exists r, In r (students one_student) /\ email r = Some "a@x.com")
    by (exists alice; split; [now left | reflexivity]).
  split; [exact X|].
  destruct (second_student_with_same_email_is_refused fine one_student
              [("name", PStr "C"); ("email", PStr "a@x.com")]
              (Some "C") "a@x.com" None None
              eq_refl eq_refl eq_refl eq_refl eq_refl eq_refl eq_refl eq_refl X)
    as [E1 E2].
  split; [exact E1 | now rewrite E2].
Defined.

(** GET /students after Alice was created. *)
Lemma listing_is_strictly_ascending_witness :
  connect_ok fine = true /\ execute_fault fine = None
  /\ exists listed,
       get_all_students fine (serve first_post empty_database)
       = (serve first_post empty_database,
          Response (mkResponse (PList (map PDict (map student_json listed))) 200))
       /\ List.length listed = 1%nat.
Proof.
  split; [reflexivity|]. split; [reflexivity|].
  destruct (listing_is_strictly_ascending fine first_post eq_refl eq_refl)
    as [listed [E [L _]]].
  exists listed. split; [exact E | exact L].
Defined.


(** PUT /students/1 [{"age": 22}], then GET /students/1. *)
Lemma updated_student_can_be_fetched_witness :
  status_code (snd (update_student fine 1 (PDict age_22) one_student)) = 200
  /\ connect_ok fine = true /\ execute_fault fine = None
  /\ exists r',
       get_student fine 1 (mkDatabase [alice_22] 2)
       = (mkDatabase [alice_22] 2,
          Response (mkResponse (PDict (student_json r')) 200))
       /\ id r' = 1.
Proof.
  split; [reflexivity|]. split; [reflexivity|]. split; [reflexivity|].
  destruct (updated_student_can_be_fetched fine fine 1 age_22 one_student
              eq_refl eq_refl eq_refl) as [r [r' [_ [_ [G [I _]]]]]].
  exists r'. split; [exact G | exact I].
Defined.

(** Alice's body with a nickname added. *)
Lemma unrecognized_keys_are_ignored_witness :
  same_recognized alice_body (("nickname", PStr "Al") :: alice_body)
  /\ add_student fine (PDict alice_body) empty_database
     = add_student fine (PDict (("nickname", PStr "Al") :: alice_body))
                   empty_database.
Proof.
  assert (S : same_recognized alice_body
                              (("nickname", PStr "Al") :: alice_body))
    by (intros c; destruct c; reflexivity).
  split; [exact S|].
  exact (proj1 (unrecognized_keys_are_ignored fine 1 _ _ empty_database S)).
Defined.

(** Alice has neither age nor course. *)
Lemma omitted_optional_fields_are_null_witness :
  status_code (snd (add_student fine (PDict alice_body) empty_database)) = 201
  /\ exists r,
       students (fst (add_student fine (PDict alice_body) empty_database)) = [r]
       /\ age r = None /\ course r = None.
Proof.
  split; [reflexivity|].
  destruct (omitted_optional_fields_are_null fine alice_body empty_database
              eq_refl) as [r [E [A C]]].
  exists r. split; [exact E|]. split; [exact (A eq_refl) | exact (C eq_refl)].
Defined.

(** GET /students on a table with an undated row. *)
Lemma listing_tolerates_null_timestamps_witness :
  connect_ok fine = true /\ execute_fault fine = None
  /\ exists listed,
       get_all_students fine (mkDatabase [undated; alice] 6)
       = (mkDatabase [undated; alice] 6,
          Response (mkResponse (PList (map PDict (map student_json listed))) 200))
       /\ Permutation listed [undated; alice].
Proof.
  split; [reflexivity|]. split; [reflexivity|].
  destruct (listing_tolerates_null_timestamps fine
              (mkDatabase [undated; alice] 6) eq_refl eq_refl)
    as [listed [E [P _]]].
  exists listed. split; [exact E | exact P].
Defined.

(** PUT /students/1 with Alice's own email. *)
Lemma own_email_is_no_conflict_witness :
  In alice (students (serve first_post empty_database))
  /\ update_student fine 1 (PDict [("email", PStr "a@x.com")])
                    (serve first_post empty_database)
     = (serve first_post empty_database,
        Response (mkResponse
          (message_body "Student with ID 1 updated successfully.") 200)).
Proof.
  split; [now left|].
  exact (own_email_is_no_conflict first_post fine 1 "a@x.com" alice
           eq_refl eq_refl eq_refl (or_introl eq_refl) eq_refl eq_refl).
Defined.
